(** * KFS metaserver: request dispatcher, wire codec, operation log and
      checkpointer

    A shallow embedding of [src/cc/meta/request.cc] and
    [src/cc/meta/checkpoint.cc], with the constants of
    [src/cc/common/kfstypes.h].  Requests live in a store addressed by
    pointers, because the source passes [MetaRequest *] around and ties
    requests to one another.  The metadata tree, the layout manager, the
    [Properties] table and the leaf iterator are collaborators whose code is
    elsewhere: they are taken as parameters (type classes), and a small
    scripted instance is used to run the definitions on concrete inputs.
    Sequence numbers, handles and offsets are [long long] in the source;
    they are integers here, taken away from the limits of that type.  The
    one narrowing the claims depend on, the [int16_t] replica count of
    CREATE, is written out ([Wire.wrap16]). *)

From stdpp Require Import gmap strings list pretty.
From Stdlib Require Import ZArith Ascii.

Open Scope Z_scope.

(** ** Types and constants of [kfstypes.h] *)

Definition seq_t := Z.
Definition fid_t := Z.
Definition chunkId_t := Z.
Definition chunkOff_t := Z.

Definition ROOTFID : fid_t := 2.
Definition NUM_REPLICAS_PER_FILE : Z := 3.
Definition EALLOCFAILED : Z := 1005.

(** [errno] values of [<cerrno>] that the two files use (Linux numbering). *)
Definition ENOENT : Z := 2.
Definition EIO : Z := 5.
Definition EEXIST : Z := 17.
Definition ENOTDIR : Z := 20.
Definition ENOSPC : Z := 28.
Definition ENOSYS : Z := 38.
Definition EHOSTUNREACH : Z := 113.

(** A [MetaRequest *]: an address in the request store. *)
Definition ReqPtr := nat.
(** A [ChunkServerPtr]: the identity of a chunkserver object. *)
Definition ChunkServerPtr := nat.

(** ** Request classes

    [request.h] declares one class per operation, all derived from
    [MetaRequest] (fields [op], [opSeqno], [status], [suspended]).  The
    fields below are the ones [request.cc] reads or writes. *)

Inductive MetaOp :=
| META_LOOKUP | META_LOOKUP_PATH | META_CREATE | META_MKDIR | META_REMOVE
| META_RMDIR | META_READDIR | META_GETALLOC | META_GETLAYOUT | META_ALLOCATE
| META_TRUNCATE | META_RENAME | META_CHECKPOINT | META_CHUNK_REPLICATE
| META_CHUNK_REPLICATION_CHECK | META_HELLO | META_BYE | META_LEASE_ACQUIRE
| META_LEASE_RENEW | META_LEASE_CLEANUP | META_CHANGE_CHUNKVERSIONINC
| META_PING | META_STATS
| META_CHUNK_ALLOCATE | META_CHUNK_DELETE | META_CHUNK_TRUNCATE
| META_CHUNK_HEARTBEAT | META_CHUNK_STALENOTIFY | META_CHUNK_VERSCHANGE.

Definition MetaOp_tag (o : MetaOp) : nat :=
  match o with
  | META_LOOKUP => 0 | META_LOOKUP_PATH => 1 | META_CREATE => 2
  | META_MKDIR => 3 | META_REMOVE => 4 | META_RMDIR => 5 | META_READDIR => 6
  | META_GETALLOC => 7 | META_GETLAYOUT => 8 | META_ALLOCATE => 9
  | META_TRUNCATE => 10 | META_RENAME => 11 | META_CHECKPOINT => 12
  | META_CHUNK_REPLICATE => 13 | META_CHUNK_REPLICATION_CHECK => 14
  | META_HELLO => 15 | META_BYE => 16 | META_LEASE_ACQUIRE => 17
  | META_LEASE_RENEW => 18 | META_LEASE_CLEANUP => 19
  | META_CHANGE_CHUNKVERSIONINC => 20 | META_PING => 21 | META_STATS => 22
  | META_CHUNK_ALLOCATE => 23 | META_CHUNK_DELETE => 24
  | META_CHUNK_TRUNCATE => 25 | META_CHUNK_HEARTBEAT => 26
  | META_CHUNK_STALENOTIFY => 27 | META_CHUNK_VERSCHANGE => 28
  end%nat.

Definition MetaOp_of_tag (n : nat) : option MetaOp :=
  match n with
  | 0 => Some META_LOOKUP | 1 => Some META_LOOKUP_PATH | 2 => Some META_CREATE
  | 3 => Some META_MKDIR | 4 => Some META_REMOVE | 5 => Some META_RMDIR
  | 6 => Some META_READDIR | 7 => Some META_GETALLOC
  | 8 => Some META_GETLAYOUT | 9 => Some META_ALLOCATE
  | 10 => Some META_TRUNCATE | 11 => Some META_RENAME
  | 12 => Some META_CHECKPOINT | 13 => Some META_CHUNK_REPLICATE
  | 14 => Some META_CHUNK_REPLICATION_CHECK | 15 => Some META_HELLO
  | 16 => Some META_BYE | 17 => Some META_LEASE_ACQUIRE
  | 18 => Some META_LEASE_RENEW | 19 => Some META_LEASE_CLEANUP
  | 20 => Some META_CHANGE_CHUNKVERSIONINC | 21 => Some META_PING
  | 22 => Some META_STATS | 23 => Some META_CHUNK_ALLOCATE
  | 24 => Some META_CHUNK_DELETE | 25 => Some META_CHUNK_TRUNCATE
  | 26 => Some META_CHUNK_HEARTBEAT | 27 => Some META_CHUNK_STALENOTIFY
  | 28 => Some META_CHUNK_VERSCHANGE | _ => None
  end%nat.

Global Instance MetaOp_eq_dec : EqDecision MetaOp.
Proof. solve_decision. Defined.

Global Instance MetaOp_countable : Countable MetaOp.
Proof.
  apply (inj_countable MetaOp_tag MetaOp_of_tag).
  intros []; reflexivity.
Defined.

Inductive FileType := KFS_NONE | KFS_FILE | KFS_DIR.

Record MetaFattr := {
  fa_id : fid_t;
  fa_type : FileType;
  fa_chunkcount : Z
}.

Record MetaDentry := {
  de_dir : fid_t;       (* the parent *)
  de_name : string;     (* getName() *)
  de_fid : fid_t
}.

Record MetaChunkInfo := {
  ci_offset : chunkOff_t;
  ci_chunkId : chunkId_t;
  ci_chunkVersion : seq_t
}.

Record ServerLocation := {
  hostname : string;
  port : Z
}.

Record ChunkLayoutInfo := {
  l_offset : chunkOff_t;
  l_chunkId : chunkId_t;
  l_chunkVersion : seq_t;
  l_locations : list ServerLocation
}.

Inductive LeaseType := READ_LEASE | WRITE_LEASE.

(** The fields of [MetaAllocate]. *)
Record MetaAllocate := {
  fid : fid_t;
  offset : chunkOff_t;
  chunkId : chunkId_t;
  chunkVersion : seq_t;
  numReplicas : Z;
  layoutDone : bool;
  servers : list ChunkServerPtr;
  master : option ChunkServerPtr;
  req : option ReqPtr          (* the request this allocation is tied to *)
}.

(** The fields of [MetaHello]. *)
Record MetaHello := {
  location : ServerLocation;
  totalSpace : Z;
  usedSpace : Z;
  numChunks : Z;
  contentLength : Z
}.

Inductive MetaBody :=
| Lookup (dir : fid_t) (name : string) (result : option MetaFattr)
| LookupPath (root : fid_t) (path : string) (result : option MetaFattr)
| Create (dir : fid_t) (name : string) (nrep : Z) (newfid : fid_t)
| Mkdir (dir : fid_t) (name : string) (newfid : fid_t)
| Remove (dir : fid_t) (name : string)
| Rmdir (dir : fid_t) (name : string)
| Readdir (dir : fid_t) (v : list MetaDentry)
| Getalloc (f : fid_t) (off : chunkOff_t) (cid : chunkId_t) (cvers : seq_t)
  (locations : list ServerLocation)
| Getlayout (f : fid_t) (v : list ChunkLayoutInfo)
| Allocate (a : MetaAllocate)
| Truncate (f : fid_t) (off : chunkOff_t)
| Rename (dir : fid_t) (oldname newname : string) (overwrite : bool)
| Checkpoint
| ChunkReplicate (f : fid_t) (cid : chunkId_t) (cvers : seq_t)
  (srcLocation : ServerLocation)
| ChunkReplicationCheck
| Hello (h : MetaHello)
| Bye (server : ChunkServerPtr)
| LeaseAcquire (cid : chunkId_t) (leaseId : Z)
| LeaseRenew (leaseType : LeaseType) (cid : chunkId_t) (leaseId : Z)
| LeaseCleanup
| ChangeChunkVersionInc (cvi : seq_t) (dep : ReqPtr)
| Ping (pservers : string)
| Stats (stats : string)
| ChunkAllocate (dep : option ReqPtr) (leaseId : Z)   (* [req], null or not *)
| ChunkDelete (cid : chunkId_t)
| ChunkTruncate (cid : chunkId_t) (chunkSize : Z)
| ChunkHeartbeat
| ChunkStaleNotify (staleChunkIds : list chunkId_t)
| ChunkVersChange (f : fid_t) (cid : chunkId_t) (cvers : seq_t).

Record MetaRequest := {
  opSeqno : seq_t;
  status : Z;
  suspended : bool;
  body : MetaBody
}.

(** [r->op]: fixed by the class of the request. *)
Definition op_of_body (b : MetaBody) : MetaOp :=
  match b with
  | Lookup _ _ _ => META_LOOKUP
  | LookupPath _ _ _ => META_LOOKUP_PATH
  | Create _ _ _ _ => META_CREATE
  | Mkdir _ _ _ => META_MKDIR
  | Remove _ _ => META_REMOVE
  | Rmdir _ _ => META_RMDIR
  | Readdir _ _ => META_READDIR
  | Getalloc _ _ _ _ _ => META_GETALLOC
  | Getlayout _ _ => META_GETLAYOUT
  | Allocate _ => META_ALLOCATE
  | Truncate _ _ => META_TRUNCATE
  | Rename _ _ _ _ => META_RENAME
  | Checkpoint => META_CHECKPOINT
  | ChunkReplicate _ _ _ _ => META_CHUNK_REPLICATE
  | ChunkReplicationCheck => META_CHUNK_REPLICATION_CHECK
  | Hello _ => META_HELLO
  | Bye _ => META_BYE
  | LeaseAcquire _ _ => META_LEASE_ACQUIRE
  | LeaseRenew _ _ _ => META_LEASE_RENEW
  | LeaseCleanup => META_LEASE_CLEANUP
  | ChangeChunkVersionInc _ _ => META_CHANGE_CHUNKVERSIONINC
  | Ping _ => META_PING
  | Stats _ => META_STATS
  | ChunkAllocate _ _ => META_CHUNK_ALLOCATE
  | ChunkDelete _ => META_CHUNK_DELETE
  | ChunkTruncate _ _ => META_CHUNK_TRUNCATE
  | ChunkHeartbeat => META_CHUNK_HEARTBEAT
  | ChunkStaleNotify _ => META_CHUNK_STALENOTIFY
  | ChunkVersChange _ _ _ => META_CHUNK_VERSCHANGE
  end.

Definition op (r : MetaRequest) : MetaOp := op_of_body (body r).

(** A request as its constructor leaves it: status 0, not suspended. *)
Definition new_request (seq : seq_t) (b : MetaBody) : MetaRequest :=
  {| opSeqno := seq; status := 0; suspended := false; body := b |}.

(** [new MetaAllocate(seq, fid, offset)]: the layout is not done and the
    request is tied to no other one. *)
Definition new_MetaAllocate (seq : seq_t) (f : fid_t) (off : chunkOff_t)
  : MetaRequest :=
  new_request seq
    (Allocate {| fid := f; offset := off; chunkId := 0;
                 chunkVersion := 0; numReplicas := 0;
                 layoutDone := false; servers := []; master := None;
                 req := None |}).

Definition set_status (st : Z) (r : MetaRequest) : MetaRequest :=
  {| opSeqno := opSeqno r; status := st; suspended := suspended r;
     body := body r |}.

Definition set_suspended (b : bool) (r : MetaRequest) : MetaRequest :=
  {| opSeqno := opSeqno r; status := status r; suspended := b;
     body := body r |}.

Definition set_body (b : MetaBody) (r : MetaRequest) : MetaRequest :=
  {| opSeqno := opSeqno r; status := status r; suspended := suspended r;
     body := b |}.

(** ** Output streams

    An [ofstream] as the code sees it: the characters inserted so far
    and the fail bit ([fail()]).  A stream that has failed ignores
    insertions.  A stream that has not failed takes an insertion, unless
    the stream gives out in the middle of it: [room] is the number of
    characters the stream still takes before that happens ([None]: it
    never happens).  For a file stream this number is fixed by the buffer
    of the stream and by the device together, not by the size of the
    device alone: what is inserted goes to the buffer first.  The
    insertion on which the stream gives out takes the characters that
    still fit and sets the fail bit. *)

Module Stream.

Record ofstream := {
    written : string;
    failbit : bool;
    room : option nat
  }.

Definition fail (f : ofstream) : bool := failbit f.

Definition put (s : string) (f : ofstream) : ofstream :=
  if failbit f then f
  else match room f with
       | None => {| written := written f +:+ s; failbit := false;
                    room := None |}
       | Some n =>
           if (String.length s <=? n)%nat
           then {| written := written f +:+ s; failbit := false;
                   room := Some (n - String.length s)%nat |}
           else {| written := written f +:+ String.substring 0 n s;
                   failbit := true; room := Some 0%nat |}
       end.

(** [file << s1 << s2 << ...] *)
Definition puts (l : list string) (f : ofstream) : ofstream :=
  foldl (fun g s => put s g) f l.

Definition nl : string := String "010"%char EmptyString.

(** Number of newline characters of a text. *)
Fixpoint newlines (s : string) : nat :=
  match s with
  | EmptyString => 0
  | String c t => (if decide (c = "010"%char) then 1 else 0) + newlines t
  end%nat.

(** The text of a chain of insertions. *)
Definition chain (l : list string) : string := foldr String.append "" l.

End Stream.

(** ** The log methods ([MetaLookup::log] .. [MetaChunkReplicationCheck::log]) *)

Module Log.
Import Stream.

(** [file << ... << '\n'; return file.fail() ? -EIO : 0;] *)
Definition write_record (l : list string) (file : ofstream)
  : ofstream * Z :=
  let file' := puts l file in
  (file', if fail file' then - EIO else 0).

Section Methods.
(** [oplog.finishLog()], which [MetaCheckpoint::log] returns. *)
Variable finishLog : ofstream -> ofstream * Z.

Definition log (r : MetaRequest) (file : ofstream) : ofstream * Z :=
  match body r with
  | Lookup _ _ _ => (file, 0)
  | LookupPath _ _ _ => (file, 0)
  | Create dir name nrep newfid =>
      write_record ["create/dir/"; pretty dir; "/name/"; name;
                    "/id/"; pretty newfid;
                    "/numReplicas/"; pretty nrep; nl] file
  | Mkdir dir name newfid =>
      write_record ["mkdir/dir/"; pretty dir; "/name/"; name;
                    "/id/"; pretty newfid; nl] file
  | Remove dir name =>
      write_record ["remove/dir/"; pretty dir; "/name/"; name; nl] file
  | Rmdir dir name =>
      write_record ["rmdir/dir/"; pretty dir; "/name/"; name; nl] file
  | Readdir _ _ => (file, 0)
  | Getalloc _ _ _ _ _ => (file, 0)
  | Getlayout _ _ => (file, 0)
  | Allocate a =>
      write_record ["allocate/file/"; pretty (fid a);
                    "/offset/"; pretty (offset a);
                    "/chunkId/"; pretty (chunkId a);
                    "/chunkVersion/"; pretty (chunkVersion a); nl] file
  | Truncate f off =>
      write_record ["truncate/file/"; pretty f;
                    "/offset/"; pretty off; nl] file
  | Rename dir oldname newname _ =>
      write_record ["rename/dir/"; pretty dir; "/old/"; oldname;
                    "/new/"; newname; nl] file
  | ChangeChunkVersionInc cvi _ =>
      write_record ["chunkVersionInc/"; pretty cvi; nl] file
  | Checkpoint => finishLog file
  | Hello _ => (file, 0)
  | Bye _ => (file, 0)
  | ChunkAllocate _ _ => (file, 0)
  | ChunkDelete _ => (file, 0)
  | ChunkTruncate _ _ => (file, 0)
  | ChunkHeartbeat => (file, 0)
  | ChunkStaleNotify _ => (file, 0)
  | ChunkVersChange _ _ _ => (file, 0)
  | ChunkReplicate _ _ _ _ => (file, 0)
  | Ping _ => (file, 0)
  | Stats _ => (file, 0)
  | LeaseAcquire _ _ => (file, 0)
  | LeaseRenew _ _ _ => (file, 0)
  | LeaseCleanup => (file, 0)
  | ChunkReplicationCheck => (file, 0)
  end.
End Methods.

(** The operations whose records make up the operation log, and the
    opcode that starts each record. *)
Definition opcode (o : MetaOp) : option string :=
  match o with
  | META_CREATE => Some "create"
  | META_MKDIR => Some "mkdir"
  | META_REMOVE => Some "remove"
  | META_RMDIR => Some "rmdir"
  | META_ALLOCATE => Some "allocate"
  | META_TRUNCATE => Some "truncate"
  | META_RENAME => Some "rename"
  | META_CHANGE_CHUNKVERSIONINC => Some "chunkVersionInc"
  | _ => None
  end.

(** The pure queries: lookups, directory and layout reads, lease and
    monitoring operations, and the chunkserver RPCs. *)
Definition is_query (o : MetaOp) : bool :=
  match o with
  | META_LOOKUP | META_LOOKUP_PATH | META_READDIR | META_GETALLOC
  | META_GETLAYOUT | META_LEASE_ACQUIRE | META_LEASE_RENEW
  | META_LEASE_CLEANUP | META_PING | META_STATS | META_HELLO | META_BYE
  | META_CHUNK_ALLOCATE | META_CHUNK_DELETE | META_CHUNK_TRUNCATE
  | META_CHUNK_HEARTBEAT | META_CHUNK_STALENOTIFY | META_CHUNK_VERSCHANGE
  | META_CHUNK_REPLICATE | META_CHUNK_REPLICATION_CHECK => true
  | _ => false
  end.

(** The record of a request as the specification words it: the keys and
    values that follow the opcode, to be joined by slashes. *)
Definition record_fields (b : MetaBody) : list string :=
  match b with
  | Create dir name nrep newfid =>
      ["dir"; pretty dir; "name"; name; "id"; pretty newfid;
       "numReplicas"; pretty nrep]
  | Mkdir dir name newfid =>
      ["dir"; pretty dir; "name"; name; "id"; pretty newfid]
  | Remove dir name => ["dir"; pretty dir; "name"; name]
  | Rmdir dir name => ["dir"; pretty dir; "name"; name]
  | Allocate a =>
      ["file"; pretty (fid a); "offset"; pretty (offset a);
       "chunkId"; pretty (chunkId a);
       "chunkVersion"; pretty (chunkVersion a)]
  | Truncate f off => ["file"; pretty f; "offset"; pretty off]
  | Rename dir oldname newname _ =>
      ["dir"; pretty dir; "old"; oldname; "new"; newname]
  | ChangeChunkVersionInc cvi _ => [pretty cvi]
  | _ => []
  end.

Fixpoint slash_join (l : list string) : string :=
  match l with
  | [] => ""
  | [x] => x
  | x :: t => x +:+ "/" +:+ slash_join t
  end.

(** The names a request carries: they come from header lines of the wire
    protocol, which hold no newline. *)
Definition names (b : MetaBody) : list string :=
  match b with
  | Create _ name _ _ | Mkdir _ name _ | Remove _ name | Rmdir _ name =>
      [name]
  | Rename _ oldname newname _ => [oldname; newname]
  | _ => []
  end.

Definition single_line (b : MetaBody) : Prop :=
  Forall (fun s => newlines s = 0%nat) (names b).

(** Whether the character [c] occurs in the text [s]. *)
Fixpoint occurs (c : ascii) (s : string) : bool :=
  match s with
  | EmptyString => false
  | String d t => bool_decide (d = c) || occurs c t
  end.

(** The numbers a record is made of, for the records that hold no name. *)
Definition logged_numbers (b : MetaBody) : option (MetaOp * list Z) :=
  match b with
  | Allocate a =>
      Some (META_ALLOCATE, [fid a; offset a; chunkId a; chunkVersion a])
  | Truncate f off => Some (META_TRUNCATE, [f; off])
  | ChangeChunkVersionInc cvi _ => Some (META_CHANGE_CHUNKVERSIONINC, [cvi])
  | _ => None
  end.

End Log.

(** ** The wire codec: [ParseCommand] and the parse handlers *)

Module Wire.

(** A [Properties] table: header name to the text of its value.  The
    class is declared in [common/properties.h]; its loader and its
    conversions from text to numbers are parameters, and so is
    [ServerLocation::IsValid]. *)
Class PropertiesLib := {
    loadProperties : string -> gmap string string;
    toInt : string -> Z;            (* getValue(key, int) on a present key *)
    toLongLong : string -> Z;       (* getValue(key, long long) *)
    IsValid : ServerLocation -> bool
  }.

(** What a parse handler hands back: its return value and [*r]. *)
Definition ParseResult : Type := Z * option MetaRequest.
Definition parse_fail : ParseResult := (-1, None).
Definition parse_ok (r : MetaRequest) : ParseResult := (0, Some r).

(** Assignment of an [int] to an [int16_t]. *)
Definition wrap16 (z : Z) : Z := (z + 32768) mod 65536 - 32768.

(** [ist >> cmdStr]: skip white space, then read up to the next white
    space; the second component is what is left in the stream. *)
Fixpoint skip_space (s : string) : string :=
  match s with
  | String c t => if Ascii.is_space c then skip_space t else s
  | EmptyString => EmptyString
  end.

Fixpoint read_word (s : string) : string * string :=
  match s with
  | String c t =>
      if Ascii.is_space c then (EmptyString, s)
      else let (w, rest) := read_word t in (String c w, rest)
  | EmptyString => (EmptyString, EmptyString)
  end.

(** [cmdStr.find_first_of(" \r\n")] followed by [erase]. *)
Fixpoint erase_from_delim (s : string) : string :=
  match s with
  | String c t =>
      if bool_decide (c = " "%char \/ c = "013"%char \/ c = "010"%char)
      then EmptyString else String c (erase_from_delim t)
  | EmptyString => EmptyString
  end.

(** The text that [istringstream ist(cmdBuf)] reads from a [char *]: what
    comes before the first NUL of the buffer (the length that is passed
    along is not looked at). *)
Fixpoint c_str (s : string) : string :=
  match s with
  | String c t =>
      if bool_decide (c = "000"%char) then EmptyString
      else String c (c_str t)
  | EmptyString => EmptyString
  end.

Section Handlers.
Context `{PropertiesLib}.

Definition getValue_ll (prop : gmap string string) (key : string)
           (def : Z) : Z :=
  match prop !! key with Some v => toLongLong v | None => def end.

Definition getValue_int (prop : gmap string string) (key : string)
           (def : Z) : Z :=
  match prop !! key with Some v => toInt v | None => def end.

(** The [const char *] overload; [None] is the [NULL] default. *)
Definition getValue_cstr (prop : gmap string string) (key : string)
  : option string := prop !! key.

Definition getValue_str (prop : gmap string string) (key : string)
           (def : string) : string :=
  match prop !! key with Some v => v | None => def end.

Definition parseHandlerLookup (prop : gmap string string) : ParseResult :=
  let seq := getValue_ll prop "Cseq" (-1) in
  let dir := getValue_ll prop "Parent File-handle" (-1) in
  if dir <? 0 then parse_fail else
  match getValue_cstr prop "Filename" with
  | None => parse_fail
  | Some name => parse_ok (new_request seq (Lookup dir name None))
  end.

Definition parseHandlerLookupPath (prop : gmap string string)
  : ParseResult :=
  let seq := getValue_ll prop "Cseq" (-1) in
  let root := getValue_ll prop "Root File-handle" (-1) in
  if root <? 0 then parse_fail else
  match getValue_cstr prop "Pathname" with
  | None => parse_fail
  | Some path => parse_ok (new_request seq (LookupPath root path None))
  end.

Definition parseHandlerCreate (prop : gmap string string) : ParseResult :=
  let seq := getValue_ll prop "Cseq" (-1) in
  let dir := getValue_ll prop "Parent File-handle" (-1) in
  if dir <? 0 then parse_fail else
  match getValue_cstr prop "Filename" with
  | None => parse_fail
  | Some name =>
      let numReplicas := wrap16 (getValue_int prop "Num-replicas" 1) in
      if numReplicas =? 0 then parse_fail else
      (* cap replication at 3 *)
      let numReplicas :=
        if NUM_REPLICAS_PER_FILE <? numReplicas
        then NUM_REPLICAS_PER_FILE else numReplicas in
      parse_ok (new_request seq (Create dir name numReplicas 0))
  end.

Definition parseHandlerRemove (prop : gmap string string) : ParseResult :=
  let seq := getValue_ll prop "Cseq" (-1) in
  let dir := getValue_ll prop "Parent File-handle" (-1) in
  if dir <? 0 then parse_fail else
  match getValue_cstr prop "Filename" with
  | None => parse_fail
  | Some name => parse_ok (new_request seq (Remove dir name))
  end.

Definition parseHandlerMkdir (prop : gmap string string) : ParseResult :=
  let seq := getValue_ll prop "Cseq" (-1) in
  let dir := getValue_ll prop "Parent File-handle" (-1) in
  if dir <? 0 then parse_fail else
  match getValue_cstr prop "Directory" with
  | None => parse_fail
  | Some name => parse_ok (new_request seq (Mkdir dir name 0))
  end.

Definition parseHandlerRmdir (prop : gmap string string) : ParseResult :=
  let seq := getValue_ll prop "Cseq" (-1) in
  let dir := getValue_ll prop "Parent File-handle" (-1) in
  if dir <? 0 then parse_fail else
  match getValue_cstr prop "Directory" with
  | None => parse_fail
  | Some name => parse_ok (new_request seq (Rmdir dir name))
  end.

Definition parseHandlerReaddir (prop : gmap string string)
  : ParseResult :=
  let seq := getValue_ll prop "Cseq" (-1) in
  let dir := getValue_ll prop "Directory File-handle" (-1) in
  if dir <? 0 then parse_fail
  else parse_ok (new_request seq (Readdir dir [])).

Definition parseHandlerGetalloc (prop : gmap string string)
  : ParseResult :=
  let seq := getValue_ll prop "Cseq" (-1) in
  let f := getValue_ll prop "File-handle" (-1) in
  let off := getValue_ll prop "Chunk-offset" (-1) in
  if (f <? 0) || (off <? 0) then parse_fail
  else parse_ok (new_request seq (Getalloc f off 0 0 [])).

Definition parseHandlerGetlayout (prop : gmap string string)
  : ParseResult :=
  let seq := getValue_ll prop "Cseq" (-1) in
  let f := getValue_ll prop "File-handle" (-1) in
  if f <? 0 then parse_fail
  else parse_ok (new_request seq (Getlayout f [])).

Definition parseHandlerAllocate (prop : gmap string string)
  : ParseResult :=
  let seq := getValue_ll prop "Cseq" (-1) in
  let f := getValue_ll prop "File-handle" (-1) in
  let off := getValue_ll prop "Chunk-offset" (-1) in
  if (f <? 0) || (off <? 0) then parse_fail
  else parse_ok (new_MetaAllocate seq f off).

Definition parseHandlerTruncate (prop : gmap string string)
  : ParseResult :=
  let seq := getValue_ll prop "Cseq" (-1) in
  let f := getValue_ll prop "File-handle" (-1) in
  let off := getValue_ll prop "Offset" (-1) in
  if (f <? 0) || (off <? 0) then parse_fail
  else parse_ok (new_request seq (Truncate f off)).

Definition parseHandlerRename (prop : gmap string string) : ParseResult :=
  let seq := getValue_ll prop "Cseq" (-1) in
  let f := getValue_ll prop "Parent File-handle" (-1) in
  let oldname := getValue_cstr prop "Old-name" in
  let newpath := getValue_cstr prop "New-path" in
  let overwrite := getValue_int prop "Overwrite" 0 =? 1 in
  match oldname, newpath with
  | Some o, Some n =>
      if f <? 0 then parse_fail
      else parse_ok (new_request seq (Rename f o n overwrite))
  | _, _ => parse_fail
  end.

Definition parseHandlerHello (prop : gmap string string) : ParseResult :=
  let seq := getValue_ll prop "Cseq" (-1) in
  let loc := {| hostname := getValue_str prop "Chunk-server-name" "";
                port := getValue_int prop "Chunk-server-port" (-1) |} in
  if negb (IsValid loc) then parse_fail else
  parse_ok (new_request seq (Hello
    {| location := loc;
       totalSpace := getValue_ll prop "Total-space" 0;
       usedSpace := getValue_ll prop "Used-space" 0;
       numChunks := getValue_int prop "Num-chunks" 0;
       contentLength := getValue_int prop "Content-length" 0 |})).

Definition parseHandlerLeaseAcquire (prop : gmap string string)
  : ParseResult :=
  let seq := getValue_ll prop "Cseq" (-1) in
  let cid := getValue_ll prop "Chunk-handle" (-1) in
  parse_ok (new_request seq (LeaseAcquire cid 0)).

Definition parseHandlerLeaseRenew (prop : gmap string string)
  : ParseResult :=
  let seq := getValue_ll prop "Cseq" (-1) in
  let cid := getValue_ll prop "Chunk-handle" (-1) in
  let leaseId := getValue_ll prop "Lease-id" (-1) in
  let leaseTypeStr := getValue_str prop "Lease-type" "READ_LEASE" in
  let leaseType :=
    if decide (leaseTypeStr = "WRITE_LEASE") then WRITE_LEASE
    else READ_LEASE in
  parse_ok (new_request seq (LeaseRenew leaseType cid leaseId)).

Definition parseHandlerPing (prop : gmap string string) : ParseResult :=
  let seq := getValue_ll prop "Cseq" (-1) in
  parse_ok (new_request seq (Ping "")).

Definition parseHandlerStats (prop : gmap string string) : ParseResult :=
  let seq := getValue_ll prop "Cseq" (-1) in
  parse_ok (new_request seq (Stats "")).

(** [gParseHandlers] as [setup_handlers] fills it. *)
Definition gParseHandlers (cmd : string)
  : option (gmap string string -> ParseResult) :=
  if decide (cmd = "LOOKUP") then Some parseHandlerLookup
  else if decide (cmd = "LOOKUP_PATH") then Some parseHandlerLookupPath
  else if decide (cmd = "CREATE") then Some parseHandlerCreate
  else if decide (cmd = "MKDIR") then Some parseHandlerMkdir
  else if decide (cmd = "REMOVE") then Some parseHandlerRemove
  else if decide (cmd = "RMDIR") then Some parseHandlerRmdir
  else if decide (cmd = "READDIR") then Some parseHandlerReaddir
  else if decide (cmd = "GETALLOC") then Some parseHandlerGetalloc
  else if decide (cmd = "GETLAYOUT") then Some parseHandlerGetlayout
  else if decide (cmd = "ALLOCATE") then Some parseHandlerAllocate
  else if decide (cmd = "TRUNCATE") then Some parseHandlerTruncate
  else if decide (cmd = "RENAME") then Some parseHandlerRename
  else if decide (cmd = "LEASE_ACQUIRE") then Some parseHandlerLeaseAcquire
  else if decide (cmd = "LEASE_RENEW") then Some parseHandlerLeaseRenew
  else if decide (cmd = "HELLO") then Some parseHandlerHello
  else if decide (cmd = "PING") then Some parseHandlerPing
  else if decide (cmd = "STATS") then Some parseHandlerStats
  else None.

Definition ParseCommand (cmdBuf : string) : ParseResult :=
  let (cmdStr, ist) := read_word (skip_space (c_str cmdBuf)) in
  let cmdStr := erase_from_delim cmdStr in
  match gParseHandlers cmdStr with
  | None => parse_fail
  | Some handler => handler (loadProperties ist)
  end.

(** What the handlers check before they build a request.  A [Handle] is
    a file handle or an offset read as a [long long]: absent it reads as
    -1, and a negative value is refused.  A [Name] is refused when
    absent.  [Replicas] is the replica count of CREATE, refused when it
    reads as 0. *)
Inductive Check := Handle | Name | Replicas.

Definition checked (cmd : string) : list (string * Check) :=
  if decide (cmd = "LOOKUP")
  then [("Parent File-handle", Handle); ("Filename", Name)]
  else if decide (cmd = "LOOKUP_PATH")
  then [("Root File-handle", Handle); ("Pathname", Name)]
  else if decide (cmd = "CREATE")
  then [("Parent File-handle", Handle); ("Filename", Name);
        ("Num-replicas", Replicas)]
  else if decide (cmd = "MKDIR")
  then [("Parent File-handle", Handle); ("Directory", Name)]
  else if decide (cmd = "REMOVE")
  then [("Parent File-handle", Handle); ("Filename", Name)]
  else if decide (cmd = "RMDIR")
  then [("Parent File-handle", Handle); ("Directory", Name)]
  else if decide (cmd = "READDIR")
  then [("Directory File-handle", Handle)]
  else if decide (cmd = "GETALLOC")
  then [("File-handle", Handle); ("Chunk-offset", Handle)]
  else if decide (cmd = "GETLAYOUT")
  then [("File-handle", Handle)]
  else if decide (cmd = "ALLOCATE")
  then [("File-handle", Handle); ("Chunk-offset", Handle)]
  else if decide (cmd = "TRUNCATE")
  then [("File-handle", Handle); ("Offset", Handle)]
  else if decide (cmd = "RENAME")
  then [("Parent File-handle", Handle); ("Old-name", Name);
        ("New-path", Name)]
  else [].

Definition refused (prop : gmap string string) (h : string * Check) : bool :=
  match h.2 with
  | Handle => getValue_ll prop h.1 (-1) <? 0
  | Name => bool_decide (prop !! h.1 = None)
  | Replicas => wrap16 (getValue_int prop h.1 1) =? 0
  end.

End Handlers.

(** A run of white space, and a word: a text that is not empty and holds
    no white space. *)
Fixpoint is_blank (s : string) : bool :=
  match s with
  | EmptyString => true
  | String c t => Ascii.is_space c && is_blank t
  end.

Fixpoint no_space (s : string) : bool :=
  match s with
  | EmptyString => true
  | String c t => negb (Ascii.is_space c) && no_space t
  end.

Definition is_word (s : string) : bool :=
  match s with
  | EmptyString => false
  | String _ _ => no_space s
  end.

(** What follows a word in a stream: nothing, or white space first. *)
Definition after_word (s : string) : bool :=
  match s with
  | EmptyString => true
  | String c _ => Ascii.is_space c
  end.

(** A text without a NUL, and what follows a word in a buffer: nothing,
    white space, or the NUL that ends the text. *)
Fixpoint no_nul (s : string) : bool :=
  match s with
  | EmptyString => true
  | String c t => negb (bool_decide (c = "000"%char)) && no_nul t
  end.

Definition ends_word (s : string) : bool :=
  match s with
  | EmptyString => true
  | String c _ => Ascii.is_space c || bool_decide (c = "000"%char)
  end.

(** The class of the request that the handler of each command makes with
    [new]. *)
Definition command_op (cmd : string) : option MetaOp :=
  if decide (cmd = "LOOKUP") then Some META_LOOKUP
  else if decide (cmd = "LOOKUP_PATH") then Some META_LOOKUP_PATH
  else if decide (cmd = "CREATE") then Some META_CREATE
  else if decide (cmd = "MKDIR") then Some META_MKDIR
  else if decide (cmd = "REMOVE") then Some META_REMOVE
  else if decide (cmd = "RMDIR") then Some META_RMDIR
  else if decide (cmd = "READDIR") then Some META_READDIR
  else if decide (cmd = "GETALLOC") then Some META_GETALLOC
  else if decide (cmd = "GETLAYOUT") then Some META_GETLAYOUT
  else if decide (cmd = "ALLOCATE") then Some META_ALLOCATE
  else if decide (cmd = "TRUNCATE") then Some META_TRUNCATE
  else if decide (cmd = "RENAME") then Some META_RENAME
  else if decide (cmd = "LEASE_ACQUIRE") then Some META_LEASE_ACQUIRE
  else if decide (cmd = "LEASE_RENEW") then Some META_LEASE_RENEW
  else if decide (cmd = "HELLO") then Some META_HELLO
  else if decide (cmd = "PING") then Some META_PING
  else if decide (cmd = "STATS") then Some META_STATS
  else None.

End Wire.

(** ** Responses: [MetaReaddir::response] *)

Module Reply.

Definition crlf : string := String "013"%char (String "010"%char "").
Definition lf : string := String "010"%char "".

(** One turn of the loop over [v]: [res] and [numEntries] after the
    entry [d] has been looked at. *)
Definition readdir_step (dir : fid_t) (acc : string * Z) (d : MetaDentry)
  : string * Z :=
  let (res, numEntries) := acc in
  (* "/" doesn't have "/" as an entry in it. *)
  if bool_decide (dir = ROOTFID) && bool_decide (de_name d = "/")
  then (res, numEntries)
  else (res +:+ de_name d +:+ lf, numEntries + 1).

Definition readdir_loop (dir : fid_t) (v : list MetaDentry) : string * Z :=
  foldl (readdir_step dir) ("", 0) v.

(** [MetaReaddir::response(os)]: the text appended to [os]. *)
Definition MetaReaddir_response (r : MetaRequest) (dir : fid_t)
           (v : list MetaDentry) (os : string) : string :=
  let os := os +:+ "OK" +:+ crlf in
  let os := os +:+ "Cseq: " +:+ pretty (opSeqno r) +:+ crlf in
  let os := os +:+ "Status: " +:+ pretty (status r) +:+ crlf in
  if status r <? 0 then os +:+ crlf
  else
    let (res, numEntries) := readdir_loop dir v in
    let os := os +:+ "Num-Entries: " +:+ pretty numEntries +:+ crlf in
    let os := os +:+ "Content-length: " +:+ pretty (String.length res)
                 +:+ crlf +:+ crlf in
    if (0 <? String.length res)%nat then os +:+ res else os.

(** The dentries a directory listing is to show: all of them, except
    the root's own entry "/". *)
Definition listed (dir : fid_t) (v : list MetaDentry) : list MetaDentry :=
  if bool_decide (dir = ROOTFID)
  then filter (fun d => de_name d <> "/") v
  else v.

Fixpoint name_lines (l : list MetaDentry) : string :=
  match l with
  | [] => ""
  | d :: t => de_name d +:+ lf +:+ name_lines t
  end.

End Reply.

(** ** Responses to clients and requests to chunkservers

    The [response] methods of the client requests and the [request]
    methods of the chunkserver RPCs, each giving the stream after the
    method has written to it. *)

Module Respond.
Import Reply.

(** What the methods call to print ids, times, locations and servers:
    [toString] and [sendtime] ([util.h]), [ServerLocation::ToString],
    [ChunkLayoutInfo::toString] and [ChunkServer::ServerID].  The times
    of a [MetaFattr] and the attributes its constructor leaves are
    parameters as well. *)
Class Printers := {
    toString : Z -> string;
    Time : Type;
    mtime : MetaFattr -> Time;
    ctime : MetaFattr -> Time;
    crtime : MetaFattr -> Time;
    (* what [sendtime(os, key, t, sep)] adds to [os] *)
    sendtime : string -> Time -> string -> string;
    blank_fattr : MetaFattr;
    ToString : ServerLocation -> string;
    layout_toString : ChunkLayoutInfo -> string;
    ServerID : ChunkServerPtr -> string
  }.

(** A method writes its text, or stops at an [assert] or at a null
    [master]. *)
Inductive Outcome := Sent (os : string) | Aborted.

Section Methods.
Context `{Printers}.

(** [static string fname[] = { "empty", "file", "dir" }], indexed by the
    file type. *)
Definition fname (t : FileType) : string :=
  match t with
  | KFS_NONE => "empty"
  | KFS_FILE => "file"
  | KFS_DIR => "dir"
  end.

Definition MetaLookup_response (r : MetaRequest)
           (result : option MetaFattr) (os : string) : string :=
  let result := default blank_fattr result in
  let os := os +:+ "OK" +:+ crlf in
  let os := os +:+ "Cseq: " +:+ pretty (opSeqno r) +:+ crlf in
  let os := os +:+ "Status: " +:+ pretty (status r) +:+ crlf in
  if status r <? 0 then os +:+ crlf
  else
    let os := os +:+ "File-handle: " +:+ toString (fa_id result) +:+ crlf in
    let os := os +:+ "Type: " +:+ fname (fa_type result) +:+ crlf in
    let os := os +:+ "Chunk-count: " +:+ toString (fa_chunkcount result)
                 +:+ crlf in
    let os := os +:+ sendtime "M-Time:" (mtime result) crlf in
    let os := os +:+ sendtime "C-Time:" (ctime result) crlf in
    os +:+ sendtime "CR-Time:" (crtime result) (crlf +:+ crlf).

Definition MetaLookupPath_response (r : MetaRequest)
           (result : option MetaFattr) (os : string) : string :=
  let result := default blank_fattr result in
  let os := os +:+ "OK" +:+ crlf in
  let os := os +:+ "Cseq: " +:+ pretty (opSeqno r) +:+ crlf in
  let os := os +:+ "Status: " +:+ pretty (status r) +:+ crlf in
  if status r <? 0 then os +:+ crlf
  else
    let os := os +:+ "File-handle: " +:+ toString (fa_id result) +:+ crlf in
    let os := os +:+ "Type: " +:+ fname (fa_type result) +:+ crlf in
    let os := os +:+ "Chunk-count: " +:+ toString (fa_chunkcount result)
                 +:+ crlf in
    let os := os +:+ sendtime "M-Time:" (mtime result) crlf in
    let os := os +:+ sendtime "C-Time:" (ctime result) crlf in
    os +:+ sendtime "CR-Time:" (crtime result) (crlf +:+ crlf).

Definition MetaCreate_response (r : MetaRequest) (fid : fid_t)
           (os : string) : string :=
  let os := os +:+ "OK" +:+ crlf in
  let os := os +:+ "Cseq: " +:+ pretty (opSeqno r) +:+ crlf in
  let os := os +:+ "Status: " +:+ pretty (status r) +:+ crlf in
  if status r <? 0 then os +:+ crlf
  else os +:+ "File-handle: " +:+ toString fid +:+ crlf +:+ crlf.

Definition MetaRemove_response (r : MetaRequest) (os : string) : string :=
  let os := os +:+ "OK" +:+ crlf in
  let os := os +:+ "Cseq: " +:+ pretty (opSeqno r) +:+ crlf in
  os +:+ "Status: " +:+ pretty (status r) +:+ crlf +:+ crlf.

Definition MetaMkdir_response (r : MetaRequest) (fid : fid_t)
           (os : string) : string :=
  let os := os +:+ "OK" +:+ crlf in
  let os := os +:+ "Cseq: " +:+ pretty (opSeqno r) +:+ crlf in
  let os := os +:+ "Status: " +:+ pretty (status r) +:+ crlf in
  if status r <? 0 then os +:+ crlf
  else os +:+ "File-handle: " +:+ toString fid +:+ crlf +:+ crlf.

Definition MetaRmdir_response (r : MetaRequest) (os : string) : string :=
  let os := os +:+ "OK" +:+ crlf in
  let os := os +:+ "Cseq: " +:+ pretty (opSeqno r) +:+ crlf in
  os +:+ "Status: " +:+ pretty (status r) +:+ crlf +:+ crlf.

Definition MetaRename_response (r : MetaRequest) (os : string) : string :=
  let os := os +:+ "OK" +:+ crlf in
  let os := os +:+ "Cseq: " +:+ pretty (opSeqno r) +:+ crlf in
  os +:+ "Status: " +:+ pretty (status r) +:+ crlf +:+ crlf.

(** [for_each(locations, ListServerLocations(os))] *)
Definition ListServerLocations (l : list ServerLocation) (os : string)
  : string :=
  foldl (fun os s => os +:+ " " +:+ ToString s) os l.

(** The replicas of a chunk as a response words them: a blank and the
    location, for each location from the first to the last. *)
Fixpoint replicas_text (l : list ServerLocation) : string :=
  match l with
  | [] => ""
  | x :: t => " " +:+ ToString x +:+ replicas_text t
  end.

Definition MetaGetalloc_response (r : MetaRequest) (chunkId : chunkId_t)
           (chunkVersion : seq_t) (locations : list ServerLocation)
           (os : string) : Outcome :=
  let os := os +:+ "OK" +:+ crlf in
  let os := os +:+ "Cseq: " +:+ pretty (opSeqno r) +:+ crlf in
  let os := os +:+ "Status: " +:+ pretty (status r) +:+ crlf in
  if status r <? 0 then Sent (os +:+ crlf)
  else
    let os := os +:+ "Chunk-handle: " +:+ pretty chunkId +:+ crlf in
    let os := os +:+ "Chunk-version: " +:+ pretty chunkVersion +:+ crlf in
    let os := os +:+ "Num-replicas: " +:+ pretty (length locations)
                 +:+ crlf in
    (* assert(locations.size() > 0) *)
    if negb (0 <? length locations)%nat then Aborted
    else
      let os := os +:+ "Replicas:" in
      let os := ListServerLocations locations os in
      Sent (os +:+ crlf +:+ crlf).

Definition MetaGetlayout_response (r : MetaRequest)
           (v : list ChunkLayoutInfo) (os : string) : string :=
  let os := os +:+ "OK" +:+ crlf in
  let os := os +:+ "Cseq: " +:+ pretty (opSeqno r) +:+ crlf in
  let os := os +:+ "Status: " +:+ pretty (status r) +:+ crlf in
  if status r <? 0 then os +:+ crlf
  else
    let os := os +:+ "Num-chunks: " +:+ pretty (length v) +:+ crlf in
    (* Send over the layout info *)
    let res := foldl (fun res l => res +:+ layout_toString l) "" v in
    let os := os +:+ "Content-length: " +:+ pretty (String.length res)
                 +:+ crlf +:+ crlf in
    if (0 <? String.length res)%nat then os +:+ res else os.

(** [for_each(servers, PrintChunkServerLocations(os))] *)
Definition PrintChunkServerLocations (l : list ChunkServerPtr) (os : string)
  : string :=
  foldl (fun os s => os +:+ " " +:+ ServerID s) os l.

Definition MetaAllocate_response (r : MetaRequest) (a : MetaAllocate)
           (os : string) : Outcome :=
  let os := os +:+ "OK" +:+ crlf in
  let os := os +:+ "Cseq: " +:+ pretty (opSeqno r) +:+ crlf in
  let os := os +:+ "Status: " +:+ pretty (status r) +:+ crlf in
  if status r <? 0 then Sent (os +:+ crlf)
  else
    let os := os +:+ "Chunk-handle: " +:+ pretty (chunkId a) +:+ crlf in
    let os := os +:+ "Chunk-version: " +:+ pretty (chunkVersion a)
                 +:+ crlf in
    match master a with
    | None => Aborted                      (* master->ServerID() *)
    | Some m =>
        let os := os +:+ "Master: " +:+ ServerID m +:+ crlf in
        let os := os +:+ "Num-replicas: " +:+ pretty (length (servers a))
                     +:+ crlf in
        (* assert(servers.size() > 0) *)
        if negb (0 <? length (servers a))%nat then Aborted
        else
          let os := os +:+ "Replicas:" in
          let os := PrintChunkServerLocations (servers a) os in
          Sent (os +:+ crlf +:+ crlf)
    end.

Definition MetaLeaseAcquire_response (r : MetaRequest) (leaseId : Z)
           (os : string) : string :=
  let os := os +:+ "OK" +:+ crlf in
  let os := os +:+ "Cseq: " +:+ pretty (opSeqno r) +:+ crlf in
  let os := os +:+ "Status: " +:+ pretty (status r) +:+ crlf in
  let os := if 0 <=? status r
            then os +:+ "Lease-id: " +:+ pretty leaseId +:+ crlf
            else os in
  os +:+ crlf.

Definition MetaLeaseRenew_response (r : MetaRequest) (os : string)
  : string :=
  let os := os +:+ "OK" +:+ crlf in
  let os := os +:+ "Cseq: " +:+ pretty (opSeqno r) +:+ crlf in
  os +:+ "Status: " +:+ pretty (status r) +:+ crlf +:+ crlf.

Definition MetaTruncate_response (r : MetaRequest) (os : string) : string :=
  let os := os +:+ "OK" +:+ crlf in
  let os := os +:+ "Cseq: " +:+ pretty (opSeqno r) +:+ crlf in
  os +:+ "Status: " +:+ pretty (status r) +:+ crlf +:+ crlf.

Definition MetaPing_response (r : MetaRequest) (servers : string)
           (os : string) : string :=
  let os := os +:+ "OK" +:+ crlf in
  let os := os +:+ "Cseq: " +:+ pretty (opSeqno r) +:+ crlf in
  let os := os +:+ "Status: " +:+ pretty (status r) +:+ crlf in
  os +:+ "Servers: " +:+ servers +:+ crlf +:+ crlf.

Definition MetaStats_response (r : MetaRequest) (stats : string)
           (os : string) : string :=
  let os := os +:+ "OK" +:+ crlf in
  let os := os +:+ "Cseq: " +:+ pretty (opSeqno r) +:+ crlf in
  let os := os +:+ "Status: " +:+ pretty (status r) +:+ crlf in
  os +:+ stats +:+ crlf.

(** [r->response(os)], by the class of [r]; [None] for the classes
    whose [response] is not in [request.cc]. *)
Definition response (r : MetaRequest) (os : string) : option Outcome :=
  match body r with
  | Lookup _ _ result => Some (Sent (MetaLookup_response r result os))
  | LookupPath _ _ result =>
      Some (Sent (MetaLookupPath_response r result os))
  | Create _ _ _ newfid => Some (Sent (MetaCreate_response r newfid os))
  | Remove _ _ => Some (Sent (MetaRemove_response r os))
  | Mkdir _ _ newfid => Some (Sent (MetaMkdir_response r newfid os))
  | Rmdir _ _ => Some (Sent (MetaRmdir_response r os))
  | Readdir dir v => Some (Sent (MetaReaddir_response r dir v os))
  | Rename _ _ _ _ => Some (Sent (MetaRename_response r os))
  | Getalloc _ _ cid cvers locations =>
      Some (MetaGetalloc_response r cid cvers locations os)
  | Getlayout _ v => Some (Sent (MetaGetlayout_response r v os))
  | Allocate a => Some (MetaAllocate_response r a os)
  | LeaseAcquire _ leaseId =>
      Some (Sent (MetaLeaseAcquire_response r leaseId os))
  | LeaseRenew _ _ _ => Some (Sent (MetaLeaseRenew_response r os))
  | Truncate _ _ => Some (Sent (MetaTruncate_response r os))
  | Ping servers => Some (Sent (MetaPing_response r servers os))
  | Stats stats => Some (Sent (MetaStats_response r stats os))
  | _ => None
  end.

(** The [request] methods of the RPCs to the chunkservers. *)

Definition MetaChunkAllocate_request (r : MetaRequest)
           (allocOp : MetaAllocate) (leaseId : Z) (os : string) : Outcome :=
  let os := os +:+ "ALLOCATE " +:+ crlf in
  let os := os +:+ "Cseq: " +:+ pretty (opSeqno r) +:+ crlf in
  let os := os +:+ "Version: KFS/1.0" +:+ crlf in
  let os := os +:+ "File-handle: " +:+ pretty (fid allocOp) +:+ crlf in
  let os := os +:+ "Chunk-handle: " +:+ pretty (chunkId allocOp)
               +:+ crlf in
  let os := os +:+ "Chunk-version: " +:+ pretty (chunkVersion allocOp)
               +:+ crlf in
  let os := if 0 <=? leaseId
            then os +:+ "Lease-id: " +:+ pretty leaseId +:+ crlf
            else os in
  let os := os +:+ "Num-servers: " +:+ pretty (length (servers allocOp))
               +:+ crlf in
  (* assert(allocOp->servers.size() > 0) *)
  if negb (0 <? length (servers allocOp))%nat then Aborted
  else
    let os := os +:+ "Servers:" in
    let os := PrintChunkServerLocations (servers allocOp) os in
    Sent (os +:+ crlf +:+ crlf).

Definition MetaChunkDelete_request (r : MetaRequest) (chunkId : chunkId_t)
           (os : string) : string :=
  let os := os +:+ "DELETE " +:+ crlf in
  let os := os +:+ "Cseq: " +:+ pretty (opSeqno r) +:+ crlf in
  let os := os +:+ "Version: KFS/1.0" +:+ crlf in
  os +:+ "Chunk-handle: " +:+ pretty chunkId +:+ crlf +:+ crlf.

Definition MetaChunkTruncate_request (r : MetaRequest)
           (chunkId : chunkId_t) (chunkSize : Z) (os : string) : string :=
  let os := os +:+ "TRUNCATE " +:+ crlf in
  let os := os +:+ "Cseq: " +:+ pretty (opSeqno r) +:+ crlf in
  let os := os +:+ "Version: KFS/1.0" +:+ crlf in
  let os := os +:+ "Chunk-handle: " +:+ pretty chunkId +:+ crlf in
  os +:+ "Chunk-size: " +:+ pretty chunkSize +:+ crlf +:+ crlf.

Definition MetaChunkHeartbeat_request (r : MetaRequest) (os : string)
  : string :=
  let os := os +:+ "HEARTBEAT " +:+ crlf in
  let os := os +:+ "Cseq: " +:+ pretty (opSeqno r) +:+ crlf in
  os +:+ "Version: KFS/1.0" +:+ crlf +:+ crlf.

Definition MetaChunkStaleNotify_request (r : MetaRequest)
           (staleChunkIds : list chunkId_t) (os : string) : string :=
  let os := os +:+ "STALE_CHUNKS " +:+ crlf in
  let os := os +:+ "Cseq: " +:+ pretty (opSeqno r) +:+ crlf in
  let os := os +:+ "Version: KFS/1.0" +:+ crlf in
  let os := os +:+ "Num-chunks: " +:+ pretty (length staleChunkIds)
               +:+ crlf in
  let s := foldl (fun s c => (s +:+ toString c) +:+ " ") "" staleChunkIds in
  let os := os +:+ "Content-length: " +:+ pretty (String.length s)
               +:+ crlf +:+ crlf in
  os +:+ s.

Definition MetaChunkVersChange_request (r : MetaRequest) (fid : fid_t)
           (chunkId : chunkId_t) (chunkVersion : seq_t) (os : string)
  : string :=
  let os := os +:+ "CHUNK_VERS_CHANGE " +:+ crlf in
  let os := os +:+ "Cseq: " +:+ pretty (opSeqno r) +:+ crlf in
  let os := os +:+ "Version: KFS/1.0" +:+ crlf in
  let os := os +:+ "File-handle: " +:+ pretty fid +:+ crlf in
  let os := os +:+ "Chunk-handle: " +:+ pretty chunkId +:+ crlf in
  os +:+ "Chunk-version: " +:+ pretty chunkVersion +:+ crlf +:+ crlf.

Definition MetaChunkReplicate_request (r : MetaRequest) (fid : fid_t)
           (chunkId : chunkId_t) (chunkVersion : seq_t)
           (srcLocation : ServerLocation) (os : string) : string :=
  let os := os +:+ "REPLICATE " +:+ crlf in
  let os := os +:+ "Cseq: " +:+ pretty (opSeqno r) +:+ crlf in
  let os := os +:+ "Version: KFS/1.0" +:+ crlf in
  let os := os +:+ "File-handle: " +:+ pretty fid +:+ crlf in
  let os := os +:+ "Chunk-handle: " +:+ pretty chunkId +:+ crlf in
  let os := os +:+ "Chunk-version: " +:+ pretty chunkVersion +:+ crlf in
  os +:+ "Chunk-location: " +:+ ToString srcLocation +:+ crlf +:+ crlf.

(** [r->request(os)], by the class of [r].  [MetaChunkAllocate] casts
    its [req] to an allocation and asserts that it is not null; it then
    reads the allocation in the store [heap].  [None] when [req] is not
    null and points to no allocation (the cast is then undefined), and for
    the classes that have no [request]. *)
Definition request (heap : gmap ReqPtr MetaRequest) (r : MetaRequest)
           (os : string) : option Outcome :=
  match body r with
  | ChunkAllocate None leaseId =>
      Some Aborted                         (* assert(allocOp != NULL) *)
  | ChunkAllocate (Some dep) leaseId =>
      match body <$> heap !! dep with
      | Some (Allocate allocOp) =>
          Some (MetaChunkAllocate_request r allocOp leaseId os)
      | _ => None
      end
  | ChunkDelete cid => Some (Sent (MetaChunkDelete_request r cid os))
  | ChunkTruncate cid size =>
      Some (Sent (MetaChunkTruncate_request r cid size os))
  | ChunkHeartbeat => Some (Sent (MetaChunkHeartbeat_request r os))
  | ChunkStaleNotify ids =>
      Some (Sent (MetaChunkStaleNotify_request r ids os))
  | ChunkVersChange f cid cvers =>
      Some (Sent (MetaChunkVersChange_request r f cid cvers os))
  | ChunkReplicate f cid cvers src =>
      Some (Sent (MetaChunkReplicate_request r f cid cvers src os))
  | _ => None
  end.

(** The three lines every response starts with. *)
Definition status_lines (r : MetaRequest) : string :=
  "OK" +:+ crlf +:+ "Cseq: " +:+ pretty (opSeqno r) +:+ crlf +:+
  "Status: " +:+ pretty (status r) +:+ crlf.

(** The command word of each RPC to a chunkserver. *)
Definition rpc_name (b : MetaBody) : string :=
  match b with
  | ChunkAllocate _ _ => "ALLOCATE"
  | ChunkDelete _ => "DELETE"
  | ChunkTruncate _ _ => "TRUNCATE"
  | ChunkHeartbeat => "HEARTBEAT"
  | ChunkStaleNotify _ => "STALE_CHUNKS"
  | ChunkVersChange _ _ _ => "CHUNK_VERS_CHANGE"
  | ChunkReplicate _ _ _ _ => "REPLICATE"
  | _ => ""
  end.

(** The three lines every RPC to a chunkserver starts with. *)
Definition rpc_lines (r : MetaRequest) : string :=
  rpc_name (body r) +:+ " " +:+ crlf +:+
  "Cseq: " +:+ pretty (opSeqno r) +:+ crlf +:+
  "Version: KFS/1.0" +:+ crlf.

End Methods.

End Respond.

(** ** The checkpointer ([checkpoint.cc]) *)

Module Cp.
Import Stream.

(** A tree node (the iterator's [parent()]) is known by its identity. *)
Definition Node := nat.

(** The leaf entities ([Meta], declared in [meta.h]): the skip flag and
    the virtual [checkpoint] method are parameters. *)
Class MetaLib (Meta : Type) := {
    skip : Meta -> bool;
    checkpoint : Meta -> ofstream -> ofstream * Z
  }.

(** What the checkpoint thread does to entities, in order. *)
Inductive Event (Meta : Type) :=
  | Emitted (m : Meta)        (* m->checkpoint(file) *)
  | Cleared (m : Meta)        (* m->clearskip() *)
  | Deleted (m : Meta).       (* delete m *)
Arguments Emitted {Meta} m.
Arguments Cleared {Meta} m.
Arguments Deleted {Meta} m.

Record Checkpoint (Meta : Type) := {
    running : bool;
    mutations : Z;
    nostart : bool;
    startblocked : bool;
    cpcount : Z;
    activeNode : option Node;
    zombie : list Meta;             (* the zombie queue, head first *)
    file : ofstream;
    cpname : string;
    wakeups : nat;                  (* writer.wakeup() calls so far *)
    events : list (Event Meta)
  }.
Arguments running {Meta} c.
Arguments mutations {Meta} c.
Arguments nostart {Meta} c.
Arguments startblocked {Meta} c.
Arguments cpcount {Meta} c.
Arguments activeNode {Meta} c.
Arguments zombie {Meta} c.
Arguments file {Meta} c.
Arguments cpname {Meta} c.
Arguments wakeups {Meta} c.
Arguments events {Meta} c.

(** What [do_CP] reads from the log, the seeds and the clock. *)
Record CpInputs := {
    highest : seq_t;             (* oplog.checkpointed() *)
    cpfile : string;             (* cpfile(highest) *)
    opened : ofstream;           (* the stream after file.open(cpname) *)
    VERSION : Z;
    fid_seed : Z;
    chunkId_seed : Z;
    chunkVersionInc : Z;
    ctime : string;              (* ctime(&t), which ends in a newline *)
    log_name : string            (* oplog.name() *)
  }.

Section Methods.
Context {Meta : Type} `{MetaLib Meta}.

Definition set_flags (r : bool) (m : Z) (n b : bool) (w : nat)
           (c : Checkpoint Meta) : Checkpoint Meta :=
  {| running := r; mutations := m; nostart := n; startblocked := b;
     cpcount := cpcount c; activeNode := activeNode c;
     zombie := zombie c; file := file c; cpname := cpname c;
     wakeups := w; events := events c |}.

Definition isCPNeeded (c : Checkpoint Meta) : bool :=
  negb (running c) && negb (mutations c =? 0).

Definition start_CP (c : Checkpoint Meta) : Checkpoint Meta :=
  if negb (running c) && negb (mutations c =? 0) then
    if nostart c
    then set_flags (running c) (mutations c) (nostart c) true
                   (wakeups c) c
    else set_flags true 0 (nostart c) (startblocked c)
                   (S (wakeups c)) c
  else c.

(** Returns the new state and the value of [running]. *)
Definition lock_running (c : Checkpoint Meta) : Checkpoint Meta * bool :=
  (set_flags (running c) (mutations c) true (startblocked c)
             (wakeups c) c,
   running c).

Definition unlock_running (c : Checkpoint Meta) : Checkpoint Meta :=
  let startit := startblocked c in
  let c := set_flags (running c) (mutations c) false false
                     (wakeups c) c in
  if startit then start_CP c else c.

Definition save_active (n : option Node) (c : Checkpoint Meta)
  : Checkpoint Meta :=
  {| running := running c; mutations := mutations c;
     nostart := nostart c; startblocked := startblocked c;
     cpcount := cpcount c; activeNode := n;
     zombie := zombie c; file := file c; cpname := cpname c;
     wakeups := match activeNode c with
                | Some _ => S (wakeups c)
                | None => wakeups c
                end;
     events := events c |}.

Definition set_file (f : ofstream) (c : Checkpoint Meta)
  : Checkpoint Meta :=
  {| running := running c; mutations := mutations c;
     nostart := nostart c; startblocked := startblocked c;
     cpcount := cpcount c; activeNode := activeNode c;
     zombie := zombie c; file := f; cpname := cpname c;
     wakeups := wakeups c; events := events c |}.

Definition set_zombie (z : list Meta) (c : Checkpoint Meta)
  : Checkpoint Meta :=
  {| running := running c; mutations := mutations c;
     nostart := nostart c; startblocked := startblocked c;
     cpcount := cpcount c; activeNode := activeNode c;
     zombie := z; file := file c; cpname := cpname c;
     wakeups := wakeups c; events := events c |}.

Definition note (e : Event Meta) (c : Checkpoint Meta)
  : Checkpoint Meta :=
  {| running := running c; mutations := mutations c;
     nostart := nostart c; startblocked := startblocked c;
     cpcount := cpcount c; activeNode := activeNode c;
     zombie := zombie c; file := file c; cpname := cpname c;
     wakeups := wakeups c; events := events c ++ [e] |}.

(** [m->checkpoint(file)] on the checkpoint's own stream. *)
Definition emit (m : Meta) (c : Checkpoint Meta) : Checkpoint Meta * Z :=
  let (f, s) := checkpoint m (file c) in
  (note (Emitted m) (set_file f c), s).

(** Modelled from the spec: the leaf iterator [LeafIter] of [kfstree.h]
    is missing; section 4.1 has the leaves visited in key order, so the
    iterator is the list of the entities still to visit, each with the
    node that holds it.  [parent()] is the node of the head, [NULL] at
    the end. *)
Definition parent (li : list (Node * Meta)) : option Node :=
  match li with
  | [] => None
  | (p, _) :: _ => Some p
  end.

(** The [while] loop of [write_leaves]. *)
Fixpoint write_leaves_loop (li : list (Node * Meta)) (status : Z)
         (c : Checkpoint Meta) : Checkpoint Meta * Z :=
  match li with
  | [] => (c, status)
  | (_, m) :: rest =>
      if status =? 0 then
        let (c, status) :=
          if skip m then (note (Cleared m) c, status) else emit m c in
        let p := parent rest in
        let c := if decide (p = activeNode c) then c
                 else save_active p c in
        write_leaves_loop rest status c
      else (c, status)
  end.

Definition write_leaves (li : list (Node * Meta)) (c : Checkpoint Meta)
  : Checkpoint Meta * Z :=
  let c := save_active (parent li) c in
  let (c, status) := write_leaves_loop li 0 c in
  (save_active None c, status).

(** The [while (!zombie.empty())] loop, by recursion on the queue. *)
Fixpoint write_zombies_loop (q : list Meta) (status : Z)
         (c : Checkpoint Meta) : Checkpoint Meta * Z :=
  match q with
  | [] => (set_zombie [] c, status)
  | m :: rest =>
      let c := set_zombie rest c in            (* zombie.dequeue() *)
      let (c, s) := emit m c in
      let status := if status =? 0 then s else status in
      write_zombies_loop rest status (note (Deleted m) c)
  end.

Definition write_zombies (c : Checkpoint Meta) : Checkpoint Meta * Z :=
  write_zombies_loop (zombie c) 0 c.

Definition finish (c : Checkpoint Meta) : Checkpoint Meta :=
  {| running := false; mutations := mutations c;
     nostart := nostart c; startblocked := startblocked c;
     cpcount := cpcount c + 1; activeNode := activeNode c;
     zombie := zombie c; file := file c; cpname := cpname c;
     wakeups := wakeups c; events := events c |}.

(** [do_CP]: [None] while nobody has started the checkpoint (the
    thread sleeps).  Closing the file and linking [latest] to it change
    nothing that is kept here. *)
Definition do_CP (i : CpInputs) (leaves : list (Node * Meta))
           (c : Checkpoint Meta) : option (Checkpoint Meta * Z) :=
  if negb (running c) then None else
  let c := {| running := running c; mutations := mutations c;
              nostart := nostart c; startblocked := startblocked c;
              cpcount := cpcount c; activeNode := activeNode c;
              zombie := zombie c; file := opened i; cpname := cpfile i;
              wakeups := wakeups c; events := events c |} in
  let status := if fail (file c) then - EIO else 0 in
  let (c, status) :=
    if status =? 0 then
      let f := puts ["checkpoint/"; pretty (highest i); nl;
                     "version/"; pretty (VERSION i); nl;
                     "fid/"; pretty (fid_seed i); nl;
                     "chunkId/"; pretty (chunkId_seed i); nl;
                     "chunkVersionInc/"; pretty (chunkVersionInc i); nl;
                     "time/"; ctime i;
                     "log/"; log_name i; nl; nl] (file c) in
      let (c, status) := write_leaves leaves (set_file f c) in
      if status =? 0 then write_zombies c else (c, status)
    else (c, status) in
  Some (finish c, status).

(** The part of the state that only [start_CP], [lock_running],
    [unlock_running] and the end of [do_CP] write. *)
Definition same_flags (c c' : Checkpoint Meta) : Prop :=
  running c' = running c /\ mutations c' = mutations c /\
  nostart c' = nostart c /\ startblocked c' = startblocked c /\
  cpcount c' = cpcount c.

(** The calls the other threads make on the checkpointer, interleaved in
    some order.  [OpMutations m] is a write of the dispatcher to
    [mutations] between two calls. *)
Inductive Op :=
| OpStart
| OpLock
| OpUnlock
| OpDoCP (i : CpInputs) (leaves : list (Node * Meta))
| OpMutations (m : Z).

Definition step (o : Op) (c : Checkpoint Meta)
  : option (Checkpoint Meta) :=
  match o with
  | OpStart => Some (start_CP c)
  | OpLock => Some (lock_running c).1
  | OpUnlock => Some (unlock_running c)
  | OpDoCP i leaves => fst <$> do_CP i leaves c
  | OpMutations m =>
      Some (set_flags (running c) m (nostart c) (startblocked c)
                      (wakeups c) c)
  end.

(** A step starts a checkpoint when it turns [running] on. *)
Definition starts (c c' : Checkpoint Meta) : Z :=
  if negb (running c) && running c' then 1 else 0.

(** Runs the calls in order and counts the checkpoints they start;
    [None] when a call would block. *)
Fixpoint run (ops : list Op) (c : Checkpoint Meta) (started : Z)
  : option (Checkpoint Meta * Z) :=
  match ops with
  | [] => Some (c, started)
  | o :: rest =>
      match step o c with
      | Some c' => run rest c' (started + starts c c')
      | None => None
      end
  end.

(** What the checkpoint thread is to do with the leaves it visits and
    with the zombies, in the words of the specification: a leaf is
    emitted (or its skip flag cleared), a zombie is emitted and then
    destroyed. *)
Definition leaf_events (leaves : list (Node * Meta)) : list (Event Meta) :=
  map (fun pm => if skip pm.2 then Cleared pm.2 else Emitted pm.2) leaves.

Definition zombie_events (q : list Meta) : list (Event Meta) :=
  flat_map (fun m => [Emitted m; Deleted m]) q.

(** [wait_if_active(n)]: the caller sleeps for as long as [n] is the
    active node; [None] stands for a caller that is left sleeping. *)
Definition wait_if_active (n : option Node) (c : Checkpoint Meta)
  : option (Checkpoint Meta) :=
  if decide (activeNode c = n) then None else Some c.

(** The status of each [m->checkpoint(file)] of a run over the entities
    [q], the stream being handed from one to the next. *)
Fixpoint statuses (q : list Meta) (f : ofstream) : list Z :=
  match q with
  | [] => []
  | m :: rest => (checkpoint m f).2 :: statuses rest (checkpoint m f).1
  end.

(** The first status that is not 0, or 0 when there is none. *)
Fixpoint first_error (l : list Z) : Z :=
  match l with
  | [] => 0
  | s :: rest => if s =? 0 then first_error rest else s
  end.

(** The seven header lines of a checkpoint file and the blank line after
    them. *)
Definition header (i : CpInputs) : string :=
  "checkpoint/" +:+ pretty (highest i) +:+ nl +:+
  "version/" +:+ pretty (VERSION i) +:+ nl +:+
  "fid/" +:+ pretty (fid_seed i) +:+ nl +:+
  "chunkId/" +:+ pretty (chunkId_seed i) +:+ nl +:+
  "chunkVersionInc/" +:+ pretty (chunkVersionInc i) +:+ nl +:+
  "time/" +:+ ctime i +:+
  "log/" +:+ log_name i +:+ nl +:+ nl.

(** An entity writer that only adds to the stream it is given. *)
Definition appends_only : Prop :=
  forall (m : Meta) (f : ofstream),
    exists t, written (checkpoint m f).1 = written f +:+ t.

(** The leaves a pass over the tree writes: those whose skip flag is not
    set, in visiting order. *)
Definition unskipped (li : list (Node * Meta)) : list Meta :=
  filter (fun m => skip m = false) li.*2.

(** The stream once the entities [q] have been written to it in order. *)
Definition emitted (q : list Meta) (f : ofstream) : ofstream :=
  foldl (fun g m => (checkpoint m g).1) f q.


End Methods.

End Cp.

(** ** The request dispatcher ([request.cc]) *)

Module Dispatch.

(** Calls into the layout manager, the chunkservers and the tree whose
    result the handlers do not look at.  They are recorded in order. *)
Inductive Call :=
  | NotifyChunkVersChange (p : ChunkServerPtr) (f : fid_t) (c : chunkId_t)
                          (v : seq_t)
  | RemoveChunkToServerMapping (c : chunkId_t)
  | AddNewServer (r : ReqPtr)
  | ServerDown (p : ChunkServerPtr)
  | LayoutLeaseCleanup
  | cleanupDumpster
  | ChunkReplicationChecker
  | ChunkReplicationDone (r : ReqPtr).

(** The metadata tree ([kfstree.h]) and the layout manager
    ([LayoutManager.h]) over their own state [W].  An output parameter
    is passed as its value before the call and comes back as its value
    after it. *)
Class Collaborators (W : Type) := {
    getFattr : W -> fid_t -> option MetaFattr;
    tree_lookup : W -> fid_t -> string -> option MetaFattr;
    lookupPath : W -> fid_t -> string -> option MetaFattr;
    create : W -> fid_t -> string -> fid_t -> Z -> Z * fid_t * W;
    mkdir : W -> fid_t -> string -> fid_t -> Z * fid_t * W;
    remove : W -> fid_t -> string -> Z * W;
    rmdir : W -> fid_t -> string -> Z * W;
    readdir : W -> fid_t -> list MetaDentry -> Z * list MetaDentry;
    getalloc1 : W -> fid_t -> chunkOff_t -> Z * MetaChunkInfo;
    getalloc : W -> fid_t -> Z * list MetaChunkInfo;
    allocateChunkId : W -> fid_t -> chunkOff_t -> chunkId_t * seq_t * Z ->
                      Z * (chunkId_t * seq_t * Z) * W;
    getChunkVersion : W -> fid_t -> chunkId_t -> seq_t -> seq_t;
    assignChunkId : W -> fid_t -> chunkOff_t -> chunkId_t -> seq_t -> Z * W;
    truncate : W -> fid_t -> chunkOff_t -> chunkOff_t -> Z * chunkOff_t * W;
    rename : W -> fid_t -> string -> string -> bool -> Z * W;
    GetChunkToServerMapping : W -> chunkId_t -> list ChunkServerPtr ->
                              Z * list ChunkServerPtr;
    GetServerLocation : W -> ChunkServerPtr -> ServerLocation;
    GetChunkWriteLease : W -> ReqPtr -> MetaAllocate ->
                         Z * bool * MetaAllocate * W;
    AllocateChunk : W -> ReqPtr -> MetaAllocate -> Z * MetaAllocate * W;
    GetChunkReadLease : W -> chunkId_t -> Z -> Z * Z * W;
    LayoutLeaseRenew : W -> LeaseType -> chunkId_t -> Z -> Z * W;
    LayoutPing : W -> string -> string;
    Show : W -> list (string * Z) -> string;
    void_call : Call -> W -> W
  }.

(** A [Counter]: its name and its value. *)
Record Counter := { cname : string; cvalue : Z }.

Definition Update (n : Z) (c : Counter) : Counter :=
  {| cname := cname c; cvalue := cvalue c + n |}.

Record State (W : Type) := {
    heap : gmap ReqPtr MetaRequest;      (* the requests, by address *)
    brk : ReqPtr;                        (* the address [new] hands out next *)
    requestList : list ReqPtr;           (* head is dequeued first *)
    chunkVersionInc : seq_t;
    gCounters : gmap MetaOp Counter;
    calledOnce : bool;                   (* of RegisterCounters *)
    pending : list ReqPtr;               (* given to oplog.add_pending *)
    calls : list Call;
    world : W
  }.
Arguments heap {W} s.
Arguments brk {W} s.
Arguments requestList {W} s.
Arguments chunkVersionInc {W} s.
Arguments gCounters {W} s.
Arguments calledOnce {W} s.
Arguments pending {W} s.
Arguments calls {W} s.
Arguments world {W} s.

Section Handlers.
Context {W : Type} `{Collaborators W}.

Definition set_heap (h : gmap ReqPtr MetaRequest) (s : State W)
  : State W :=
  {| heap := h; brk := brk s; requestList := requestList s;
     chunkVersionInc := chunkVersionInc s; gCounters := gCounters s;
     calledOnce := calledOnce s; pending := pending s;
     calls := calls s; world := world s |}.

Definition set_world (w : W) (s : State W) : State W :=
  {| heap := heap s; brk := brk s; requestList := requestList s;
     chunkVersionInc := chunkVersionInc s; gCounters := gCounters s;
     calledOnce := calledOnce s; pending := pending s;
     calls := calls s; world := w |}.

Definition set_requestList (q : list ReqPtr) (s : State W) : State W :=
  {| heap := heap s; brk := brk s; requestList := q;
     chunkVersionInc := chunkVersionInc s; gCounters := gCounters s;
     calledOnce := calledOnce s; pending := pending s;
     calls := calls s; world := world s |}.

Definition set_gCounters (g : gmap MetaOp Counter) (once : bool)
           (s : State W) : State W :=
  {| heap := heap s; brk := brk s; requestList := requestList s;
     chunkVersionInc := chunkVersionInc s; gCounters := g;
     calledOnce := once; pending := pending s;
     calls := calls s; world := world s |}.

(** [*r = v] *)
Definition store (r : ReqPtr) (v : MetaRequest) (s : State W) : State W :=
  set_heap (<[r := v]> (heap s)) s.

(** [new]: a fresh address holding [v]. *)
Definition new (v : MetaRequest) (s : State W) : ReqPtr * State W :=
  (brk s,
   {| heap := <[brk s := v]> (heap s); brk := S (brk s);
      requestList := requestList s;
      chunkVersionInc := chunkVersionInc s; gCounters := gCounters s;
      calledOnce := calledOnce s; pending := pending s;
      calls := calls s; world := world s |}).

(** A call whose result is not used: recorded, and the collaborators
    move on. *)
Definition call (c : Call) (s : State W) : State W :=
  {| heap := heap s; brk := brk s; requestList := requestList s;
     chunkVersionInc := chunkVersionInc s; gCounters := gCounters s;
     calledOnce := calledOnce s; pending := pending s;
     calls := calls s ++ [c]; world := void_call c (world s) |}.

Definition file_exists (s : State W) (f : fid_t) : bool :=
  match getFattr (world s) f with Some _ => true | None => false end.

Definition is_dir (s : State W) (f : fid_t) : bool :=
  match getFattr (world s) f with
  | Some fa => match fa_type fa with KFS_DIR => true | _ => false end
  | None => false
  end.

Definition AddCounter (name : string) (opName : MetaOp) (s : State W)
  : State W :=
  set_gCounters (<[opName := {| cname := name; cvalue := 0 |}]>
                   (gCounters s)) (calledOnce s) s.

Definition RegisterCounters (s : State W) : State W :=
  if calledOnce s then s else
  let s := set_gCounters (gCounters s) true s in
  let s := AddCounter "Get alloc" META_GETALLOC s in
  let s := AddCounter "Get layout" META_GETLAYOUT s in
  let s := AddCounter "Lookup" META_LOOKUP s in
  let s := AddCounter "Lookup Path" META_LOOKUP_PATH s in
  let s := AddCounter "Allocate" META_ALLOCATE s in
  let s := AddCounter "Truncate" META_TRUNCATE s in
  let s := AddCounter "Create" META_CREATE s in
  let s := AddCounter "Remove" META_REMOVE s in
  let s := AddCounter "Rename" META_RENAME s in
  let s := AddCounter "Mkdir" META_MKDIR s in
  let s := AddCounter "Rmdir" META_RMDIR s in
  let s := AddCounter "Lease Acquire" META_LEASE_ACQUIRE s in
  let s := AddCounter "Lease Renew" META_LEASE_RENEW s in
  let s := AddCounter "Lease Cleanup" META_LEASE_CLEANUP s in
  let s := AddCounter "Chunkserver Hello " META_HELLO s in
  let s := AddCounter "Chunkserver Bye " META_BYE s in
  let s := AddCounter "Replication Checker "
                      META_CHUNK_REPLICATION_CHECK s in
  AddCounter "Replication Done " META_CHUNK_REPLICATE s.

Definition UpdateCounter (opName : MetaOp) (s : State W) : State W :=
  match gCounters s !! opName with
  | None => s
  | Some c =>
      set_gCounters (<[opName := Update 1 c]> (gCounters s))
                    (calledOnce s) s
  end.

(** [submit_request]: enqueue at the tail of [requestList]. *)
Definition submit_request (r : ReqPtr) (s : State W) : State W :=
  set_requestList (requestList s ++ [r]) s.

(** [oplog.add_pending(r)]. *)
Definition add_pending (r : ReqPtr) (s : State W) : State W :=
  {| heap := heap s; brk := brk s; requestList := requestList s;
     chunkVersionInc := chunkVersionInc s; gCounters := gCounters s;
     calledOnce := calledOnce s; pending := pending s ++ [r];
     calls := calls s; world := world s |}.

Definition ChangeIncarnationNumber (r : ReqPtr) (s : State W) : State W :=
  let s := {| heap := heap s; brk := brk s;
              requestList := requestList s;
              chunkVersionInc := chunkVersionInc s + 1;
              gCounters := gCounters s; calledOnce := calledOnce s;
              pending := pending s; calls := calls s;
              world := world s |} in
  let (ccvi, s) :=
    new (new_request 0 (ChangeChunkVersionInc (chunkVersionInc s) r)) s in
  submit_request ccvi s.

(** Field updates of a [MetaAllocate]. *)
Definition set_ids (c : chunkId_t) (v : seq_t) (n : Z) (a : MetaAllocate)
  : MetaAllocate :=
  {| fid := fid a; offset := offset a; chunkId := c; chunkVersion := v;
     numReplicas := n; layoutDone := layoutDone a;
     servers := servers a; master := master a; req := req a |}.

Definition set_req (p : option ReqPtr) (a : MetaAllocate) : MetaAllocate :=
  {| fid := fid a; offset := offset a; chunkId := chunkId a;
     chunkVersion := chunkVersion a; numReplicas := numReplicas a;
     layoutDone := layoutDone a; servers := servers a;
     master := master a; req := p |}.

Definition handle_lookup (r : ReqPtr) (s : State W) : option (State W) :=
  req ← heap s !! r;
  match body req with
  | Lookup dir name result =>
      let fa := tree_lookup (world s) dir name in
      let req := set_status (match fa with None => - ENOENT | _ => 0 end)
                            req in
      let req := match fa with
                 | Some _ => set_body (Lookup dir name fa) req
                 | None => req
                 end in
      Some (store r req s)
  | _ => None
  end.

Definition handle_lookup_path (r : ReqPtr) (s : State W)
  : option (State W) :=
  req ← heap s !! r;
  match body req with
  | LookupPath root path result =>
      let fa := lookupPath (world s) root path in
      let req := set_status (match fa with None => - ENOENT | _ => 0 end)
                            req in
      let req := match fa with
                 | Some _ => set_body (LookupPath root path fa) req
                 | None => req
                 end in
      Some (store r req s)
  | _ => None
  end.

Definition handle_create (r : ReqPtr) (s : State W) : option (State W) :=
  req ← heap s !! r;
  match body req with
  | Create dir name nrep _ =>
      let '(st, newfid, w) := create (world s) dir name 0 nrep in
      let req := set_status st req in
      let req := set_body (Create dir name nrep newfid) req in
      Some (store r req (set_world w s))
  | _ => None
  end.

Definition handle_mkdir (r : ReqPtr) (s : State W) : option (State W) :=
  req ← heap s !! r;
  match body req with
  | Mkdir dir name _ =>
      let '(st, newfid, w) := mkdir (world s) dir name 0 in
      let req := set_status st req in
      let req := set_body (Mkdir dir name newfid) req in
      Some (store r req (set_world w s))
  | _ => None
  end.

Definition handle_remove (r : ReqPtr) (s : State W) : option (State W) :=
  req ← heap s !! r;
  match body req with
  | Remove dir name =>
      let (st, w) := remove (world s) dir name in
      Some (store r (set_status st req) (set_world w s))
  | _ => None
  end.

Definition handle_rmdir (r : ReqPtr) (s : State W) : option (State W) :=
  req ← heap s !! r;
  match body req with
  | Rmdir dir name =>
      let (st, w) := rmdir (world s) dir name in
      Some (store r (set_status st req) (set_world w s))
  | _ => None
  end.

Definition handle_readdir (r : ReqPtr) (s : State W) : option (State W) :=
  req ← heap s !! r;
  match body req with
  | Readdir dir v =>
      if negb (file_exists s dir)
      then Some (store r (set_status (- ENOENT) req) s)
      else if negb (is_dir s dir)
      then Some (store r (set_status (- ENOTDIR) req) s)
      else
        let (st, v) := readdir (world s) dir v in
        Some (store r (set_body (Readdir dir v) (set_status st req)) s)
  | _ => None
  end.

Definition handle_getalloc (r : ReqPtr) (s : State W) : option (State W) :=
  req ← heap s !! r;
  match body req with
  | Getalloc f off cid cvers locations =>
      if negb (file_exists s f)
      then Some (store r (set_status (- ENOENT) req) s)
      else
        let (st, chunkInfo) := getalloc1 (world s) f off in
        let req := set_status st req in
        if negb (st =? 0) then Some (store r req s) else
        let cid := ci_chunkId chunkInfo in
        let cvers := ci_chunkVersion chunkInfo in
        let req := set_body (Getalloc f off cid cvers locations) req in
        let (rc, c) := GetChunkToServerMapping (world s) cid [] in
        if negb (rc =? 0)
        then Some (store r (set_status (- ENOENT) req) s)
        else
          let locations :=
            locations ++ map (GetServerLocation (world s)) c in
          Some (store r (set_status 0
                  (set_body (Getalloc f off cid cvers locations) req)) s)
  | _ => None
  end.

(** The [for] loop of [handle_getlayout]: the status and [req->v]. *)
Fixpoint getlayout_loop (w : W) (chunkInfo : list MetaChunkInfo)
         (c : list ChunkServerPtr) (v : list ChunkLayoutInfo)
  : Z * list ChunkLayoutInfo :=
  match chunkInfo with
  | [] => (0, v)
  | ci :: rest =>
      let (rc, c) := GetChunkToServerMapping w (ci_chunkId ci) c in
      if negb (rc =? 0) then (- EHOSTUNREACH, v) else
      let l := {| l_offset := ci_offset ci;
                  l_chunkId := ci_chunkId ci;
                  l_chunkVersion := ci_chunkVersion ci;
                  l_locations := map (GetServerLocation w) c |} in
      getlayout_loop w rest c (v ++ [l])
  end.

Definition handle_getlayout (r : ReqPtr) (s : State W)
  : option (State W) :=
  req ← heap s !! r;
  match body req with
  | Getlayout f v =>
      if negb (file_exists s f)
      then Some (store r (set_status (- ENOENT) req) s)
      else
        let (st, chunkInfo) := getalloc (world s) f in
        let req := set_status st req in
        if negb (st =? 0) then Some (store r req s) else
        let (st, v) := getlayout_loop (world s) chunkInfo [] v in
        Some (store r (set_status st (set_body (Getlayout f v) req)) s)
  | _ => None
  end.

(** [for_each(servers, ChunkVersionChanger(fid, chunkId, chunkVers))] *)
Definition notify_all (l : list ChunkServerPtr) (f : fid_t)
           (c : chunkId_t) (v : seq_t) (s : State W) : State W :=
  foldl (fun s p => call (NotifyChunkVersChange p f c v) s) s l.

Definition handle_allocate (r : ReqPtr) (s : State W)
  : option (State W) :=
  req ← heap s !! r;
  match body req with
  | Allocate a =>
      if negb (layoutDone a) then
        (* force an allocation *)
        let a := set_ids 0 (chunkVersion a) (numReplicas a) a in
        let '(st, (cid, cvers, nrep), w) :=
          allocateChunkId (world s) (fid a) (offset a)
                          (chunkId a, chunkVersion a, numReplicas a) in
        let a := set_ids cid cvers nrep a in
        let req := set_status st (set_body (Allocate a) req) in
        let s := set_world w s in
        if negb (st =? 0) && negb (st =? - EEXIST)
        then Some (store r req s)          (* we have a problem *)
        else if st =? - EEXIST then
          (* Get a (new) lease if possible *)
          let '(st, isNewLease, a, w) :=
            GetChunkWriteLease (world s) r a in
          let req := set_status st (set_body (Allocate a) req) in
          let s := set_world w s in
          if negb (st =? 0) then Some (store r req s)
          else if negb isNewLease then Some (store r req s)
          else Some (store r (set_suspended true req) s)
        else
          let '(rc, a, w) := AllocateChunk (world s) r a in
          let req := set_body (Allocate a) req in
          let s := set_world w s in
          if negb (rc =? 0)
          then Some (store r (set_status (- ENOSPC) req) s)
          else Some (store r (set_suspended true req) s)
      else if negb (status req =? 0) then
        (* it is possible that the server went down *)
        let req := set_status (- EALLOCFAILED) req in
        let cvers := getChunkVersion (world s) (fid a) (chunkId a)
                                     (chunkVersion a) in
        let a := set_ids (chunkId a) cvers (numReplicas a) a in
        let req := set_body (Allocate a) req in
        let s :=
          if 0 <? chunkVersion a
          then notify_all (servers a) (fid a) (chunkId a)
                          (chunkVersion a) s
          else call (RemoveChunkToServerMapping (chunkId a)) s in
        let s := store r (set_suspended true req) s in
        Some (ChangeIncarnationNumber r s)
      else
        (* layout is complete *)
        let req := set_suspended false req in
        let (st, w) := assignChunkId (world s) (fid a) (offset a)
                                     (chunkId a) (chunkVersion a) in
        Some (store r (set_status st req) (set_world w s))
  | _ => None
  end.

(** [alloc->req = r] *)
Definition tie (r : ReqPtr) (alloc : MetaRequest) : MetaRequest :=
  match body alloc with
  | Allocate a => set_body (Allocate (set_req (Some r) a)) alloc
  | _ => alloc
  end.

Definition handle_truncate (r : ReqPtr) (s : State W)
  : option (State W) :=
  req ← heap s !! r;
  match body req with
  | Truncate f off =>
      let '(st, allocOffset, w) := truncate (world s) f off 0 in
      let req := set_status st req in
      let s := store r req (set_world w s) in
      if 0 <? st then
        (* an allocation is needed *)
        let fresh := new_MetaAllocate (opSeqno req) f allocOffset in
        let (alloc, s) := new fresh s in
        (* tie things together *)
        let s := store alloc (tie r fresh) s in
        let s := store r (set_suspended true req) s in
        handle_allocate alloc s
      else Some s
  | _ => None
  end.

Definition handle_rename (r : ReqPtr) (s : State W) : option (State W) :=
  req ← heap s !! r;
  match body req with
  | Rename dir oldname newname overwrite =>
      let (st, w) := rename (world s) dir oldname newname overwrite in
      Some (store r (set_status st req) (set_world w s))
  | _ => None
  end.

Definition handle_checkpoint (r : ReqPtr) (s : State W)
  : option (State W) :=
  req ← heap s !! r;
  Some (store r (set_status 0 req) s).

Definition handle_hello (r : ReqPtr) (s : State W) : option (State W) :=
  req ← heap s !! r;
  match body req with
  | Hello _ =>
      let s := call (AddNewServer r) s in
      Some (store r (set_status 0 req) s)
  | _ => None
  end.

Definition handle_bye (r : ReqPtr) (s : State W) : option (State W) :=
  req ← heap s !! r;
  match body req with
  | Bye server =>
      let s := call (ServerDown server) s in
      Some (store r (set_status 0 req) s)
  | _ => None
  end.

Definition handle_lease_acquire (r : ReqPtr) (s : State W)
  : option (State W) :=
  req ← heap s !! r;
  match body req with
  | LeaseAcquire cid leaseId =>
      let '(st, leaseId, w) := GetChunkReadLease (world s) cid leaseId in
      Some (store r (set_status st
              (set_body (LeaseAcquire cid leaseId) req)) (set_world w s))
  | _ => None
  end.

Definition handle_lease_renew (r : ReqPtr) (s : State W)
  : option (State W) :=
  req ← heap s !! r;
  match body req with
  | LeaseRenew leaseType cid leaseId =>
      let (st, w) := LayoutLeaseRenew (world s) leaseType cid leaseId in
      Some (store r (set_status st req) (set_world w s))
  | _ => None
  end.

Definition handle_lease_cleanup (r : ReqPtr) (s : State W)
  : option (State W) :=
  req ← heap s !! r;
  match body req with
  | LeaseCleanup =>
      let s := call LayoutLeaseCleanup s in
      (* some leases are gone.  so, cleanup dumpster *)
      let s := call cleanupDumpster s in
      Some (store r (set_status 0 req) s)
  | _ => None
  end.

Definition handle_chunk_replication_check (r : ReqPtr) (s : State W)
  : option (State W) :=
  req ← heap s !! r;
  match body req with
  | ChunkReplicationCheck =>
      let s := call ChunkReplicationChecker s in
      Some (store r (set_status 0 req) s)
  | _ => None
  end.

Definition handle_chunk_replication_done (r : ReqPtr) (s : State W)
  : option (State W) :=
  req ← heap s !! r;
  match body req with
  | ChunkReplicate _ _ _ _ => Some (call (ChunkReplicationDone r) s)
  | _ => None
  end.

Definition handle_change_chunkVersionInc (r : ReqPtr) (s : State W)
  : option (State W) :=
  req ← heap s !! r;
  Some (store r (set_status 0 req) s).

Definition handle_ping (r : ReqPtr) (s : State W) : option (State W) :=
  req ← heap s !! r;
  match body req with
  | Ping pservers =>
      let req := set_status 0 req in
      Some (store r (set_body (Ping (LayoutPing (world s) pservers)) req)
                  s)
  | _ => None
  end.

Definition handle_stats (r : ReqPtr) (s : State W) : option (State W) :=
  req ← heap s !! r;
  match body req with
  | Stats _ =>
      let req := set_status 0 req in
      let os := Show (world s)
                  ((fun c => (cname c, cvalue c)) <$>
                     (map_to_list (gCounters s)).*2) in
      Some (store r (set_body (Stats os) req) s)
  | _ => None
  end.

(** The [handler] map as [setup_handlers] fills it. *)
Definition handler (o : MetaOp)
  : option (ReqPtr -> State W -> option (State W)) :=
  match o with
  | META_LOOKUP => Some handle_lookup
  | META_LOOKUP_PATH => Some handle_lookup_path
  | META_CREATE => Some handle_create
  | META_MKDIR => Some handle_mkdir
  | META_REMOVE => Some handle_remove
  | META_RMDIR => Some handle_rmdir
  | META_READDIR => Some handle_readdir
  | META_GETALLOC => Some handle_getalloc
  | META_GETLAYOUT => Some handle_getlayout
  | META_ALLOCATE => Some handle_allocate
  | META_TRUNCATE => Some handle_truncate
  | META_RENAME => Some handle_rename
  | META_CHECKPOINT => Some handle_checkpoint
  | META_CHUNK_REPLICATE => Some handle_chunk_replication_done
  | META_CHUNK_REPLICATION_CHECK => Some handle_chunk_replication_check
  | META_HELLO => Some handle_hello
  | META_BYE => Some handle_bye
  | META_LEASE_ACQUIRE => Some handle_lease_acquire
  | META_LEASE_RENEW => Some handle_lease_renew
  | META_LEASE_CLEANUP => Some handle_lease_cleanup
  | META_CHANGE_CHUNKVERSIONINC => Some handle_change_chunkVersionInc
  | META_PING => Some handle_ping
  | META_STATS => Some handle_stats
  | _ => None
  end.

(** What [process_request] does to the request it has dequeued: run
    its handler, or refuse the opcode. *)
Definition run_handler (r : ReqPtr) (s : State W) : option (State W) :=
  req ← heap s !! r;
  match handler (op req) with
  | None => Some (store r (set_status (- ENOSYS) req) s)
  | Some h => h r s
  end.

(** [process_request]: [None] when the queue is empty (the thread
    waits) or a pointer is dangling. *)
Definition process_request (s : State W) : option (State W) :=
  match requestList s with
  | [] => None
  | r :: rest =>
      s ← run_handler r (set_requestList rest s);
      req ← heap s !! r;
      if negb (suspended req)
      then Some (add_pending r (UpdateCounter (op req) s))
      else Some s
  end.
(** What a handler leaves alone: the pending list of the log and the
    counters; and no request disappears from the store. *)
Definition handler_frame (s s' : State W) : Prop :=
  pending s' = pending s /\ gCounters s' = gCounters s /\
  forall p, is_Some (heap s !! p) -> is_Some (heap s' !! p).

(** The main loop of the request thread: [process_request] over and over,
    here [n] times. *)
Fixpoint serve (n : nat) (s : State W) : option (State W) :=
  match n with
  | O => Some s
  | S n => s ← process_request s; serve n s
  end.

(** No pointer dangles: [new] has handed out every address in use, and
    every queued pointer is the address of a request. *)
Definition well_formed (s : State W) : Prop :=
  (forall p, is_Some (heap s !! p) -> (p < brk s)%nat) /\
  Forall (fun p => is_Some (heap s !! p)) (requestList s).

(** What a handler may do to the addresses when it serves [r]: it writes
    to [r] and to addresses it gets from [new]. *)
Definition handler_bounds (r : ReqPtr) (s s' : State W) : Prop :=
  (brk s <= brk s')%nat /\
  forall p, is_Some (heap s' !! p) ->
            is_Some (heap s !! p) \/ p = r \/ (brk s <= p < brk s')%nat.

(** What a handler may do to the queue and to the increment: nothing, or
    one bump of the increment together with one request that records it
    for [r], made at the address [p] and queued last. *)
Definition handler_queue (r p : ReqPtr) (s s' : State W) : Prop :=
  (chunkVersionInc s' = chunkVersionInc s /\
   requestList s' = requestList s) \/
  (chunkVersionInc s' = chunkVersionInc s + 1 /\
   requestList s' = requestList s ++ [p] /\
   heap s' !! p
   = Some (new_request 0 (ChangeChunkVersionInc (chunkVersionInc s + 1) r)) /\
   exists req a, heap s !! r = Some req /\ body req = Allocate a /\
                 layoutDone a = true /\ status req <> 0).

(** The chunk a layout entry stands for. *)
Definition chunk_of (l : ChunkLayoutInfo) : MetaChunkInfo :=
  {| ci_offset := l_offset l; ci_chunkId := l_chunkId l;
     ci_chunkVersion := l_chunkVersion l |}.

(** The file a query asks about, for the queries that test it with
    [file_exists] first. *)
Definition queried_file (b : MetaBody) : option fid_t :=
  match b with
  | Readdir dir _ => Some dir
  | Getalloc f _ _ _ _ => Some f
  | Getlayout f _ => Some f
  | _ => None
  end.



(** The layout of a file whose chunks are [chunkInfo], when [m] gives the
    servers of each chunk the layout manager knows: one entry per chunk,
    in the order of the chunks, with its offset, id and version and the
    locations of its servers, up to the first chunk without servers. *)
Fixpoint mapped_layout (w : W)
         (m : chunkId_t -> option (list ChunkServerPtr))
         (chunkInfo : list MetaChunkInfo) : list ChunkLayoutInfo :=
  match chunkInfo with
  | [] => []
  | ci :: rest =>
      match m (ci_chunkId ci) with
      | Some c =>
          {| l_offset := ci_offset ci;
             l_chunkId := ci_chunkId ci;
             l_chunkVersion := ci_chunkVersion ci;
             l_locations := map (GetServerLocation w) c |}
          :: mapped_layout w m rest
      | None => []
      end
  end.

(** Whether [m] gives servers for every chunk. *)
Definition all_mapped (m : chunkId_t -> option (list ChunkServerPtr))
           (chunkInfo : list MetaChunkInfo) : bool :=
  forallb (fun ci => match m (ci_chunkId ci) with
                     | Some _ => true
                     | None => false
                     end) chunkInfo.

End Handlers.

End Dispatch.

(** ** Instances to run the definitions on

    The collaborators are parameters; these instances give them a simple
    behaviour so that the definitions can be evaluated on concrete
    requests. *)

Module Scripted.
Import Stream.

  (** *** A [Properties] table read from header lines *)

Fixpoint digits (s : string) (acc : Z) : Z :=
  match s with
  | String c t =>
      match Ascii.is_nat c with
      | Some d => digits t (10 * acc + Z.of_nat d)
      | None => acc
      end
  | EmptyString => acc
  end.

(** [atoll]: white space, an optional sign, then decimal digits. *)
Definition atoll (s : string) : Z :=
  match Wire.skip_space s with
  | String "-"%char t => - digits t 0
  | String "+"%char t => digits t 0
  | t => digits t 0
  end.

(** Splits ["Key: value"] at the first separator. *)
Fixpoint split_header (s : string) : option (string * string) :=
  match s with
  | String c t =>
      if decide (c = ":"%char) then Some (EmptyString, Wire.skip_space t)
      else match split_header t with
           | Some (k, v) => Some (String c k, v)
           | None => None
           end
  | EmptyString => None
  end.

(** The lines of a text, without their line ends. *)
Fixpoint lines_go (cur : string) (s : string) : list string :=
  match s with
  | String c t =>
      if decide (c = "010"%char) then String.rev cur :: lines_go "" t
      else if decide (c = "013"%char) then lines_go cur t
      else lines_go (String c cur) t
  | EmptyString => [String.rev cur]
  end.

Definition load (ist : string) : gmap string string :=
  foldl (fun m l => match split_header l with
                    | Some (k, v) => <[k := v]> m
                    | None => m
                    end) ∅ (lines_go "" ist).

Global Instance properties : Wire.PropertiesLib := {|
    Wire.loadProperties := load;
    Wire.toInt := atoll;
    Wire.toLongLong := atoll;
    Wire.IsValid l :=
      negb (bool_decide (hostname l = "")) && (0 <? port l)
  |}.

  (** *** Leaf entities that print one line each *)

Record Leaf := { leaf_skip : bool; leaf_text : string }.

Global Instance leaves : Cp.MetaLib Leaf := {|
    Cp.skip := leaf_skip;
    Cp.checkpoint m f := Log.write_record [leaf_text m; nl] f
  |}.

  (** *** A tree and a layout manager that answer from a script *)

Record Script := {
    alloc_status : Z;              (* allocateChunkId *)
    alloc_id : chunkId_t;
    alloc_version : seq_t;
    alloc_replicas : Z;
    lease_status : Z;              (* GetChunkWriteLease *)
    lease_new : bool;
    lease_bump : seq_t;
    place_status : Z;              (* AllocateChunk *)
    placed : list ChunkServerPtr;
    version_now : option seq_t;    (* getChunkVersion; None: no such chunk *)
    assign_status : Z;             (* assignChunkId *)
    truncate_status : Z;           (* truncate *)
    truncate_offset : chunkOff_t
  }.

Definition place (l : list ChunkServerPtr) (v : seq_t) (a : MetaAllocate)
  : MetaAllocate :=
  {| fid := fid a; offset := offset a; chunkId := chunkId a;
     chunkVersion := v; numReplicas := numReplicas a;
     layoutDone := layoutDone a; servers := l; master := head l;
     req := req a |}.

Global Instance collaborators : Dispatch.Collaborators Script := {|
    Dispatch.getFattr w f := None;
    Dispatch.tree_lookup w d n := None;
    Dispatch.lookupPath w d n := None;
    Dispatch.create w d n f k := (0, f, w);
    Dispatch.mkdir w d n f := (0, f, w);
    Dispatch.remove w d n := (0, w);
    Dispatch.rmdir w d n := (0, w);
    Dispatch.readdir w d v := (0, v);
    Dispatch.getalloc1 w f o :=
      (- ENOENT, {| ci_offset := 0; ci_chunkId := 0; ci_chunkVersion := 0 |});
    Dispatch.getalloc w f := (- ENOENT, []);
    Dispatch.allocateChunkId w f o old :=
      (alloc_status w, (alloc_id w, alloc_version w, alloc_replicas w), w);
    Dispatch.getChunkVersion w f c old :=
      match version_now w with Some v => v | None => old end;
    Dispatch.assignChunkId w f o c v := (assign_status w, w);
    Dispatch.truncate w f o old :=
      (truncate_status w, truncate_offset w, w);
    Dispatch.rename w d o n b := (0, w);
    Dispatch.GetChunkToServerMapping w c old := (- ENOENT, old);
    Dispatch.GetServerLocation w p := {| hostname := ""; port := 0 |};
    Dispatch.GetChunkWriteLease w r a :=
      (lease_status w, lease_new w,
       place (placed w)
             (if lease_new w then chunkVersion a + lease_bump w
              else chunkVersion a) a, w);
    Dispatch.AllocateChunk w r a :=
      (place_status w, place (placed w) (chunkVersion a) a, w);
    Dispatch.GetChunkReadLease w c l := (0, l, w);
    Dispatch.LayoutLeaseRenew w t c l := (0, w);
    Dispatch.LayoutPing w s := s;
    Dispatch.Show w l := "";
    Dispatch.void_call c w := w
  |}.

Definition script : Script :=
  {| alloc_status := - EEXIST; alloc_id := 7; alloc_version := 1;
     alloc_replicas := 3; lease_status := 0; lease_new := false;
     lease_bump := 1; place_status := 0; placed := [10; 11; 12]%nat;
     version_now := Some 1; assign_status := 0;
     truncate_status := 0; truncate_offset := 0 |}.

(** A dispatcher state holding the requests [l] at addresses 0, 1, ...,
    all of them queued in that order, with the counters registered. *)
Definition boot (w : Script) (l : list MetaRequest)
  : Dispatch.State Script :=
  Dispatch.RegisterCounters
    {| Dispatch.heap := list_to_map (zip (seq 0 (length l)) l);
       Dispatch.brk := length l;
       Dispatch.requestList := seq 0 (length l);
       Dispatch.chunkVersionInc := 1;
       Dispatch.gCounters := ∅;
       Dispatch.calledOnce := false;
       Dispatch.pending := [];
       Dispatch.calls := [];
       Dispatch.world := w |}.

  (** *** A tree and a layout manager that answer from tables *)

Record Shelf := {
    files : gmap fid_t MetaFattr;
    entries : gmap fid_t (list MetaDentry);
    chunks : gmap fid_t (list MetaChunkInfo);
    mapping : gmap chunkId_t (list ChunkServerPtr)
  }.

Global Instance shelf : Dispatch.Collaborators Shelf := {|
    Dispatch.getFattr w f := files w !! f;
    Dispatch.tree_lookup w d n := None;
    Dispatch.lookupPath w d n := None;
    Dispatch.create w d n f k := (- EEXIST, f, w);
    Dispatch.mkdir w d n f := (- EEXIST, f, w);
    Dispatch.remove w d n := (- ENOENT, w);
    Dispatch.rmdir w d n := (- ENOENT, w);
    Dispatch.readdir w d v :=
      match entries w !! d with
      | Some l => (0, v ++ l)
      | None => (- ENOENT, v)
      end;
    Dispatch.getalloc1 w f o :=
      match chunks w !! f ≫= List.find (fun ci => ci_offset ci =? o) with
      | Some ci => (0, ci)
      | None =>
          (- ENOENT,
           {| ci_offset := 0; ci_chunkId := 0; ci_chunkVersion := 0 |})
      end;
    Dispatch.getalloc w f :=
      match chunks w !! f with
      | Some l => (0, l)
      | None => (- ENOENT, [])
      end;
    Dispatch.allocateChunkId w f o old := (- ENOENT, old, w);
    Dispatch.getChunkVersion w f c old := old;
    Dispatch.assignChunkId w f o c v := (- ENOENT, w);
    Dispatch.truncate w f o old := (- ENOENT, old, w);
    Dispatch.rename w d o n b := (- ENOENT, w);
    Dispatch.GetChunkToServerMapping w c old :=
      match mapping w !! c with
      | Some l => (0, l)
      | None => (-1, old)
      end;
    Dispatch.GetServerLocation w p :=
      {| hostname := "cs" +:+ pretty p; port := 20000 |};
    Dispatch.GetChunkWriteLease w r a := (- ENOENT, false, a, w);
    Dispatch.AllocateChunk w r a := (- ENOSPC, a, w);
    Dispatch.GetChunkReadLease w c l := (- ENOENT, l, w);
    Dispatch.LayoutLeaseRenew w t c l := (- ENOENT, w);
    Dispatch.LayoutPing w s := s;
    Dispatch.Show w l := "";
    Dispatch.void_call c w := w
  |}.

  (** *** Printers that write numbers in decimal *)

Global Instance printers : Respond.Printers := {|
    Respond.toString := pretty;
    Respond.Time := Z;
    Respond.mtime fa := 0;
    Respond.ctime fa := 0;
    Respond.crtime fa := 0;
    Respond.sendtime key t sep := key +:+ " " +:+ pretty t +:+ sep;
    Respond.blank_fattr :=
      {| fa_id := 0; fa_type := KFS_NONE; fa_chunkcount := 0 |};
    Respond.ToString l := hostname l +:+ " " +:+ pretty (port l);
    Respond.layout_toString l :=
      pretty (l_offset l) +:+ " " +:+ pretty (l_chunkId l) +:+ " "
      +:+ pretty (l_chunkVersion l) +:+ " "
      +:+ pretty (length (l_locations l)) +:+ " ";
    Respond.ServerID p := pretty p
  |}.

(** One directory (the root), one file of two chunks; the second chunk
    has no server. *)
Definition shelf_sample : Shelf :=
  {| files := {[ 2 := {| fa_id := 2; fa_type := KFS_DIR;
                         fa_chunkcount := 0 |};
                 5 := {| fa_id := 5; fa_type := KFS_FILE;
                         fa_chunkcount := 2 |} ]};
     entries := {[ 2 := [ {| de_dir := 2; de_name := "a"; de_fid := 5 |} ] ]};
     chunks := {[ 5 := [ {| ci_offset := 0; ci_chunkId := 7;
                            ci_chunkVersion := 1 |};
                         {| ci_offset := 67108864; ci_chunkId := 8;
                            ci_chunkVersion := 1 |} ] ]};
     mapping := {[ 7 := [10; 11]%nat ]} |}.

(** A dispatcher over a shelf that holds the one request [q], not
    queued. *)
Definition holding (w : Shelf) (q : MetaRequest) : Dispatch.State Shelf :=
  {| Dispatch.heap := {[ 0%nat := q ]};
     Dispatch.brk := 1%nat;
     Dispatch.requestList := [];
     Dispatch.chunkVersionInc := 1;
     Dispatch.gCounters := ∅;
     Dispatch.calledOnce := false;
     Dispatch.pending := [];
     Dispatch.calls := [];
     Dispatch.world := w |}.

End Scripted.

(** ** Sample requests and states *)

(** A CREATE with no Num-replicas header, and one that asks for 7. *)
Definition create_plain : gmap string string :=
  {[ "Cseq" := "1"; "Parent File-handle" := "2"; "Filename" := "a" ]}.

Definition create_seven : gmap string string :=
  <["Num-replicas" := "7"]> create_plain.

(** The root directory as the tree returns it, and a READDIR on it. *)
Definition root_dentries : list MetaDentry :=
  [ {| de_dir := 2; de_name := "/"; de_fid := 2 |};
    {| de_dir := 2; de_name := "a"; de_fid := 5 |};
    {| de_dir := 2; de_name := "e"; de_fid := 6 |} ].

(** An allocation of chunk 7 of file 4 that comes back failed from the
    chunkservers 10, 11 and 12, with no version known for the chunk. *)
Definition failed_allocation (v : seq_t) : MetaRequest :=
  {| opSeqno := 3; status := - ENOSPC; suspended := true;
     body := Allocate {| fid := 4; offset := 0; chunkId := 7;
                         chunkVersion := v; numReplicas := 3;
                         layoutDone := true; servers := [10; 11; 12]%nat;
                         master := Some 10%nat; req := None |} |}.

(** A tree in which chunk 7 is not known yet. *)
Definition script_unknown_chunk : Scripted.Script :=
  {| Scripted.alloc_status := 0; Scripted.alloc_id := 7;
     Scripted.alloc_version := 1; Scripted.alloc_replicas := 3;
     Scripted.lease_status := 0; Scripted.lease_new := false;
     Scripted.lease_bump := 1; Scripted.place_status := 0;
     Scripted.placed := [10; 11; 12]%nat;
     Scripted.version_now := None; Scripted.assign_status := 0;
     Scripted.truncate_status := 0; Scripted.truncate_offset := 0 |}.

(** A tree in which truncating asks for a chunk at 64 MiB. *)
Definition script_extend : Scripted.Script :=
  {| Scripted.alloc_status := 0; Scripted.alloc_id := 8;
     Scripted.alloc_version := 1; Scripted.alloc_replicas := 3;
     Scripted.lease_status := 0; Scripted.lease_new := false;
     Scripted.lease_bump := 1; Scripted.place_status := 0;
     Scripted.placed := [10; 11; 12]%nat;
     Scripted.version_now := Some 1; Scripted.assign_status := 0;
     Scripted.truncate_status := 1; Scripted.truncate_offset := 67108864 |}.

(** A dispatcher that has one READDIR of the root to serve, and one that
    has one LOOKUP. *)
Definition serving_readdir : Dispatch.State Scripted.Script :=
  Scripted.boot Scripted.script [new_request 1 (Readdir 2 [])].

Definition serving_lookup : Dispatch.State Scripted.Script :=
  Scripted.boot Scripted.script [new_request 1 (Lookup 2 "a" None)].

(** The values of the registered counters. *)
Definition counter_values (s : Dispatch.State Scripted.Script) : list Z :=
  Dispatch.cvalue <$> (map_to_list (Dispatch.gCounters s)).*2.

(** The fields of a fresh allocation of offset 0 of file 4, and the same
    once the tree and the lease call have filled them in. *)
Definition fresh_fields : MetaAllocate :=
  {| fid := 4; offset := 0; chunkId := 0; chunkVersion := 0;
     numReplicas := 0; layoutDone := false; servers := []; master := None;
     req := None |}.

Definition leased_fields : MetaAllocate :=
  {| fid := 4; offset := 0; chunkId := 7; chunkVersion := 1;
     numReplicas := 3; layoutDone := false; servers := [10; 11; 12]%nat;
     master := Some 10%nat; req := None |}.

Definition blank : Stream.ofstream :=
  {| Stream.written := ""; Stream.failbit := false; Stream.room := None |}.

(** A stream that has failed, such as one whose file could not be
    opened. *)
Definition failed : Stream.ofstream :=
  {| Stream.written := ""; Stream.failbit := true; Stream.room := None |}.

(** A checkpointer that has been started, with one zombie queued, and a
    tree of two leaves in one node, the second of which is to be skipped. *)
Definition leaf_a : Scripted.Leaf :=
  {| Scripted.leaf_skip := false; Scripted.leaf_text := "fattr/file/id/5" |}.
Definition leaf_b : Scripted.Leaf :=
  {| Scripted.leaf_skip := true; Scripted.leaf_text := "dentry/name/b/id/6" |}.
Definition zombie_c : Scripted.Leaf :=
  {| Scripted.leaf_skip := false; Scripted.leaf_text := "chunkinfo/fid/7" |}.

Definition started : Cp.Checkpoint Scripted.Leaf :=
  {| Cp.running := true; Cp.mutations := 0; Cp.nostart := false;
     Cp.startblocked := false; Cp.cpcount := 0; Cp.activeNode := None;
     Cp.zombie := [zombie_c]; Cp.file := blank; Cp.cpname := "";
     Cp.wakeups := 1; Cp.events := [] |}.

Definition inputs (f : Stream.ofstream) : Cp.CpInputs :=
  {| Cp.highest := 41; Cp.cpfile := "./kfscp/chkpt.41"; Cp.opened := f;
     Cp.VERSION := 1; Cp.fid_seed := 7; Cp.chunkId_seed := 9;
     Cp.chunkVersionInc := 1;
     Cp.ctime := "Thu Jan  1 00:00:00 1970" +:+ Stream.nl;
     Cp.log_name := "./kfslog/log.42" |}.

(** The allocation of chunk 7 of file 4 as it comes back from the
    chunkservers when all went well. *)
Definition completed_allocation : MetaRequest :=
  {| opSeqno := 3; status := 0; suspended := true;
     body := Allocate {| fid := 4; offset := 0; chunkId := 7;
                         chunkVersion := 1; numReplicas := 3;
                         layoutDone := true; servers := [10; 11; 12]%nat;
                         master := Some 10%nat; req := None |} |}.

(** * Properties *)

(** ** Texts and streams *)

Section TextFacts.
Import Stream.

Lemma append_assoc (a b c : string) : (a +:+ b) +:+ c = a +:+ (b +:+ c).
Proof.
    induction a as [|x a IH]; [reflexivity|].
    unfold String.append in *; simpl; fold String.append in *.
    by rewrite IH.
Qed.

Lemma append_nil_r (a : string) : a +:+ "" = a.
Proof.
    induction a as [|x a IH]; [reflexivity|].
    unfold String.append in *; simpl; fold String.append in *.
    by rewrite IH.
Qed.

Lemma append_cons (x : ascii) (a b : string) :
  String x a +:+ b = String x (a +:+ b).
Proof. reflexivity. Qed.

Lemma append_nil_l (a : string) : "" +:+ a = a.
Proof. reflexivity. Qed.

Lemma newlines_app (a b : string) :
  newlines (a +:+ b) = (newlines a + newlines b)%nat.
Proof.
    induction a as [|x a IH]; [reflexivity|].
    rewrite append_cons; simpl. rewrite IH. lia.
Qed.

Lemma newlines_pretty_N_go (x : N) (s : string) :
  newlines (pretty_N_go x s) = newlines s.
Proof.
    revert s. induction (N.lt_wf_0 x) as [x _ IH]; intros s.
    destruct (decide (x = 0)%N) as [->|Hx].
    - by rewrite pretty_N_go_0.
    - rewrite pretty_N_go_step by lia.
      rewrite IH by (apply N.div_lt; lia).
      simpl. unfold pretty_N_char.
      by repeat case_match.
Qed.

Lemma newlines_pretty_N (x : N) : newlines (pretty x) = 0%nat.
Proof.
    unfold pretty, pretty_N. case_decide; [reflexivity|].
    apply newlines_pretty_N_go.
Qed.

Lemma newlines_pretty_Z (z : Z) : newlines (pretty z) = 0%nat.
Proof.
    destruct z as [|p|p]; [reflexivity| |].
    - change (pretty (Z.pos p)) with (pretty (N.pos p)).
      apply newlines_pretty_N.
    - change (pretty (Z.neg p)) with ("-" +:+ pretty (N.pos p)).
      rewrite newlines_app, newlines_pretty_N. reflexivity.
Qed.

Lemma put_ok (s : string) (f : ofstream) :
  failbit (put s f) = false ->
  failbit f = false /\ written (put s f) = written f +:+ s.
Proof.
    unfold put. destruct (failbit f) eqn:Hf; [intros; congruence|].
    destruct (room f) as [n|]; [|done].
    destruct (String.length s <=? n)%nat; simpl; [done|discriminate].
Qed.

Lemma puts_ok (l : list string) (f : ofstream) :
  failbit (puts l f) = false ->
  failbit f = false /\ written (puts l f) = written f +:+ chain l.
Proof.
    revert f. induction l as [|s l IH]; intros f; simpl.
    - intros Hf. by rewrite append_nil_r.
    - intros Hf. apply IH in Hf as [Hf ->].
      apply put_ok in Hf as [Hf ->].
      by rewrite append_assoc.
Qed.

Lemma puts_extends (l : list string) (f : ofstream) :
  exists t, written (puts l f) = written f +:+ t.
Proof.
  revert f. induction l as [|s l IH]; intros f; simpl.
  - exists "". by rewrite append_nil_r.
  - destruct (IH (put s f)) as [t ->].
    unfold put. destruct (failbit f); [by eexists|].
    destruct (room f) as [n|]; [destruct (String.length s <=? n)%nat|];
      simpl; rewrite ?append_assoc; by eexists.
Qed.

Lemma puts_unlimited (l : list string) (f : ofstream) :
  failbit f = false -> room f = None ->
  written (puts l f) = written f +:+ chain l /\
  failbit (puts l f) = false /\ room (puts l f) = None.
Proof.
  revert f. induction l as [|s l IH]; intros f Hf Hr; simpl.
  - by rewrite append_nil_r.
  - destruct (IH (put s f)) as (-> & -> & ->).
    + unfold put. by rewrite Hf, Hr.
    + unfold put. by rewrite Hf, Hr.
    + unfold put. rewrite Hf, Hr. simpl. by rewrite append_assoc.
Qed.

Lemma puts_failed (l : list string) (f : ofstream) :
  failbit f = true -> puts l f = f.
Proof.
  intros Hf. induction l as [|s l IH]; [done|].
  unfold puts in *. simpl. unfold put at 2. by rewrite Hf.
Qed.

Lemma substring_all (a : string) (n : nat) :
  (String.length a <= n)%nat -> String.substring 0 n a = a.
Proof.
  revert n. induction a as [|x a IH]; intros [|n]; simpl; try done; try lia.
  intros Hn. rewrite IH; [done|lia].
Qed.

Lemma substring_append (a b : string) (n : nat) :
  String.substring 0 n (a +:+ b)
  = String.substring 0 n a +:+ String.substring 0 (n - String.length a) b.
Proof.
  revert n. induction a as [|x a IH]; intros n.
  - rewrite !append_nil_l. simpl String.length. rewrite Nat.sub_0_r.
    by destruct n.
  - rewrite append_cons. destruct n as [|n]; simpl.
    + by destruct b.
    + rewrite IH. by rewrite append_cons.
Qed.

Lemma length_append (a b : string) :
  String.length (a +:+ b) = (String.length a + String.length b)%nat.
Proof.
  induction a as [|x a IH]; [done|]. rewrite append_cons. simpl. by rewrite IH.
Qed.

(** Two insertions in a row are one insertion of the joined text. *)
Lemma put_put (a b : string) (f : ofstream) :
  put b (put a f) = put (a +:+ b) f.
Proof.
  unfold put at 2 3. destruct (failbit f) eqn:Hf.
  { unfold put. by rewrite Hf. }
  destruct (room f) as [n|] eqn:Hr.
  2:{ unfold put. simpl. by rewrite append_assoc. }
  rewrite length_append.
  destruct (String.length a <=? n)%nat eqn:Ha.
  - apply Nat.leb_le in Ha. unfold put. simpl.
    destruct (String.length b <=? n - String.length a)%nat eqn:Hb.
    + apply Nat.leb_le in Hb.
      replace (String.length a + String.length b <=? n)%nat with true
        by (symmetry; apply Nat.leb_le; lia).
      rewrite append_assoc. do 2 f_equal. lia.
    + apply Nat.leb_gt in Hb.
      replace (String.length a + String.length b <=? n)%nat with false
        by (symmetry; apply Nat.leb_gt; lia).
      rewrite substring_append, (substring_all a n Ha), append_assoc.
      done.
  - apply Nat.leb_gt in Ha. unfold put. simpl.
    replace (String.length a + String.length b <=? n)%nat with false
      by (symmetry; apply Nat.leb_gt; lia).
    rewrite substring_append.
    replace (n - String.length a)%nat with 0%nat by lia.
    replace (String.substring 0 0 b) with "" by (by destruct b).
    by rewrite append_nil_r.
Qed.

Lemma put_nothing (f : ofstream) : put "" f = f.
Proof.
  unfold put. destruct f as [w [|] [n|]]; simpl; try done.
  - by rewrite append_nil_r, Nat.sub_0_r.
  - by rewrite append_nil_r.
Qed.

(** [file << s1 << s2 << ...] is one insertion of the joined text. *)
Lemma puts_chain (l : list string) (f : ofstream) :
  puts l f = put (chain l) f.
Proof.
  revert f. induction l as [|s l IH]; intros f.
  - symmetry. apply put_nothing.
  - change (puts (s :: l) f) with (puts l (put s f)).
    rewrite IH. apply put_put.
Qed.

Lemma write_record_status (l : list string) (f : ofstream) :
  (Log.write_record l f).2
  = if fail (Log.write_record l f).1 then - EIO else 0.
Proof. reflexivity. Qed.

Lemma write_record_ok (l : list string) (f : ofstream) :
  fail (Log.write_record l f).1 = false ->
  written (Log.write_record l f).1 = written f +:+ chain l.
Proof. intros Hf. by apply puts_ok in Hf as [_ ?]. Qed.
End TextFacts.

(** ** The operation log *)

Section LogFacts.
Import Stream.
Variable finishLog : ofstream -> ofstream * Z.

(** C7. The log method of each mutating operation (create, mkdir, remove,
    rmdir, allocate, truncate, rename, chunkVersionInc) inserts into the
    stream exactly the slash-joined record that starts with the opcode and
    ends with a newline, and nothing else; the record is one line when the
    names hold no newline.  It returns -EIO when the stream has failed and
    0 otherwise: a stream that had failed before is left as it was, with
    -EIO, and a stream that has not failed and does not give out takes the
    whole record, with 0.  The log method of each pure query leaves the
    stream alone and returns 0. *)
Theorem log_one_record_per_mutation (r : MetaRequest) (file : ofstream) :
  (forall code, Log.opcode (op r) = Some code ->
     let line := Log.slash_join (code :: Log.record_fields (body r))
                 +:+ nl in
     let out := Log.log finishLog r file in
     out.1 = put line file /\
     out.2 = (if fail out.1 then - EIO else 0) /\
     (fail out.1 = false -> written out.1 = written file +:+ line) /\
     (fail file = true -> out = (file, - EIO)) /\
     (fail file = false -> room file = None ->
      fail out.1 = false /\ out.2 = 0 /\
      written out.1 = written file +:+ line) /\
     line = code +:+ "/" +:+ Log.slash_join (Log.record_fields (body r))
                 +:+ nl /\
     (Log.single_line (body r) -> newlines line = 1%nat))
  /\ (Log.is_query (op r) = true -> Log.log finishLog r file = (file, 0)).
Proof.
    split.
    - intros code Hcode line out.
      assert (Hline : exists l, out = Log.write_record l file /\
                                chain l = line).
      { subst line out. unfold op, Log.log in *.
        destruct (body r); simpl in Hcode; try discriminate;
          injection Hcode as <-;
          (eexists; split; [reflexivity|]);
          unfold chain, nl;
          cbn [foldr Log.slash_join Log.record_fields];
          rewrite ?append_assoc;
          repeat (rewrite append_cons || rewrite append_nil_l);
          reflexivity. }
      destruct Hline as (l & Hout & Hl).
      assert (Hput : out.1 = put line file).
      { rewrite Hout, <- Hl. apply puts_chain. }
      split; [exact Hput|].
      split; [rewrite Hout; apply write_record_status|].
      split.
      { rewrite Hout. intros Hf. rewrite (write_record_ok _ _ Hf).
        by rewrite Hl. }
      split.
      { intros Hf. rewrite Hout. unfold Log.write_record.
        rewrite (puts_failed _ _ Hf). unfold fail in *. by rewrite Hf. }
      split.
      { intros Hf Hr. rewrite Hout. unfold Log.write_record.
        destruct (puts_unlimited l file Hf Hr) as (Hw & Hfail & _).
        cbn [fst snd]. unfold fail. rewrite Hfail, Hw, Hl. done. }
      clear Hout Hput. subst line. unfold op in Hcode.
      destruct (body r); simpl in Hcode; try discriminate;
        injection Hcode as <-;
        (split; [cbn [Log.slash_join Log.record_fields];
                 rewrite ?append_assoc; reflexivity|]);
        unfold Log.single_line; cbn [Log.names Log.slash_join Log.record_fields];
        rewrite ?Forall_cons; intros Hn;
        rewrite ?newlines_app, ?newlines_pretty_Z;
        repeat match goal with
               | H : _ /\ _ |- _ => destruct H as [-> H]
               end; reflexivity.
    - unfold op, Log.log. destruct (body r); simpl; done.
Qed.
End LogFacts.


(** ** The wire codec *)

Section WireFacts.
Context `{Wire.PropertiesLib}.
Import Wire.

Lemma wrap16_small (n : Z) : -32768 <= n <= 32767 -> wrap16 n = n.
Proof. intros Hn. unfold wrap16. rewrite Z.mod_small; lia. Qed.

(** C8 (as the code has it). For a CREATE request whose parent handle and
    file name pass the checks: without a Num-replicas header the request
    gets 1 replica; with a header that reads as 0 the parse fails; a value
    from 1 to 3 is kept and a value from 4 to 32767 becomes 3.  Whatever the
    header holds, a request that is built has a replica count that is at
    most 3 and not 0. *)
Theorem create_replicas_capped (prop : gmap string string) (name : string) :
  0 <= getValue_ll prop "Parent File-handle" (-1) ->
  prop !! "Filename" = Some name ->
  let seq := getValue_ll prop "Cseq" (-1) in
  let dir := getValue_ll prop "Parent File-handle" (-1) in
  match prop !! "Num-replicas" with
  | None =>
      parseHandlerCreate prop = parse_ok (new_request seq (Create dir name 1 0))
  | Some v =>
      (toInt v = 0 -> parseHandlerCreate prop = parse_fail) /\
      (1 <= toInt v <= 3 ->
       parseHandlerCreate prop
       = parse_ok (new_request seq (Create dir name (toInt v) 0))) /\
      (3 < toInt v <= 32767 ->
       parseHandlerCreate prop
       = parse_ok (new_request seq (Create dir name 3 0)))
  end
  /\ (forall r, parseHandlerCreate prop = parse_ok r ->
       exists k, body r = Create dir name k 0 /\ k <= NUM_REPLICAS_PER_FILE
                 /\ k <> 0).
Proof.
  intros Hdir Hname seq dir. subst seq dir.
  unfold parseHandlerCreate, getValue_cstr, getValue_int.
  rewrite Hname.
  destruct (getValue_ll prop "Parent File-handle" (-1) <? 0) eqn:Hlt; [lia|].
  split.
  - destruct (prop !! "Num-replicas") as [v|]; [|reflexivity].
    repeat split; intros Hv.
    + by rewrite Hv.
    + rewrite wrap16_small by lia.
      destruct (toInt v =? 0) eqn:H0; [lia|].
      unfold NUM_REPLICAS_PER_FILE.
      destruct (3 <? toInt v) eqn:H3; [lia|]. reflexivity.
    + rewrite wrap16_small by lia.
      destruct (toInt v =? 0) eqn:H0; [lia|].
      unfold NUM_REPLICAS_PER_FILE.
      destruct (3 <? toInt v) eqn:H3; [|lia]. reflexivity.
  - intros r.
    set (n := wrap16 match prop !! "Num-replicas" with
                     | Some v => toInt v | None => 1 end).
    destruct (n =? 0) eqn:H0; [discriminate|].
    unfold parse_ok, NUM_REPLICAS_PER_FILE. intros [= <-]. simpl.
    eexists; split; [reflexivity|].
    destruct (3 <? n) eqn:H3; lia.
Qed.

(** C9 (as the code has it). For each client command, the parse handler
    fails exactly when one of the headers it checks is refused: a file
    handle or an offset that is absent or negative, a name that is absent,
    or a replica count that reads as 0.  Otherwise it builds a request whose
    sequence number is the Cseq header, or -1 when there is none; the lease
    and monitoring commands check nothing and never fail. *)
Theorem parse_fails_on_checked_headers
        (cmd : string) (handler : gmap string string -> ParseResult)
        (prop : gmap string string) :
  gParseHandlers cmd = Some handler ->
  cmd <> "HELLO" ->
  if existsb (refused prop) (checked cmd)
  then handler prop = parse_fail
  else exists r, handler prop = parse_ok r
                 /\ opSeqno r = getValue_ll prop "Cseq" (-1).
Proof.
  intros Hh Hhello. unfold gParseHandlers in Hh.
  repeat match type of Hh with
         | (if decide (cmd = ?c) then _ else _) = _ =>
             destruct (decide (cmd = c)) as [->|?]; [injection Hh as <-|]
         end;
    try discriminate; try (exfalso; apply Hhello; reflexivity).
  all: match goal with
       | |- context [checked ?c] =>
           let l := eval vm_compute in (checked c) in
           change (checked c) with l
       end.
  all: cbn [existsb refused fst snd orb].
  all: unfold parseHandlerLookup, parseHandlerLookupPath, parseHandlerCreate,
         parseHandlerMkdir, parseHandlerRemove, parseHandlerRmdir,
         parseHandlerReaddir, parseHandlerGetalloc, parseHandlerGetlayout,
         parseHandlerAllocate, parseHandlerTruncate, parseHandlerRename,
         parseHandlerLeaseAcquire, parseHandlerLeaseRenew, parseHandlerPing,
         parseHandlerStats, getValue_cstr.
  all: repeat match goal with
         | |- context [getValue_ll _ ?k (-1) <? 0] =>
             destruct (getValue_ll _ k (-1) <? 0)
         | |- context [bool_decide (?m !! ?k = None)] =>
             destruct (m !! k) eqn:?;
             [rewrite bool_decide_eq_false_2 by done
             |rewrite bool_decide_eq_true_2 by done]
         | |- context [wrap16 ?x =? 0] => destruct (wrap16 x =? 0)
         end; simpl; try reflexivity; try (eexists; split; reflexivity).
Qed.
End WireFacts.

(** C8, counterexample: a CREATE request with no Num-replicas header is
    built with 1 replica, not with 3. *)
Lemma create_without_replicas_gets_one :
  Wire.parseHandlerCreate create_plain
  = Wire.parse_ok (new_request 1 (Create 2 "a" 1 0))
  /\ 1 <> NUM_REPLICAS_PER_FILE.
Proof. split; [vm_compute; reflexivity | by compute]. Qed.

Lemma create_replicas_capped_witness :
  Wire.parseHandlerCreate create_seven
  = Wire.parse_ok (new_request 1 (Create 2 "a" 3 0)).
Proof.
  assert (Hdir : 0 <= Wire.getValue_ll create_seven "Parent File-handle" (-1))
    by (vm_compute; discriminate).
  destruct (create_replicas_capped create_seven "a" Hdir eq_refl)
    as [(_ & _ & Hcap) _].
  apply Hcap. vm_compute. split; [reflexivity | intros Hx; discriminate Hx].
Defined.

(** C9, counterexample: a LOOKUP without Cseq is parsed, with sequence
    number -1, and a LEASE_ACQUIRE without Chunk-handle is parsed, with
    chunk handle -1. *)
Lemma lookup_without_cseq_is_parsed :
  Wire.parseHandlerLookup {[ "Parent File-handle" := "2"; "Filename" := "a" ]}
  = Wire.parse_ok (new_request (-1) (Lookup 2 "a" None))
  /\ Wire.parseHandlerLeaseAcquire ∅
     = Wire.parse_ok (new_request (-1) (LeaseAcquire (-1) 0)).
Proof. split; vm_compute; reflexivity. Qed.

Lemma parse_fails_on_checked_headers_witness :
  Wire.parseHandlerGetalloc {[ "Cseq" := "4"; "File-handle" := "5" ]}
  = Wire.parse_fail.
Proof.
  assert (Hne : "GETALLOC" <> "HELLO") by discriminate.
  exact (parse_fails_on_checked_headers "GETALLOC" Wire.parseHandlerGetalloc
           {[ "Cseq" := "4"; "File-handle" := "5" ]} eq_refl Hne).
Defined.

Example ParseCommand_create :
  Wire.ParseCommand
    ("CREATE " +:+ Reply.crlf +:+ "Cseq: 9" +:+ Reply.crlf
     +:+ "Parent File-handle: 2" +:+ Reply.crlf
     +:+ "Filename: a" +:+ Reply.crlf
     +:+ "Num-replicas: 2" +:+ Reply.crlf +:+ Reply.crlf)
  = Wire.parse_ok (new_request 9 (Create 2 "a" 2 0)).
Proof. vm_compute. reflexivity. Qed.

Example ParseCommand_unknown : Wire.ParseCommand "FROB " = Wire.parse_fail.
Proof. vm_compute. reflexivity. Qed.

Example ParseCommand_stops_at_the_first_NUL :
  Wire.ParseCommand ("GETLAYOUT" +:+ String "000" " File-handle: 5")
  = Wire.parse_fail /\
  Wire.ParseCommand ("PING" +:+ String "000" "junk")
  = Wire.parse_ok (new_request (-1) (Ping "")).
Proof. vm_compute. split; reflexivity. Qed.

(** ** Directory listings *)

Section ReplyFacts.
Import Reply.

Lemma readdir_loop_from (dir : fid_t) (v : list MetaDentry) (res : string)
      (n : Z) :
  foldl (readdir_step dir) (res, n) v
  = (res +:+ name_lines (listed dir v),
     n + Z.of_nat (length (listed dir v))).
Proof.
  revert res n. induction v as [|d v IH]; intros res n.
  - unfold listed. case_bool_decide; simpl;
      rewrite append_nil_r; f_equal; lia.
  - change (foldl (readdir_step dir) (res, n) (d :: v))
      with (foldl (readdir_step dir) (readdir_step dir (res, n) d) v).
    unfold readdir_step at 2. unfold listed in *.
    case_bool_decide as Hdir; simpl.
    + rewrite filter_cons. case_bool_decide as Hname; simpl.
      * rewrite decide_False by (intros Hd; by apply Hd).
        apply IH.
      * rewrite decide_True by done. rewrite IH. simpl.
        rewrite !append_assoc. f_equal. lia.
    + rewrite IH. simpl. rewrite !append_assoc. f_equal. lia.
Qed.

Lemma readdir_loop_listed (dir : fid_t) (v : list MetaDentry) :
  readdir_loop dir v
  = (name_lines (listed dir v), Z.of_nat (length (listed dir v))).
Proof. unfold readdir_loop. by rewrite readdir_loop_from. Qed.

Lemma length_zero_empty (s : string) : String.length s = 0%nat -> s = "".
Proof. by destruct s. Qed.

(** C10. The response to a successful READDIR counts and lists the
    dentries of [listed]: for the root directory (fid 2) all of them but the
    entry named "/", for any other directory every dentry the tree
    returned. *)
Theorem readdir_response_omits_root_entry
        (r : MetaRequest) (dir : fid_t) (v : list MetaDentry) (os : string) :
  0 <= status r ->
  MetaReaddir_response r dir v os
  = os +:+ "OK" +:+ crlf
       +:+ "Cseq: " +:+ pretty (opSeqno r) +:+ crlf
       +:+ "Status: " +:+ pretty (status r) +:+ crlf
       +:+ "Num-Entries: " +:+ pretty (Z.of_nat (length (listed dir v)))
       +:+ crlf
       +:+ "Content-length: "
       +:+ pretty (String.length (name_lines (listed dir v)))
       +:+ crlf +:+ crlf +:+ name_lines (listed dir v)
  /\ (dir = ROOTFID ->
      listed dir v = filter (fun d => de_name d <> "/") v)
  /\ (dir <> ROOTFID -> listed dir v = v).
Proof.
  intros Hst. split; [|split].
  - unfold MetaReaddir_response.
    destruct (status r <? 0) eqn:Hneg; [lia|].
    rewrite readdir_loop_listed.
    destruct (0 <? String.length (name_lines (listed dir v)))%nat eqn:Hlen.
    + rewrite !append_assoc. reflexivity.
    + apply Nat.ltb_ge in Hlen.
      rewrite (length_zero_empty (name_lines (listed dir v))) by lia.
      rewrite !append_assoc. rewrite !append_nil_r. reflexivity.
  - intros ->. unfold listed. by rewrite bool_decide_eq_true_2.
  - intros Hd. unfold listed. by rewrite bool_decide_eq_false_2.
Qed.
End ReplyFacts.

Lemma readdir_response_omits_root_entry_witness :
  Reply.MetaReaddir_response (new_request 5 (Readdir 2 root_dentries))
                             2 root_dentries ""
  = "OK" +:+ Reply.crlf +:+ "Cseq: 5" +:+ Reply.crlf
    +:+ "Status: 0" +:+ Reply.crlf +:+ "Num-Entries: 2" +:+ Reply.crlf
    +:+ "Content-length: 4" +:+ Reply.crlf +:+ Reply.crlf
    +:+ "a" +:+ Reply.lf +:+ "e" +:+ Reply.lf.
Proof.
  assert (Hst : 0 <= status (new_request 5 (Readdir 2 root_dentries)))
    by (vm_compute; discriminate).
  destruct (readdir_response_omits_root_entry
              (new_request 5 (Readdir 2 root_dentries)) 2 root_dentries ""
              Hst) as [-> _].
  vm_compute. reflexivity.
Defined.

Example readdir_other_directory_lists_slash :
  Reply.readdir_loop 7 root_dentries
  = ("/" +:+ Reply.lf +:+ "a" +:+ Reply.lf +:+ "e" +:+ Reply.lf, 3).
Proof. vm_compute. reflexivity. Qed.


(** ** The checkpointer *)

Section CpFacts.
Context {Meta : Type} `{Cp.MetaLib Meta}.
Import Cp.

Lemma same_flags_refl (c : Checkpoint Meta) : same_flags c c.
Proof. by repeat split. Qed.

Lemma same_flags_trans (a b c : Checkpoint Meta) :
  same_flags a b -> same_flags b c -> same_flags a c.
Proof. unfold same_flags. intuition congruence. Qed.

Lemma start_CP_cpcount (c : Checkpoint Meta) :
  cpcount (start_CP c) = cpcount c.
Proof. unfold start_CP. by repeat case_match. Qed.

Lemma start_CP_starts (c : Checkpoint Meta) :
  running (start_CP c) = true ->
  running c = true \/
  (running c = false /\ mutations c <> 0 /\ nostart c = false).
Proof.
  unfold start_CP.
  destruct (running c) eqn:Hr; [by left|]. simpl.
  destruct (mutations c =? 0) eqn:Hm; simpl; [congruence|].
  destruct (nostart c) eqn:Hn; simpl; [congruence|].
  intros _. right. repeat split; lia.
Qed.

Lemma emit_frame (m : Meta) (c c' : Checkpoint Meta) (st : Z) :
  emit m c = (c', st) ->
  same_flags c c' /\ zombie c' = zombie c /\
  activeNode c' = activeNode c /\
  events c' = events c ++ [Emitted m].
Proof.
  unfold emit. destruct (checkpoint m (file c)) as [f s].
  intros [= <- <-]. by repeat split.
Qed.

Lemma write_zombies_loop_frame (q : list Meta) (st : Z)
      (c c' : Checkpoint Meta) (st' : Z) :
  write_zombies_loop q st c = (c', st') ->
  same_flags c c' /\ zombie c' = [] /\
  events c' = events c ++ zombie_events q.
Proof.
  revert st c. induction q as [|m q IH]; intros st c; simpl.
  - intros [= <- <-]. simpl. rewrite app_nil_r. by repeat split.
  - destruct (emit m (set_zombie q c)) as [c1 s] eqn:Hemit.
    apply emit_frame in Hemit as (Hfl & _ & _ & Hev).
    intros Hloop. apply IH in Hloop as (Hfl' & Hz & Hev').
    split; [|split; [done|]].
    + eapply same_flags_trans; [|exact Hfl'].
      eapply same_flags_trans; [|exact Hfl]. by repeat split.
    + rewrite Hev'. simpl. rewrite Hev. simpl.
      by rewrite <- !app_assoc.
Qed.

Lemma write_leaves_loop_stuck (li : list (Node * Meta)) (st : Z)
      (c : Checkpoint Meta) :
  st <> 0 -> write_leaves_loop li st c = (c, st).
Proof.
  intros Hst. destruct li as [|[p m] li]; simpl; [done|].
  destruct (st =? 0) eqn:H0; [lia|done].
Qed.

Lemma save_active_frame (n : option Node) (c : Checkpoint Meta) :
  same_flags c (save_active n c) /\
  zombie (save_active n c) = zombie c /\
  events (save_active n c) = events c /\
  file (save_active n c) = file c.
Proof. by repeat split. Qed.

Lemma write_leaves_loop_frame (li : list (Node * Meta)) (st : Z)
      (c c' : Checkpoint Meta) (st' : Z) :
  write_leaves_loop li st c = (c', st') ->
  same_flags c c' /\ zombie c' = zombie c /\
  exists k, events c' = events c ++ leaf_events (take k li) /\
            (st' = 0 -> st = 0 /\ k = length li).
Proof.
  revert st c. induction li as [|[p m] li IH]; intros st c; simpl.
  - intros [= <- <-]. split; [apply same_flags_refl|]. split; [done|].
    exists 0%nat. rewrite app_nil_r. done.
  - destruct (st =? 0) eqn:Hst.
    + destruct (if skip m then (note (Cleared m) c, st) else emit m c)
        as [c1 s1] eqn:Hvisit.
      assert (same_flags c c1 /\ zombie c1 = zombie c /\
              events c1 = events c ++
                 [if skip m then Cleared m else Emitted m])
        as (Hfl & Hz & Hev).
      { destruct (skip m).
        - injection Hvisit as <- <-. by repeat split.
        - apply emit_frame in Hvisit as (? & ? & _ & ?). simpl. auto. }
      set (c2 := if decide (parent li = activeNode c1) then c1
                 else save_active (parent li) c1).
      assert (same_flags c1 c2 /\ zombie c2 = zombie c1 /\
              events c2 = events c1) as (Hfs & Hzs & Hes).
      { subst c2. case_decide; by repeat split. }
      intros Hloop. apply IH in Hloop as (Hfl' & Hz' & k & Hev' & Hk).
      split; [|split].
      * eapply same_flags_trans; [exact Hfl|].
        eapply same_flags_trans; [exact Hfs|exact Hfl'].
      * by rewrite Hz', Hzs.
      * exists (S k). simpl. rewrite Hev', Hes, Hev.
        rewrite <- app_assoc. split; [done|].
        intros Hst'. destruct (Hk Hst') as [_ ->]. split; [lia|done].
    + intros [= <- <-]. split; [apply same_flags_refl|]. split; [done|].
      exists 0%nat. simpl. rewrite app_nil_r. split; [done|].
      intros ->. discriminate.
Qed.

Lemma write_leaves_frame (li : list (Node * Meta))
      (c c' : Checkpoint Meta) (st : Z) :
  write_leaves li c = (c', st) ->
  same_flags c c' /\ zombie c' = zombie c /\
  exists k, events c' = events c ++ leaf_events (take k li) /\
            (st = 0 -> k = length li).
Proof.
  unfold write_leaves.
  destruct (write_leaves_loop li 0 (save_active (parent li) c))
    as [c1 s1] eqn:Hloop.
  intros [= <- <-].
  apply write_leaves_loop_frame in Hloop as (Hfl & Hz & k & Hev & Hk).
  split; [|split].
  - eapply same_flags_trans; [|apply save_active_frame].
    eapply same_flags_trans; [|exact Hfl]. apply save_active_frame.
  - simpl. by rewrite Hz.
  - exists k. simpl. rewrite Hev. split; [done|].
    intros Hs. by destruct (Hk Hs).
Qed.

(** What the writing loops leave alone besides the flags. *)
Lemma emit_keeps (m : Meta) (c : Checkpoint Meta) :
  activeNode (emit m c).1 = activeNode c /\
  cpname (emit m c).1 = cpname c /\
  file (emit m c).1 = (checkpoint m (file c)).1 /\
  (emit m c).2 = (checkpoint m (file c)).2.
Proof. unfold emit. by destruct (checkpoint m (file c)). Qed.

Lemma save_active_file (n : option Node) (c : Checkpoint Meta) :
  file (save_active n c) = file c.
Proof. reflexivity. Qed.

Lemma write_leaves_loop_file (li : list (Node * Meta)) (c : Checkpoint Meta) :
  (write_leaves_loop li 0 c).2
  = first_error (statuses (unskipped li) (file c)) /\
  ((write_leaves_loop li 0 c).2 = 0 ->
   file (write_leaves_loop li 0 c).1 = emitted (unskipped li) (file c)).
Proof.
  revert c. induction li as [|[p m] li IH]; intros c; [done|].
  unfold unskipped. cbn [write_leaves_loop fmap list_fmap snd].
  change (0 =? 0) with true. cbv iota.
  destruct (skip m) eqn:Hskip.
  - rewrite filter_cons_False by (simpl; congruence).
    match goal with
    | |- context [write_leaves_loop li 0 ?x] =>
        destruct (IH x) as [IH1 IH2];
        assert (Hf : file x = file c) by (by case_decide)
    end.
    rewrite Hf in IH1, IH2. done.
  - rewrite filter_cons_True by done.
    pose proof (emit_keeps m c) as (_ & _ & Hf & Hs).
    destruct (emit m c) as [c1 s]. cbn [fst snd] in Hf, Hs.
    cbn [statuses first_error emitted foldl]. rewrite <- Hf, <- Hs.
    match goal with
    | |- context [write_leaves_loop li s ?x] =>
        assert (Hx : file x = file c1) by (by case_decide);
        generalize dependent x
    end.
    intros x Hx. destruct (s =? 0) eqn:Hs0.
    + assert (s = 0) as -> by lia.
      destruct (IH x) as [IH1 IH2]. rewrite Hx in IH1, IH2. done.
    + destruct li as [|[p' m'] li]; simpl; rewrite ?Hs0; split; try done;
        cbn [fst snd]; intros ->; discriminate Hs0.
Qed.


Lemma write_zombies_loop_file (q : list Meta) (st : Z)
      (c : Checkpoint Meta) :
  file (write_zombies_loop q st c).1 = emitted q (file c).
Proof.
  revert st c. induction q as [|m q IH]; intros st c; simpl; [done|].
  pose proof (emit_keeps m (set_zombie q c)) as (_ & _ & Hf & _).
  destruct (emit m (set_zombie q c)) as [c1 s]. simpl in Hf.
  rewrite IH. simpl. by rewrite Hf.
Qed.

(** What a completed [do_CP] leaves behind. *)
Lemma do_CP_frame (i : CpInputs) (leaves : list (Node * Meta))
      (c c' : Checkpoint Meta) (st : Z) :
  do_CP i leaves c = Some (c', st) ->
  running c = true /\ running c' = false /\
  mutations c' = mutations c /\ nostart c' = nostart c /\
  startblocked c' = startblocked c /\ cpcount c' = cpcount c + 1 /\
  ((events c' = events c ++ leaf_events leaves ++ zombie_events (zombie c)
    /\ zombie c' = [])
   \/ (exists k, events c' = events c ++ leaf_events (take k leaves))
       /\ zombie c' = zombie c /\ st <> 0).
Proof.
  unfold do_CP. destruct (running c) eqn:Hr; [|discriminate]. simpl.
  destruct (Stream.fail (opened i)) eqn:Hopen; simpl.
  - intros [= <- <-]. simpl. repeat split; try done.
    right. split; [|done]. exists 0%nat. simpl. by rewrite app_nil_r.
  - match goal with
    | |- context [write_leaves leaves ?x] =>
        destruct (write_leaves leaves x) as [c1 s1] eqn:Hl
    end.
    apply write_leaves_frame in Hl
      as ((Hr1 & Hm1 & Hn1 & Hb1 & Hc1) & Hz1 & k & Hev1 & Hk).
    simpl in *.
    destruct (s1 =? 0) eqn:Hs1.
    + destruct (write_zombies c1) as [c2 s2] eqn:Hzb.
      apply write_zombies_loop_frame in Hzb
        as ((Hr2 & Hm2 & Hn2 & Hb2 & Hc2) & Hz2 & Hev2).
      intros [= <- <-]. simpl.
      repeat split; try congruence; try lia.
      left. split; [|done].
      rewrite Hev2, Hev1, Hz1, Hk by lia.
      rewrite firstn_all. by rewrite <- app_assoc.
    + intros [= <- <-]. simpl.
      repeat split; try congruence; try lia.
      right. split; [by exists k|]. split; [done|lia].
Qed.



Lemma start_CP_noop (c : Checkpoint Meta) :
  running c = true -> start_CP c = c.
Proof. intros Hr. unfold start_CP. by rewrite Hr. Qed.

Lemma start_CP_balance (c : Checkpoint Meta) :
  (if negb (running c) && running (start_CP c) then 1 else 0)
  + (if running c then 1 else 0)
  = if running (start_CP c) then 1 else 0.
Proof.
  destruct (running c) eqn:Hr.
  - rewrite start_CP_noop by done. rewrite Hr. reflexivity.
  - simpl. destruct (running (start_CP c)); reflexivity.
Qed.

(** One step keeps the number of checkpoints started equal to the number
    completed plus the one that is running. *)
Lemma step_balance (o : Op) (c c' : Checkpoint Meta) :
  step o c = Some c' ->
  starts c c' + cpcount c + (if running c then 1 else 0)
  = cpcount c' + (if running c' then 1 else 0).
Proof.
  destruct o as [| | |i leaves|m]; simpl.
  - intros [= <-]. rewrite start_CP_cpcount. unfold starts.
    pose proof (start_CP_balance c). lia.
  - intros [= <-]. unfold starts. simpl. destruct (running c); simpl; lia.
  - intros [= <-]. unfold unlock_running, starts.
    destruct (startblocked c).
    + rewrite start_CP_cpcount. simpl.
      pose proof (start_CP_balance
                    (set_flags (running c) (mutations c) false false
                               (wakeups c) c)) as Hb.
      simpl in Hb. lia.
    + simpl. destruct (running c); simpl; lia.
  - destruct (do_CP i leaves c) as [[c1 st]|] eqn:Hdo; [|discriminate].
    simpl. intros [= <-].
    apply do_CP_frame in Hdo as (Hr & Hr' & _ & _ & _ & Hc & _).
    unfold starts. rewrite Hr, Hr', Hc. simpl. lia.
  - intros [= <-]. unfold starts. simpl. destruct (running c); simpl; lia.
Qed.

Lemma run_balance (ops : list Op) (c c' : Checkpoint Meta) (n n' : Z) :
  run ops c n = Some (c', n') ->
  n' - n + cpcount c + (if running c then 1 else 0)
  = cpcount c' + (if running c' then 1 else 0).
Proof.
  revert c n. induction ops as [|o ops IH]; intros c n; simpl.
  - intros [= <- <-]. lia.
  - destruct (step o c) as [c1|] eqn:Hstep; [|discriminate].
    intros Hrun. apply IH in Hrun. apply step_balance in Hstep. lia.
Qed.

(** C4. [start_CP] turns [running] on and resets [mutations] exactly when
    no checkpoint is running, [mutations] is not 0 and no request holds
    [lock_running]; when one does it only sets [startblocked]; otherwise it
    changes nothing.  [unlock_running] clears both flags and calls
    [start_CP] exactly when a start was blocked, so a start that was put
    off is made then.  Hence over any interleaving of the calls, begun
    while no checkpoint runs, the checkpoints started are the completed
    ones plus at most one that is running, and none starts while
    [mutations] is 0. *)
Theorem start_CP_one_at_a_time (c : Checkpoint Meta) :
  (running c = false -> mutations c <> 0 -> nostart c = false ->
   start_CP c = set_flags true 0 false (startblocked c) (S (wakeups c)) c)
  /\ (running c = false -> mutations c <> 0 -> nostart c = true ->
      start_CP c = set_flags false (mutations c) true true (wakeups c) c)
  /\ (running c = true \/ mutations c = 0 -> start_CP c = c)
  /\ (unlock_running c
      = if startblocked c
        then start_CP (set_flags (running c) (mutations c) false false
                                 (wakeups c) c)
        else set_flags (running c) (mutations c) false false (wakeups c) c)
  /\ (running c = false -> mutations c <> 0 -> nostart c = true ->
      running (unlock_running (start_CP c)) = true /\
      mutations (unlock_running (start_CP c)) = 0)
  /\ (starts c (start_CP c) = 1 -> mutations c <> 0)
  /\ (starts c (unlock_running c) = 1 -> mutations c <> 0)
  /\ (forall ops c' n,
        running c = false -> run ops c 0 = Some (c', n) ->
        n = cpcount c' - cpcount c + (if running c' then 1 else 0)
        /\ 0 <= n - (cpcount c' - cpcount c) <= 1).
Proof.
  repeat apply conj.
  - intros Hr Hm Hn. unfold start_CP. rewrite Hr, Hn.
    destruct (mutations c =? 0) eqn:H0; [lia|]. reflexivity.
  - intros Hr Hm Hn. unfold start_CP. rewrite Hr, Hn.
    destruct (mutations c =? 0) eqn:H0; [lia|]. reflexivity.
  - intros [Hr| Hm]; unfold start_CP.
    + by rewrite Hr.
    + rewrite Hm. simpl. by rewrite andb_false_r.
  - reflexivity.
  - intros Hr Hm Hn. unfold unlock_running, start_CP.
    rewrite Hr, Hn. destruct (mutations c =? 0) eqn:H0; [lia|].
    simpl. rewrite H0. simpl. done.
  - unfold starts. destruct (running c) eqn:Hr; simpl; [lia|].
    destruct (running (start_CP c)) eqn:Hs; [|lia].
    apply start_CP_starts in Hs as [?|(_ & ? & _)]; [congruence|done].
  - unfold starts, unlock_running.
    destruct (running c) eqn:Hr; simpl; [lia|].
    destruct (startblocked c); simpl; [|rewrite ?Hr; lia].
    match goal with
    | |- context [running (start_CP ?x)] =>
        destruct (running (start_CP x)) eqn:Hs; [|lia];
        apply start_CP_starts in Hs as [Hs|(_ & Hs & _)]
    end; simpl in Hs; [congruence|done].
  - intros ops c' n Hr Hrun. apply run_balance in Hrun.
    rewrite Hr in Hrun. destruct (running c'); lia.
Qed.
End CpFacts.

(** ** The dispatcher *)

Section DispatchFacts.
Context {W : Type} `{Dispatch.Collaborators W}.
Import Dispatch.

Lemma handler_frame_refl (s : State W) : handler_frame s s.
Proof. by repeat split. Qed.

Lemma handler_frame_trans (a b c : State W) :
  handler_frame a b -> handler_frame b c -> handler_frame a c.
Proof.
  intros (? & ? & Hab) (? & ? & Hbc). repeat split; try congruence.
  intros p Hp. by apply Hbc, Hab.
Qed.

Lemma store_frame (r : ReqPtr) (v : MetaRequest) (s : State W) :
  handler_frame s (store r v s).
Proof.
  repeat split. intros p Hp. simpl.
  rewrite lookup_insert_is_Some. destruct (decide (r = p)); auto.
Qed.

Lemma set_world_frame (w : W) (s : State W) :
  handler_frame s (set_world w s).
Proof. by repeat split. Qed.

Lemma call_frame (c : Call) (s : State W) : handler_frame s (call c s).
Proof. by repeat split. Qed.

Lemma notify_all_calls (l : list ChunkServerPtr) (f : fid_t) (c : chunkId_t)
      (v : seq_t) (s : State W) :
  calls (notify_all l f c v s)
  = calls s ++ map (fun p => NotifyChunkVersChange p f c v) l
  /\ heap (notify_all l f c v s) = heap s
  /\ brk (notify_all l f c v s) = brk s
  /\ requestList (notify_all l f c v s) = requestList s
  /\ chunkVersionInc (notify_all l f c v s) = chunkVersionInc s
  /\ handler_frame s (notify_all l f c v s).
Proof.
  revert s. induction l as [|p l IH]; intros s; simpl.
  - rewrite app_nil_r. repeat split; done.
  - unfold notify_all in *. simpl.
    destruct (IH (call (NotifyChunkVersChange p f c v) s))
      as (-> & -> & -> & -> & -> & Hf).
    simpl. rewrite <- app_assoc. repeat split; try done.
    + apply Hf.
    + apply Hf.
    + intros q Hq. by apply Hf.
Qed.

Lemma ChangeIncarnationNumber_frame (r : ReqPtr) (s : State W) :
  handler_frame s (ChangeIncarnationNumber r s).
Proof.
  repeat split. intros p Hp. simpl.
  rewrite lookup_insert_is_Some. destruct (decide (brk s = p)); auto.
Qed.

Ltac frame_step :=
  match goal with
  | |- handler_frame ?s ?s => apply handler_frame_refl
  | |- handler_frame ?s (store _ _ ?t) =>
      apply (handler_frame_trans s t); [|apply store_frame]
  | |- handler_frame ?s (set_world _ ?t) =>
      apply (handler_frame_trans s t); [|apply set_world_frame]
  | |- handler_frame ?s (call _ ?t) =>
      apply (handler_frame_trans s t); [|apply call_frame]
  | |- handler_frame ?s (ChangeIncarnationNumber _ ?t) =>
      apply (handler_frame_trans s t);
      [|apply ChangeIncarnationNumber_frame]
  | |- handler_frame ?s (notify_all ?l ?f ?c ?v ?t) =>
      apply (handler_frame_trans s t); [|apply notify_all_calls]
  | |- handler_frame ?s (if ?b then _ else _) => destruct b
  end.

Ltac frame := repeat frame_step.

(** [handle_allocate] returns on every allocation request in the store. *)
Lemma handle_allocate_frame (r : ReqPtr) (s : State W) (req : MetaRequest)
      (a : MetaAllocate) :
  heap s !! r = Some req -> body req = Allocate a ->
  exists s', handle_allocate r s = Some s' /\ handler_frame s s'.
Proof.
  intros Hr Hb. unfold handle_allocate. rewrite Hr. simpl. rewrite Hb.
  repeat (case_match; simplify_eq/=);
    (eexists; split; [reflexivity|]); frame.
Qed.

Lemma tie_body (r : ReqPtr) (seq : seq_t) (f : fid_t) (off : chunkOff_t) :
  body (tie r (new_MetaAllocate seq f off))
  = Allocate {| fid := f; offset := off; chunkId := 0; chunkVersion := 0;
                numReplicas := 0; layoutDone := false; servers := [];
                master := None; req := Some r |}.
Proof. reflexivity. Qed.

(** [handle_truncate] returns on every truncation request in the store,
    as long as [new] hands out an address that is not in use. *)
Lemma handle_truncate_frame (r : ReqPtr) (s : State W) (req : MetaRequest)
      (f : fid_t) (off : chunkOff_t) :
  heap s !! r = Some req -> body req = Truncate f off ->
  heap s !! brk s = None ->
  exists s', handle_truncate r s = Some s' /\ handler_frame s s'.
Proof.
  intros Hr Hb Hfresh. unfold handle_truncate. rewrite Hr. simpl. rewrite Hb.
  destruct (truncate (world s) f off 0) as [[st allocOffset] w].
  destruct (0 <? st) eqn:Hpos.
  - assert (Hne : r <> brk s) by (intros ->; congruence).
    simpl.
    match goal with
    | |- exists s', handle_allocate ?p ?s1 = Some s' /\ _ =>
        edestruct (handle_allocate_frame p s1
                     (tie r (new_MetaAllocate (opSeqno (set_status st req))
                                              f allocOffset)))
          as (s' & Hs' & Hf); [| apply tie_body | ]
    end.
    + simpl. rewrite lookup_insert_ne by done. by rewrite lookup_insert_eq.
    + exists s'. split; [done|].
      eapply handler_frame_trans; [|exact Hf].
      repeat split. intros p Hp. simpl.
      rewrite !lookup_insert_is_Some. simpl in Hp.
      destruct (decide (r = p)); auto.
      destruct (decide (brk s = p)); auto 10.
  - eexists; split; [reflexivity|]. frame.
Qed.

(** Every handler of the table returns, and leaves the log's pending list
    and the counters alone. *)
Lemma handler_returns (r : ReqPtr) (s : State W) (req : MetaRequest)
      (h : ReqPtr -> State W -> option (State W)) :
  heap s !! r = Some req -> heap s !! brk s = None ->
  handler (op req) = Some h ->
  exists s', h r s = Some s' /\ handler_frame s s'.
Proof.
  intros Hr Hfresh. unfold op.
  destruct (body req) eqn:Hb; simpl; intros [= <-];
    try (by eapply handle_allocate_frame);
    try (by eapply handle_truncate_frame).
  all: unfold handle_lookup, handle_lookup_path, handle_create, handle_mkdir,
         handle_remove, handle_rmdir, handle_readdir, handle_getalloc,
         handle_getlayout, handle_rename, handle_checkpoint, handle_hello,
         handle_bye, handle_lease_acquire, handle_lease_renew,
         handle_lease_cleanup, handle_chunk_replication_check,
         handle_chunk_replication_done, handle_change_chunkVersionInc,
         handle_ping, handle_stats.
  all: rewrite Hr; simpl; rewrite ?Hb.
  all: repeat (case_match; simplify_eq/=);
         (eexists; split; [reflexivity|]); frame.
Qed.

Lemma run_handler_returns (r : ReqPtr) (s : State W) (req : MetaRequest) :
  heap s !! r = Some req -> heap s !! brk s = None ->
  exists s', run_handler r s = Some s' /\ handler_frame s s'.
Proof.
  intros Hr Hfresh. unfold run_handler. rewrite Hr. simpl.
  destruct (handler (op req)) as [h|] eqn:Hh.
  - by eapply handler_returns.
  - eexists; split; [reflexivity|]. frame.
Qed.

(** No handler drops a request: whatever is in the store before a
    request is served is still there afterwards. *)
Corollary run_handler_keeps_requests (r p : ReqPtr) (s : State W)
          (req : MetaRequest) :
  heap s !! r = Some req -> heap s !! brk s = None ->
  is_Some (heap s !! p) ->
  exists s', run_handler r s = Some s' /\ is_Some (heap s' !! p).
Proof.
  intros Hr Hfresh Hp.
  destruct (run_handler_returns r s req Hr Hfresh) as (s' & Hrun & _ & _ & Hk).
  exists s'. split; [done|]. by apply Hk.
Qed.

(** C2 (as the code has it). [process_request] takes the request at the
    head of the queue and runs the handler of its opcode (an opcode with no
    handler gets status -ENOSYS).  If the request is not suspended
    afterwards, it is passed to [oplog.add_pending], and the counter of its
    opcode is incremented by one when [RegisterCounters] registered one for
    that opcode; if it is suspended, neither the pending list nor any
    counter changes. *)
Theorem process_request_counts_and_logs
        (s : State W) (r : ReqPtr) (rest : list ReqPtr) (req : MetaRequest) :
  requestList s = r :: rest ->
  heap s !! r = Some req ->
  heap s !! brk s = None ->
  exists s1 s' req',
    run_handler r (set_requestList rest s) = Some s1 /\
    (forall h, handler (op req) = Some h -> h r (set_requestList rest s) = Some s1) /\
    (handler (op req) = None ->
     s1 = store r (set_status (- ENOSYS) req) (set_requestList rest s)) /\
    process_request s = Some s' /\
    heap s' !! r = Some req' /\ heap s1 !! r = Some req' /\
    if suspended req'
    then s' = s1 /\ pending s' = pending s /\ gCounters s' = gCounters s
    else pending s' = pending s ++ [r] /\
         gCounters s'
         = match gCounters s !! op req' with
           | Some c => <[op req' := Update 1 c]> (gCounters s)
           | None => gCounters s
           end.
Proof.
  intros Hq Hr Hfresh.
  destruct (run_handler_returns r (set_requestList rest s) req Hr Hfresh)
    as (s1 & Hrun & Hp & Hc & Hheap).
  destruct (Hheap r) as [req' Hreq']; [simpl; by rewrite Hr|].
  simpl in Hp, Hc.
  exists s1.
  exists (if suspended req' then s1
          else add_pending r (UpdateCounter (op req') s1)).
  exists req'.
  split; [done|]. split.
  { intros h Hh. unfold run_handler in Hrun. simpl in Hrun.
    rewrite Hr in Hrun. simpl in Hrun. by rewrite Hh in Hrun. }
  split.
  { intros Hh. unfold run_handler in Hrun. simpl in Hrun.
    rewrite Hr in Hrun. simpl in Hrun. rewrite Hh in Hrun. congruence. }
  split.
  { unfold process_request. rewrite Hq, Hrun. simpl. rewrite Hreq'. simpl.
    by destruct (suspended req'). }
  destruct (suspended req') eqn:Hsusp.
  - repeat split; done.
  - unfold UpdateCounter. rewrite Hc.
    destruct (gCounters s !! op req') as [c|]; simpl;
      rewrite ?Hp, ?Hc; done.
Qed.

(** C1 (as the code has it). When an allocation request comes back with
    its layout done and a status that is not 0, [handle_allocate] sets the
    status to -EALLOCFAILED, reads the chunk's version from the tree, and
    then: if that version is positive it sends CHUNK_VERS_CHANGE with it to
    every server of the request, otherwise it removes the chunk's server
    mapping.  Either way the request stays suspended, [chunkVersionInc]
    grows by exactly one, and a [MetaChangeChunkVersionInc] request that
    carries the new value and points back to the allocation is queued. *)
Theorem failed_allocation_bumps_incarnation
        (s : State W) (r : ReqPtr) (req : MetaRequest) (a : MetaAllocate) :
  heap s !! r = Some req -> body req = Allocate a ->
  layoutDone a = true -> status req <> 0 ->
  heap s !! brk s = None ->
  let v := getChunkVersion (world s) (fid a) (chunkId a) (chunkVersion a) in
  exists s',
    handle_allocate r s = Some s' /\
    heap s' !! r
    = Some {| opSeqno := opSeqno req; status := - EALLOCFAILED;
              suspended := true;
              body := Allocate (set_ids (chunkId a) v (numReplicas a) a) |} /\
    chunkVersionInc s' = chunkVersionInc s + 1 /\
    heap s' !! brk s
    = Some (new_request 0
              (ChangeChunkVersionInc (chunkVersionInc s + 1) r)) /\
    requestList s' = requestList s ++ [brk s] /\
    calls s'
    = calls s ++
      (if 0 <? v
       then map (fun p => NotifyChunkVersChange p (fid a) (chunkId a) v)
                (servers a)
       else [RemoveChunkToServerMapping (chunkId a)]).
Proof.
  intros Hr Hb Hdone Hst Hfresh v.
  assert (Hne : brk s <> r) by (intros Heq; rewrite Heq in Hfresh; congruence).
  unfold handle_allocate. rewrite Hr. simpl. rewrite Hb, Hdone. simpl.
  destruct (status req =? 0) eqn:H0; [lia|]. simpl.
  eexists. split; [reflexivity|]. fold v.
  destruct (0 <? v) eqn:Hv.
  - destruct (notify_all_calls (servers a) (fid a) (chunkId a) v s)
      as (Hcalls & Hheap & Hbrk & Hq & Hinc & _).
    simpl. rewrite Hcalls, Hheap, Hbrk, Hq, Hinc.
    rewrite lookup_insert_ne by done.
    rewrite !lookup_insert_eq. done.
  - simpl. rewrite lookup_insert_ne by done.
    rewrite !lookup_insert_eq. done.
Qed.


(** C6. [handle_truncate] calls [truncate] on the tree and stores its
    status.  When the status is positive it makes a new [MetaAllocate] for
    the offset the tree gave, with the sequence number and the file of the
    truncation and its [req] pointing to the truncation, marks the
    truncation suspended, and runs [handle_allocate] on the new request.
    When the status is 0 or negative it does nothing else: the suspended
    flag is as it was, no request is made, and nothing is called. *)
Theorem truncate_allocates_on_extension
        (s : State W) (r : ReqPtr) (req : MetaRequest) (f : fid_t)
        (off : chunkOff_t) (st : Z) (allocOffset : chunkOff_t) (w : W) :
  heap s !! r = Some req -> body req = Truncate f off ->
  heap s !! brk s = None ->
  truncate (world s) f off 0 = (st, allocOffset, w) ->
  (0 < st ->
   exists s1,
     handle_truncate r s = handle_allocate (brk s) s1 /\
     heap s1 !! r
     = Some {| opSeqno := opSeqno req; status := st; suspended := true;
               body := Truncate f off |} /\
     heap s1 !! brk s
     = Some (new_request (opSeqno req)
               (Allocate {| fid := f; offset := allocOffset; chunkId := 0;
                            chunkVersion := 0; numReplicas := 0;
                            layoutDone := false; servers := [];
                            master := None; req := Some r |})) /\
     brk s1 = S (brk s) /\ world s1 = w /\ calls s1 = calls s /\
     requestList s1 = requestList s)
  /\ (st <= 0 ->
      handle_truncate r s
      = Some (store r {| opSeqno := opSeqno req; status := st;
                         suspended := suspended req;
                         body := Truncate f off |} (set_world w s))).
Proof.
  intros Hr Hb Hfresh Htr.
  assert (Hne : r <> brk s) by (intros Heq; rewrite <- Heq in Hfresh; congruence).
  unfold handle_truncate. rewrite Hr. simpl. rewrite Hb, Htr.
  split; intros Hst.
  - destruct (0 <? st) eqn:Hpos; [|lia].
    eexists. split; [reflexivity|]. simpl.
    rewrite lookup_insert_eq.
    rewrite lookup_insert_ne by done. rewrite lookup_insert_eq.
    unfold set_suspended, set_status. simpl. rewrite Hb. done.
  - destruct (0 <? st) eqn:Hpos; [lia|].
    unfold set_status. by rewrite Hb.
Qed.
End DispatchFacts.

(** ** The dispatcher on concrete requests *)

(** C1, counterexample: a failed allocation of a chunk with no positive
    version gets status -EALLOCFAILED and the increment is bumped, but no
    CHUNK_VERS_CHANGE goes to the servers 10, 11 and 12 of the request: the
    only call is the removal of the chunk's server mapping. *)
Lemma failed_first_allocation_sends_no_version_change :
  (Dispatch.calls <$>
     Dispatch.handle_allocate 0%nat
       (Scripted.boot script_unknown_chunk [failed_allocation 0]))
  = Some [Dispatch.RemoveChunkToServerMapping 7]
  /\ (Dispatch.chunkVersionInc <$>
        Dispatch.handle_allocate 0%nat
          (Scripted.boot script_unknown_chunk [failed_allocation 0]))
     = Some 2.
Proof. split; vm_compute; reflexivity. Qed.

Lemma failed_allocation_bumps_incarnation_witness :
  exists s',
    Dispatch.handle_allocate 0%nat
      (Scripted.boot Scripted.script [failed_allocation 1]) = Some s' /\
    Dispatch.chunkVersionInc s' = 2 /\
    Dispatch.calls s'
    = [Dispatch.NotifyChunkVersChange 10%nat 4 7 1;
       Dispatch.NotifyChunkVersChange 11%nat 4 7 1;
       Dispatch.NotifyChunkVersChange 12%nat 4 7 1].
Proof.
  assert (Hst : status (failed_allocation 1) <> 0) by (vm_compute; discriminate).
  assert (Hr : Dispatch.heap
                 (Scripted.boot Scripted.script [failed_allocation 1])
               !! 0%nat = Some (failed_allocation 1))
    by (vm_compute; reflexivity).
  assert (Hfresh : Dispatch.heap
                     (Scripted.boot Scripted.script [failed_allocation 1])
                   !! Dispatch.brk
                        (Scripted.boot Scripted.script [failed_allocation 1])
                   = None)
    by (vm_compute; reflexivity).
  destruct (failed_allocation_bumps_incarnation
              (Scripted.boot Scripted.script [failed_allocation 1]) 0%nat
              (failed_allocation 1) _ Hr eq_refl eq_refl Hst Hfresh)
    as (s' & Hrun & _ & Hinc & _ & _ & Hcalls).
  exists s'. split; [exact Hrun|]. split; [exact Hinc|exact Hcalls].
Defined.

(** C2, counterexample: a READDIR request is retired unsuspended and
    passed to the log, yet no counter is incremented: [RegisterCounters]
    registers none for READDIR, and the eighteen it registers stay at 0. *)
Lemma readdir_is_logged_but_not_counted :
  ((fun s' => suspended <$> Dispatch.heap s' !! 0%nat) <$>
     Dispatch.process_request serving_readdir) = Some (Some false)
  /\ (Dispatch.pending <$> Dispatch.process_request serving_readdir)
     = Some [0%nat]
  /\ (counter_values <$> Dispatch.process_request serving_readdir)
     = Some (replicate 18 0)
  /\ ((fun s' => Dispatch.gCounters s' !! META_READDIR) <$>
        Dispatch.process_request serving_readdir) = Some None.
Proof. repeat apply conj; vm_compute; reflexivity. Qed.

Lemma process_request_counts_and_logs_witness :
  exists s',
    Dispatch.process_request serving_lookup = Some s' /\
    Dispatch.pending s' = [0%nat].
Proof.
  assert (Hq : Dispatch.requestList serving_lookup = [0%nat])
    by (vm_compute; reflexivity).
  assert (Hr : Dispatch.heap serving_lookup !! 0%nat
               = Some (new_request 1 (Lookup 2 "a" None)))
    by (vm_compute; reflexivity).
  assert (Hfresh : Dispatch.heap serving_lookup
                   !! Dispatch.brk serving_lookup = None)
    by (vm_compute; reflexivity).
  assert (Hp : Dispatch.pending serving_lookup = [])
    by (vm_compute; reflexivity).
  assert (Hs : (Dispatch.run_handler 0%nat
                  (Dispatch.set_requestList [] serving_lookup)
                ≫= fun s1 => suspended <$> Dispatch.heap s1 !! 0%nat)
               = Some false)
    by (vm_compute; reflexivity).
  destruct (process_request_counts_and_logs
              serving_lookup 0%nat [] (new_request 1 (Lookup 2 "a" None))
              Hq Hr Hfresh)
    as (s1 & s' & req' & Hrun & _ & _ & Hproc & _ & Hreq' & Hcount).
  exists s'. split; [exact Hproc|].
  rewrite Hrun in Hs.
  assert (Hs' : suspended <$> Some req' = Some false)
    by (rewrite <- Hreq'; exact Hs).
  injection Hs' as Hs'. rewrite Hs' in Hcount.
  destruct Hcount as [-> _]. by rewrite Hp.
Defined.

Example lookup_is_counted :
  ((fun s' => Dispatch.cvalue <$> Dispatch.gCounters s' !! META_LOOKUP) <$>
     Dispatch.process_request serving_lookup) = Some (Some 1).
Proof. vm_compute. reflexivity. Qed.


Lemma truncate_allocates_on_extension_witness :
  exists s1,
    Dispatch.handle_truncate 0%nat
      (Scripted.boot script_extend [new_request 5 (Truncate 4 67108874)])
    = Dispatch.handle_allocate 1%nat s1 /\
    Dispatch.heap s1 !! 1%nat
    = Some (new_request 5
              (Allocate {| fid := 4; offset := 67108864; chunkId := 0;
                           chunkVersion := 0; numReplicas := 0;
                           layoutDone := false; servers := [];
                           master := None; req := Some 0%nat |})) /\
    (suspended <$> Dispatch.heap s1 !! 0%nat) = Some true.
Proof.
  assert (Hr : Dispatch.heap
                 (Scripted.boot script_extend
                    [new_request 5 (Truncate 4 67108874)])
               !! 0%nat = Some (new_request 5 (Truncate 4 67108874)))
    by (vm_compute; reflexivity).
  assert (Hfresh : Dispatch.heap
                     (Scripted.boot script_extend
                        [new_request 5 (Truncate 4 67108874)])
                   !! Dispatch.brk
                        (Scripted.boot script_extend
                           [new_request 5 (Truncate 4 67108874)])
                   = None)
    by (vm_compute; reflexivity).
  assert (Ht : Dispatch.truncate
                 (Dispatch.world
                    (Scripted.boot script_extend
                       [new_request 5 (Truncate 4 67108874)]))
                 4 67108874 0
               = (1, 67108864, script_extend))
    by (vm_compute; reflexivity).
  destruct (truncate_allocates_on_extension
              (Scripted.boot script_extend
                 [new_request 5 (Truncate 4 67108874)])
              0%nat (new_request 5 (Truncate 4 67108874)) 4 67108874
              1 67108864 script_extend Hr eq_refl Hfresh Ht)
    as [Hpos _].
  destruct (Hpos ltac:(reflexivity)) as (s1 & Hrun & Hr1 & Halloc & _).
  exists s1. split; [exact Hrun|]. split; [exact Halloc|].
  change (Dispatch.heap s1 !! 0%nat) with (Dispatch.heap s1 !! (0%nat : ReqPtr)).
  rewrite Hr1. reflexivity.
Defined.

(** ** The log and the checkpointer on concrete inputs *)

Example log_create :
  Log.log (fun f => (f, 0)) (new_request 1 (Create 2 "a" 3 5)) blank
  = ({| Stream.written := "create/dir/2/name/a/id/5/numReplicas/3" +:+ Stream.nl;
        Stream.failbit := false; Stream.room := None |}, 0).
Proof. vm_compute. reflexivity. Qed.

Example log_rename_on_failed_stream :
  Log.log (fun f => (f, 0)) (new_request 1 (Rename 2 "d" "/e" false)) failed
  = (failed, - EIO).
Proof. vm_compute. reflexivity. Qed.

Example log_lookup :
  Log.log (fun f => (f, 0)) (new_request 1 (Lookup 2 "a" None)) failed
  = (failed, 0).
Proof. reflexivity. Qed.

Example do_CP_leaves_then_zombies :
  ((fun out => (Cp.events out.1, Cp.zombie out.1, Cp.running out.1,
                Cp.cpcount out.1, out.2)) <$>
     Cp.do_CP (inputs blank) [(1%nat, leaf_a); (1%nat, leaf_b)] started)
  = Some ([Cp.Emitted leaf_a; Cp.Cleared leaf_b;
           Cp.Emitted zombie_c; Cp.Deleted zombie_c], [], false, 1, 0).
Proof. vm_compute. reflexivity. Qed.

Example do_CP_when_the_file_does_not_open :
  ((fun out => (Cp.events out.1, Cp.zombie out.1, Cp.running out.1,
                Cp.cpcount out.1, out.2)) <$>
     Cp.do_CP (inputs failed) [(1%nat, leaf_a); (1%nat, leaf_b)] started)
  = Some ([], [zombie_c], false, 1, - EIO).
Proof. vm_compute. reflexivity. Qed.

Example do_CP_waits_until_started :
  Cp.do_CP (inputs blank) [(1%nat, leaf_a)]
           (Cp.set_flags false 3 false false 0%nat started) = None.
Proof. reflexivity. Qed.

Example deferred_start_happens_on_unlock :
  let c := Cp.set_flags false 3 false false 0%nat started in
  let blocked := Cp.start_CP (Cp.lock_running c).1 in
  (Cp.running blocked, Cp.startblocked blocked,
   Cp.running (Cp.unlock_running blocked),
   Cp.mutations (Cp.unlock_running blocked))
  = (false, true, true, 0).
Proof. reflexivity. Qed.

(** * Further properties of the checkpointer *)

Section CpMore.
Context {Meta : Type} `{Cp.MetaLib Meta}.
Import Stream Cp.

Lemma write_zombies_loop_keeps (q : list Meta) (st : Z)
      (c : Checkpoint Meta) :
  activeNode (write_zombies_loop q st c).1 = activeNode c /\
  cpname (write_zombies_loop q st c).1 = cpname c.
Proof.
  revert st c. induction q as [|m q IH]; intros st c; simpl; [done|].
  pose proof (emit_keeps m (set_zombie q c)) as (Ha & Hn & _ & _).
  destruct (emit m (set_zombie q c)) as [c1 s]. simpl in *.
  destruct (IH (if st =? 0 then s else st) (note (Deleted m) c1))
    as [-> ->].
  simpl. by rewrite Ha, Hn.
Qed.

Lemma write_leaves_loop_cpname (li : list (Node * Meta)) (st : Z)
      (c : Checkpoint Meta) :
  cpname (write_leaves_loop li st c).1 = cpname c.
Proof.
  revert st c. induction li as [|[p m] li IH]; intros st c; simpl; [done|].
  destruct (st =? 0); [|done].
  destruct (skip m).
  - rewrite IH. by case_decide.
  - pose proof (emit_keeps m c) as (_ & Hn & _ & _).
    destruct (emit m c) as [c1 s]. simpl in *.
    rewrite IH. by case_decide.
Qed.

Lemma write_leaves_releases (li : list (Node * Meta)) (c : Checkpoint Meta) :
  activeNode (write_leaves li c).1 = None /\
  cpname (write_leaves li c).1 = cpname c.
Proof.
  unfold write_leaves.
  pose proof (write_leaves_loop_cpname li 0 (save_active (parent li) c)) as Hn.
  destruct (write_leaves_loop li 0 (save_active (parent li) c)) as [c1 s].
  simpl in *. by rewrite Hn.
Qed.

(** X1. A checkpoint that was started always ends: when [running] is set,
    [do_CP] returns, and whatever its status it turns [running] off, counts
    the checkpoint, names it after the last log sequence number and leaves
    the other flags alone.  If the file could be opened (or no node was
    active before), no node is active afterwards, so a mutator that waits
    for a node is not left sleeping. *)
Theorem do_CP_ends_whatever_the_status
        (i : CpInputs) (leaves : list (Node * Meta)) (c : Checkpoint Meta) :
  running c = true ->
  exists c' st,
    do_CP i leaves c = Some (c', st) /\
    running c' = false /\ cpcount c' = cpcount c + 1 /\
    mutations c' = mutations c /\ nostart c' = nostart c /\
    startblocked c' = startblocked c /\ cpname c' = cpfile i /\
    (fail (opened i) = false \/ activeNode c = None ->
     activeNode c' = None /\
     forall n, wait_if_active (Some n) c' = Some c').
Proof.
  intros Hrun.
  destruct (do_CP i leaves c) as [[c' st]|] eqn:Hdo.
  2:{ exfalso. revert Hdo. unfold do_CP. rewrite Hrun.
      cbn [negb]. cbv iota.
      match goal with
      | |- (let (_, _) := ?x in _) = None -> _ => destruct x; discriminate
      end. }
  exists c', st. split; [done|].
  pose proof (do_CP_frame _ _ _ _ _ Hdo) as (_ & Hr & Hm & Hn & Hb & Hc & _).
  repeat (split; [done|]).
  assert (Hwait : activeNode c' = None ->
                  activeNode c' = None /\
                  forall n, wait_if_active (Some n) c' = Some c').
  { intros Ha. split; [done|]. intros n. unfold wait_if_active.
    rewrite Ha. by rewrite decide_False. }
  clear Hr Hm Hn Hb Hc. revert Hdo Hwait.
  unfold do_CP. rewrite Hrun. simpl.
  destruct (fail (opened i)) eqn:Hopen; simpl.
  - intros [= <- <-] Hwait. simpl. split; [done|].
    intros [?|Ha]; [done|]. by apply Hwait.
  - match goal with
    | |- context [write_leaves leaves ?x] =>
        pose proof (write_leaves_releases leaves x) as [Ha Hname];
        destruct (write_leaves leaves x) as [c1 s1]
    end.
    simpl in Ha, Hname. destruct (s1 =? 0).
    + pose proof (write_zombies_loop_keeps (zombie c1) 0 c1) as [Ha2 Hn2].
      unfold write_zombies.
      destruct (write_zombies_loop (zombie c1) 0 c1) as [c2 s2].
      simpl in Ha2, Hn2.
      intros [= <- <-] Hwait. simpl.
      split; [congruence|]. intros _. apply Hwait. simpl. congruence.
    + intros [= <- <-] Hwait. simpl.
      split; [congruence|]. intros _. by apply Hwait.
Qed.

Lemma write_zombies_loop_status (q : list Meta) (st : Z)
      (c : Checkpoint Meta) :
  (write_zombies_loop q st c).2
  = if st =? 0 then first_error (statuses q (file c)) else st.
Proof.
  revert st c. induction q as [|m q IH]; intros st c; simpl.
  - destruct (st =? 0) eqn:Hst; [lia|done].
  - pose proof (emit_keeps m (set_zombie q c)) as (_ & _ & Hf & Hs).
    destruct (emit m (set_zombie q c)) as [c1 s]. simpl in *.
    rewrite IH. simpl. rewrite Hf, Hs.
    destruct (st =? 0) eqn:Hst; [|by rewrite Hst].
    destruct ((checkpoint m (file c)).2 =? 0) eqn:Hs0; done.
Qed.

(** X2. [write_zombies] goes on after a failure: it writes every queued
    zombie to the file and deletes it, in queue order, whether or not an
    earlier one failed; it returns the status of the first zombie that
    could not be written (0 when all were written), and the queue is empty
    afterwards in either case. *)
Theorem write_zombies_reports_first_failure (c : Checkpoint Meta) :
  (write_zombies c).2 = first_error (statuses (zombie c) (file c)) /\
  zombie (write_zombies c).1 = [] /\
  events (write_zombies c).1 = events c ++ zombie_events (zombie c) /\
  file (write_zombies c).1 = emitted (zombie c) (file c).
Proof.
  split; [apply write_zombies_loop_status|].
  split; [|split; [|apply write_zombies_loop_file]];
    destruct (write_zombies c) as [c' st] eqn:Hz;
    apply write_zombies_loop_frame in Hz as (_ & Hq & Hev); done.
Qed.

(** X3. A start asked for between [lock_running] and [unlock_running] is
    not lost: once the section ends the checkpointer is in the state that a
    start asked for outside the section gives; and a section in which
    nothing was asked for changes nothing. *)
Theorem start_inside_lock_is_start_after_unlock (c : Checkpoint Meta) :
  nostart c = false -> startblocked c = false ->
  unlock_running (start_CP (lock_running c).1) = start_CP c /\
  unlock_running (lock_running c).1 = c.
Proof.
  destruct c as [r m n b k a z f nm w e]. simpl. intros -> ->.
  unfold unlock_running, start_CP, lock_running. simpl.
  destruct r; simpl; [done|].
  destruct (m =? 0) eqn:Hm; simpl; [done|].
  by rewrite Hm.
Qed.

(** X5. What a pass over the leaves writes: the leaves whose skip flag is
    not set, in visiting order and nothing else.  Its status is that of the
    first leaf that could not be written; when it is 0 the file holds all of
    them. *)
Theorem write_leaves_writes_the_unskipped_leaves
        (li : list (Node * Meta)) (c : Checkpoint Meta) :
  (write_leaves li c).2
  = first_error (statuses (unskipped li) (file c)) /\
  ((write_leaves li c).2 = 0 ->
   file (write_leaves li c).1 = emitted (unskipped li) (file c)).
Proof.
  unfold write_leaves.
  destruct (write_leaves_loop_file li (save_active (parent li) c)) as [H1 H2].
  rewrite save_active_file in H1, H2.
  destruct (write_leaves_loop li 0 (save_active (parent li) c)) as [c1 s1].
  done.
Qed.

Section AppendOnly.
Hypothesis Happend : appends_only.

Lemma emit_extends (m : Meta) (c : Checkpoint Meta) :
  exists t, written (file (emit m c).1) = written (file c) +:+ t.
Proof.
  pose proof (emit_keeps m c) as (_ & _ & -> & _). apply Happend.
Qed.

Lemma write_zombies_loop_extends (q : list Meta) (st : Z)
      (c : Checkpoint Meta) :
  exists t, written (file (write_zombies_loop q st c).1)
            = written (file c) +:+ t.
Proof.
  revert st c. induction q as [|m q IH]; intros st c; simpl.
  - exists "". by rewrite append_nil_r.
  - destruct (emit_extends m (set_zombie q c)) as [t Ht].
    destruct (emit m (set_zombie q c)) as [c1 s]. simpl in *.
    destruct (IH (if st =? 0 then s else st) (note (Deleted m) c1))
      as [t' ->].
    simpl. rewrite Ht, append_assoc. by eexists.
Qed.

Lemma write_leaves_loop_extends (li : list (Node * Meta)) (st : Z)
      (c : Checkpoint Meta) :
  exists t, written (file (write_leaves_loop li st c).1)
            = written (file c) +:+ t.
Proof.
  revert st c. induction li as [|[p m] li IH]; intros st c; simpl.
  - exists "". by rewrite append_nil_r.
  - destruct (st =? 0); [|exists ""; by rewrite append_nil_r].
    destruct (skip m).
    + match goal with
      | |- context [write_leaves_loop li st ?x] =>
          destruct (IH st x) as [t ->]
      end.
      exists t. by case_decide.
    + destruct (emit_extends m c) as [t Ht].
      destruct (emit m c) as [c1 s]. simpl in *.
      match goal with
      | |- context [write_leaves_loop li s ?x] =>
          destruct (IH s x) as [t' ->];
          assert (file x = file c1) as -> by (by case_decide)
      end.
      rewrite Ht, append_assoc. by eexists.
Qed.

(** X4. When the entities only add to the stream they are given and the
    checkpoint file opens on a device without a limit, the file starts with
    the header: the lines checkpoint, version, fid, chunkId,
    chunkVersionInc, time and log in this order, then a blank line; what the
    leaves and the zombies write comes after it. *)
Theorem checkpoint_file_starts_with_header
        (i : CpInputs) (leaves : list (Node * Meta))
        (c c' : Checkpoint Meta) (st : Z) :
  fail (opened i) = false -> room (opened i) = None ->
  do_CP i leaves c = Some (c', st) ->
  exists t, written (file c')
            = written (opened i) +:+ header i +:+ t.
Proof.
  intros Hopen Hroom. unfold do_CP.
  destruct (running c); [|discriminate]. cbn -[puts].
  unfold fail in Hopen. unfold fail. rewrite Hopen. cbn -[puts].
  match goal with
  | |- context [puts ?l (opened i)] =>
      destruct (puts_unlimited l (opened i) Hopen Hroom) as (Hw & _ & _);
      assert (Hhead : written (puts l (opened i))
                      = written (opened i) +:+ header i)
        by (rewrite Hw; f_equal; unfold chain, header;
            cbn [foldr]; rewrite ?append_assoc; reflexivity);
      clear Hw; generalize dependent (puts l (opened i))
  end.
  intros f0 Hhead.
  match goal with
  | |- context [write_leaves leaves ?x] =>
      assert (exists t, written (file (write_leaves leaves x).1)
                        = written f0 +:+ t) as [t1 Ht1];
      [|destruct (write_leaves leaves x) as [c1 s1]]
  end.
  { unfold write_leaves.
    match goal with
    | |- context [write_leaves_loop leaves 0 ?y] =>
        destruct (write_leaves_loop_extends leaves 0 y) as [t Ht];
        destruct (write_leaves_loop leaves 0 y) as [c1 s1]
    end.
    simpl in Ht |- *. by exists t. }
  simpl in Ht1. destruct (s1 =? 0).
  - destruct (write_zombies_loop_extends (zombie c1) 0 c1) as [t2 Ht2].
    unfold write_zombies.
    destruct (write_zombies_loop (zombie c1) 0 c1) as [c2 s2].
    simpl in Ht2. intros [= <- <-]. simpl.
    exists (t1 +:+ t2).
    by rewrite Ht2, Ht1, Hhead, !append_assoc.
  - intros [= <- <-]. simpl.
    exists t1. by rewrite Ht1, Hhead, !append_assoc.
Qed.
End AppendOnly.
End CpMore.

(** The sample leaves write one record each and nothing else. *)
Lemma leaves_append_only : Cp.appends_only (Meta := Scripted.Leaf).
Proof. intros m f. apply puts_extends. Qed.

Lemma do_CP_ends_whatever_the_status_witness :
  exists c' st,
    Cp.do_CP (inputs blank) [(1%nat, leaf_a); (1%nat, leaf_b)] started
    = Some (c', st) /\
    Cp.running c' = false /\ Cp.cpcount c' = 1 /\
    Cp.cpname c' = "./kfscp/chkpt.41" /\
    Cp.wait_if_active (Some 1%nat) c' = Some c'.
Proof.
  destruct (do_CP_ends_whatever_the_status
              (inputs blank) [(1%nat, leaf_a); (1%nat, leaf_b)] started
              eq_refl)
    as (c' & st & Hdo & Hr & Hc & _ & _ & _ & Hn & Ha).
  exists c', st. split; [exact Hdo|].
  destruct Ha as [_ Hw]; [by left|].
  repeat split; [exact Hr | exact Hc | exact Hn | apply Hw].
Defined.

Lemma start_inside_lock_is_start_after_unlock_witness :
  let c := Cp.set_flags false 3 false false 0%nat started in
  Cp.unlock_running (Cp.start_CP (Cp.lock_running c).1) = Cp.start_CP c /\
  Cp.unlock_running (Cp.lock_running c).1 = c.
Proof.
  exact (start_inside_lock_is_start_after_unlock
           (Cp.set_flags false 3 false false 0%nat started) eq_refl eq_refl).
Defined.

Lemma checkpoint_file_starts_with_header_witness :
  exists c' st t,
    Cp.do_CP (inputs blank) [(1%nat, leaf_a); (1%nat, leaf_b)] started
    = Some (c', st) /\
    Stream.written (Cp.file c') = "" +:+ Cp.header (inputs blank) +:+ t.
Proof.
  destruct (Cp.do_CP (inputs blank) [(1%nat, leaf_a); (1%nat, leaf_b)] started)
    as [[c' st]|] eqn:Hdo; [|by vm_compute in Hdo].
  destruct (checkpoint_file_starts_with_header leaves_append_only
              (inputs blank) _ _ _ _ eq_refl eq_refl Hdo) as [t Ht].
  exists c', st, t. split; [done|exact Ht].
Defined.

(** * Further properties of the log methods *)

Section LogMore.
Import Stream Log.
Variable finishLog : ofstream -> ofstream * Z.

(** X6. Logging a mutation only adds to the log file.  Once the stream has
    failed nothing more is written and the mutation is reported as failed
    with -EIO; on a device without a limit a stream that has not failed
    takes the whole record and the status is 0. *)
Theorem log_after_a_failure (r : MetaRequest) (f : ofstream) (o : string) :
  opcode (op r) = Some o ->
  (exists t, written (log finishLog r f).1 = written f +:+ t) /\
  (failbit f = true -> log finishLog r f = (f, - EIO)) /\
  (failbit f = false -> room f = None ->
   (log finishLog r f).2 = 0 /\
   written (log finishLog r f).1
   = written f +:+ o +:+ "/" +:+ slash_join (record_fields (body r)) +:+ nl).
Proof.
  unfold op, log. destruct (body r) eqn:Hb; cbn -[puts]; try discriminate;
    intros [= <-]; unfold write_record; cbn [fst snd].
  all: split; [apply puts_extends|]; split.
  all: try (intros Hf; rewrite (puts_failed _ _ Hf); unfold fail;
            by rewrite Hf).
  all: intros Hf Hr;
    match goal with
    | |- context [puts ?l ?g] =>
        destruct (puts_unlimited l g Hf Hr) as (-> & Hfail & _)
    end;
    unfold fail; rewrite Hfail; split; [done|]; f_equal;
    unfold chain, nl; cbn [foldr slash_join];
    rewrite ?append_assoc;
    repeat (rewrite append_cons || rewrite append_nil_l);
    rewrite ?append_nil_r; reflexivity.
Qed.
End LogMore.

Lemma log_after_a_failure_witness :
  (Log.log (fun f => (f, 0)) (new_request 1 (Truncate 5 64)) blank).2 = 0 /\
  Stream.written
    (Log.log (fun f => (f, 0)) (new_request 1 (Truncate 5 64)) blank).1
  = "truncate/file/5/offset/64" +:+ Stream.nl.
Proof.
  destruct (log_after_a_failure (fun f => (f, 0))
              (new_request 1 (Truncate 5 64)) blank "truncate" eq_refl)
    as (_ & _ & Hok).
  destruct (Hok eq_refl eq_refl) as [-> ->]. split; reflexivity.
Defined.

Section RecordFacts.
Import Stream Log.
Variable finishLog : ofstream -> ofstream * Z.

Lemma occurs_pretty_N_go (c : ascii) (x : N) (s : string) :
  (forall d, pretty_N_char d <> c) ->
  occurs c (pretty_N_go x s) = occurs c s.
Proof.
  intros Hc. revert s. induction (N.lt_wf_0 x) as [x _ IH]; intros s.
  destruct (decide (x = 0)%N) as [->|Hx].
  - by rewrite pretty_N_go_0.
  - rewrite pretty_N_go_step by lia.
    rewrite IH by (apply N.div_lt; lia).
    simpl. by rewrite bool_decide_eq_false_2.
Qed.

Lemma occurs_pretty_Z (c : ascii) (z : Z) :
  c = "/"%char \/ c = "010"%char -> occurs c (pretty z) = false.
Proof.
  intros Hc.
  assert (Hd : forall d, pretty_N_char d <> c).
  { intros d. unfold pretty_N_char.
    destruct Hc as [-> | ->]; by repeat case_match. }
  assert (HN : forall x : N, occurs c (pretty x) = false).
  { intros x. unfold pretty, pretty_N. case_decide.
    - simpl. destruct Hc as [-> | ->]; reflexivity.
    - by rewrite occurs_pretty_N_go. }
  destruct z as [|p|p].
  - destruct Hc as [-> | ->]; reflexivity.
  - change (pretty (Z.pos p)) with (pretty (N.pos p)). apply HN.
  - change (pretty (Z.neg p)) with ("-" +:+ pretty (N.pos p)).
    rewrite append_cons, append_nil_l. simpl. rewrite HN.
    destruct Hc as [-> | ->]; reflexivity.
Qed.

(** Two texts that agree, each cut at the first [c]. *)
Lemma split_at (c : ascii) (a a' b b' : string) :
  occurs c a = false -> occurs c a' = false ->
  a +:+ String c b = a' +:+ String c b' -> a = a' /\ b = b'.
Proof.
  revert a'. induction a as [|x a IH]; intros [|x' a']; simpl;
    rewrite ?append_cons, ?append_nil_l.
  - intros _ _ [= ->]. done.
  - intros _ [Hx _]%orb_false_elim [= <- _].
    by rewrite bool_decide_eq_true_2 in Hx.
  - intros [Hx _]%orb_false_elim _ [= -> _].
    by rewrite bool_decide_eq_true_2 in Hx.
  - intros [_ Ha]%orb_false_elim [_ Ha']%orb_false_elim [= -> Heq].
    destruct (IH a' Ha Ha' Heq) as [-> ->]. done.
Qed.

Lemma append_inv_l (p a b : string) : p +:+ a = p +:+ b -> a = b.
Proof.
  induction p as [|x p IH]; [done|].
  rewrite !append_cons. intros [= Heq]. by apply IH.
Qed.

Lemma number_field (c : ascii) (z z' : Z) (b b' : string) :
  c = "/"%char \/ c = "010"%char ->
  pretty z +:+ String c b = pretty z' +:+ String c b' -> z = z' /\ b = b'.
Proof.
  intros Hc Heq.
  apply split_at in Heq as [Hz ->]; try by apply occurs_pretty_Z.
  split; [|done]. by apply (inj pretty).
Qed.

(** X7. The records that hold numbers only (allocate, truncate,
    chunkVersionInc) can be read back: on a stream that takes them, two
    requests that log the same text are of the same kind and carry the same
    numbers. *)
Theorem numeric_records_are_unambiguous
        (r r' : MetaRequest) (f : ofstream) (ns ns' : MetaOp * list Z) :
  failbit f = false -> room f = None ->
  logged_numbers (body r) = Some ns ->
  logged_numbers (body r') = Some ns' ->
  written (log finishLog r f).1 = written (log finishLog r' f).1 ->
  ns = ns'.
Proof.
  intros Hf Hr. unfold log.
  destruct (body r); try discriminate; intros [= <-];
    destruct (body r'); try discriminate; intros [= <-];
    unfold write_record; cbn [fst snd];
    repeat match goal with
      | |- context [puts ?l ?g] =>
          destruct (puts_unlimited l g Hf Hr) as (-> & _ & _)
      end;
    intros Heq%append_inv_l; revert Heq;
    unfold chain, nl; cbn [foldr];
    repeat (rewrite append_cons || rewrite append_nil_l);
    try discriminate; intros Heq; simplify_eq.
  all: repeat match goal with
         | H : pretty _ +:+ String _ _ = pretty _ +:+ String _ _ |- _ =>
             apply number_field in H as [-> H]; [|by auto]; simplify_eq
         end.
  all: reflexivity.
Qed.
End RecordFacts.

(** * Further properties of the wire codec *)

Section WireMore.
Context `{Wire.PropertiesLib}.
Import Wire.

Lemma skip_space_blank (ws s : string) :
  is_blank ws = true -> skip_space (ws +:+ s) = skip_space s.
Proof.
  induction ws as [|c ws IH]; [done|].
  rewrite append_cons. simpl. intros [-> Hws]%andb_prop. by apply IH.
Qed.

Lemma skip_space_word (w s : string) :
  is_word w = true -> skip_space (w +:+ s) = w +:+ s.
Proof.
  destruct w as [|c w]; [done|].
  rewrite append_cons. simpl. intros [Hc _]%andb_prop.
  by destruct (Ascii.is_space c).
Qed.

Lemma read_word_word (w s : string) :
  no_space w = true -> after_word s = true -> read_word (w +:+ s) = (w, s).
Proof.
  intros Hw Hs. induction w as [|c w IH].
  - rewrite append_nil_l. destruct s as [|c s]; [done|].
    simpl in *. by rewrite Hs.
  - rewrite append_cons. simpl in *.
    apply andb_prop in Hw as [Hc Hw].
    destruct (Ascii.is_space c); [done|]. by rewrite IH.
Qed.

Lemma erase_from_delim_word (w : string) :
  no_space w = true -> erase_from_delim w = w.
Proof.
  induction w as [|c w IH]; [done|].
  simpl. intros [Hc Hw]%andb_prop.
  rewrite bool_decide_eq_false_2.
  - by rewrite IH.
  - intros [-> | [-> | ->]]; discriminate Hc.
Qed.

Lemma c_str_app (a b : string) :
  no_nul a = true -> c_str (a +:+ b) = a +:+ c_str b.
Proof.
  induction a as [|c a IH]; [done|].
  rewrite !append_cons. simpl. intros [Hc Ha]%andb_prop.
  destruct (bool_decide (c = "000"%char)); [done|]. by rewrite IH.
Qed.

Lemma c_str_cut (a b : string) :
  c_str (a +:+ String "000" b) = c_str a.
Proof.
  induction a as [|c a IH]; [done|].
  rewrite append_cons. simpl.
  destruct (bool_decide (c = "000"%char)); [done|]. by rewrite IH.
Qed.

Lemma is_blank_no_nul (ws : string) : is_blank ws = true -> no_nul ws = true.
Proof.
  induction ws as [|c ws IH]; [done|].
  simpl. intros [Hc Hws]%andb_prop. rewrite IH by done.
  rewrite bool_decide_eq_false_2; [done|]. intros ->. discriminate Hc.
Qed.

Lemma c_str_after_word (rest : string) :
  ends_word rest = true -> after_word (c_str rest) = true.
Proof.
  destruct rest as [|c rest]; [done|]. simpl.
  destruct (bool_decide (c = "000"%char)); [done|].
  by rewrite orb_false_r.
Qed.

(** X8. The command of a request is the first word of the text that the
    buffer holds as a C string: white space before it is skipped, the word
    ends at the first white space or at the NUL that ends the text, and the
    header lines are read from what follows the word, up to the first NUL.
    A word that is not the name of a command fails the parse.  What comes
    after the first NUL of the buffer is not read. *)
Theorem ParseCommand_reads_first_word (ws cmd rest : string) :
  is_blank ws = true -> is_word cmd = true -> no_nul cmd = true ->
  ends_word rest = true ->
  ParseCommand (ws +:+ cmd +:+ rest)
  = match gParseHandlers cmd with
    | Some handler => handler (loadProperties (c_str rest))
    | None => parse_fail
    end /\
  forall junk,
    ParseCommand ((ws +:+ cmd +:+ rest) +:+ String "000" junk)
    = ParseCommand (ws +:+ cmd +:+ rest).
Proof.
  intros Hws Hcmd Hnul Hrest. split.
  - unfold ParseCommand.
    rewrite c_str_app by (by apply is_blank_no_nul).
    rewrite c_str_app by done.
    rewrite skip_space_blank by done.
    rewrite skip_space_word by done.
    assert (Hns : no_space cmd = true) by (by destruct cmd).
    rewrite read_word_word by (by try apply c_str_after_word).
    by rewrite erase_from_delim_word.
  - intros junk. unfold ParseCommand. by rewrite c_str_cut.
Qed.

(** X9. The parse handlers are wired to their commands: the handler of a
    command either fails, or makes a request of the class of that command
    with status 0 that is not suspended and carries the Cseq header as its
    sequence number (-1 when there is none). *)
Theorem parse_handlers_make_fresh_requests
        (cmd : string) (handler : gmap string string -> ParseResult)
        (prop : gmap string string) :
  gParseHandlers cmd = Some handler ->
  handler prop = parse_fail \/
  exists r, handler prop = parse_ok r /\
            command_op cmd = Some (op r) /\
            opSeqno r = getValue_ll prop "Cseq" (-1) /\
            status r = 0 /\ suspended r = false.
Proof.
  intros Hh. unfold gParseHandlers in Hh. unfold command_op.
  repeat match type of Hh with
         | (if decide (cmd = ?c) then _ else _) = _ =>
             destruct (decide (cmd = c)) as [->|?]; [injection Hh as <-|]
         end;
    try discriminate.
  all: unfold parseHandlerLookup, parseHandlerLookupPath, parseHandlerCreate,
         parseHandlerMkdir, parseHandlerRemove, parseHandlerRmdir,
         parseHandlerReaddir, parseHandlerGetalloc, parseHandlerGetlayout,
         parseHandlerAllocate, parseHandlerTruncate, parseHandlerRename,
         parseHandlerLeaseAcquire, parseHandlerLeaseRenew, parseHandlerPing,
         parseHandlerStats, parseHandlerHello, getValue_cstr.
  all: repeat match goal with
         | |- context [if ?b then parse_fail else _] => destruct b
         | |- context [match ?m !! ?k with _ => _ end] => destruct (m !! k)
         end;
       try (by left);
       right; eexists; (split; [reflexivity|]); by vm_compute.
Qed.
End WireMore.

Lemma numeric_records_are_unambiguous_witness :
  Log.logged_numbers (body (new_request 1 (Truncate 5 64)))
  = Some (META_TRUNCATE, [5; 64]) /\
  (META_TRUNCATE, [5; 64]) = (META_TRUNCATE, [5; 64]).
Proof.
  split; [reflexivity|].
  exact (numeric_records_are_unambiguous (fun f => (f, 0))
           (new_request 1 (Truncate 5 64))
           (new_request 2 (Truncate 5 64)) blank
           (META_TRUNCATE, [5; 64]) (META_TRUNCATE, [5; 64])
           eq_refl eq_refl eq_refl eq_refl eq_refl).
Defined.

Lemma ParseCommand_reads_first_word_witness :
  Wire.ParseCommand
    (" " +:+ "READDIR"
     +:+ (" " +:+ Reply.crlf +:+ "Cseq: 4" +:+ Reply.crlf
          +:+ "Directory File-handle: 2" +:+ Reply.crlf +:+ Reply.crlf
          +:+ String "000" ("Directory File-handle: 7" +:+ Reply.crlf)))
  = Wire.parse_ok (new_request 4 (Readdir 2 [])).
Proof.
  destruct (ParseCommand_reads_first_word " " "READDIR"
             (" " +:+ Reply.crlf +:+ "Cseq: 4" +:+ Reply.crlf
              +:+ "Directory File-handle: 2" +:+ Reply.crlf +:+ Reply.crlf
              +:+ String "000" ("Directory File-handle: 7" +:+ Reply.crlf))
             eq_refl eq_refl eq_refl eq_refl) as [-> _].
  vm_compute. reflexivity.
Defined.

Lemma parse_handlers_make_fresh_requests_witness :
  Wire.parseHandlerCreate create_seven = Wire.parse_fail \/
  exists r, Wire.parseHandlerCreate create_seven = Wire.parse_ok r /\
            Wire.command_op "CREATE" = Some (op r) /\
            opSeqno r = Wire.getValue_ll create_seven "Cseq" (-1) /\
            status r = 0 /\ suspended r = false.
Proof.
  exact (parse_handlers_make_fresh_requests "CREATE" Wire.parseHandlerCreate
           create_seven eq_refl).
Defined.

(** * Further properties of the dispatcher *)

Section DispatchMore.
Context {W : Type} `{Dispatch.Collaborators W}.
Import Dispatch.

Lemma bounds_refl (r : ReqPtr) (s : State W) : handler_bounds r s s.
Proof. split; [lia|]. intros p Hp. by left. Qed.

Lemma bounds_trans (r : ReqPtr) (a b c : State W) :
  handler_bounds r a b -> handler_bounds r b c -> handler_bounds r a c.
Proof.
  intros [Hab Hb] [Hbc Hc]. split; [lia|]. intros p Hp.
  destruct (Hc p Hp) as [Hp'|[->|Hp']]; [|by auto|right; right; lia].
  destruct (Hb p Hp') as [?|[->|?]]; [by auto|by auto|right; right; lia].
Qed.

Lemma store_bounds (r : ReqPtr) (v : MetaRequest) (s : State W) :
  handler_bounds r s (store r v s).
Proof.
  split; [simpl; lia|]. intros p. simpl.
  rewrite lookup_insert_is_Some. intros [->|[_ Hp]]; auto.
Qed.

Lemma store_live_bounds (r q : ReqPtr) (v : MetaRequest) (s : State W) :
  is_Some (heap s !! q) -> handler_bounds r s (store q v s).
Proof.
  intros Hq. split; [simpl; lia|]. intros p. simpl.
  rewrite lookup_insert_is_Some. intros [<-|[_ Hp]]; auto.
Qed.

Lemma new_bounds (r : ReqPtr) (v : MetaRequest) (s : State W) :
  handler_bounds r s (new v s).2.
Proof.
  split; [simpl; lia|]. intros p. simpl.
  rewrite lookup_insert_is_Some.
  intros [<-|[_ Hp]]; [right; right; lia|by left].
Qed.

Lemma set_world_bounds (r : ReqPtr) (w : W) (s : State W) :
  handler_bounds r s (set_world w s).
Proof. split; [simpl; lia|]. intros p Hp. by left. Qed.

Lemma call_bounds (r : ReqPtr) (c : Call) (s : State W) :
  handler_bounds r s (call c s).
Proof. split; [simpl; lia|]. intros p Hp. by left. Qed.

Lemma notify_all_bounds (r : ReqPtr) (l : list ChunkServerPtr) (f : fid_t)
      (c : chunkId_t) (v : seq_t) (s : State W) :
  handler_bounds r s (notify_all l f c v s).
Proof.
  destruct (notify_all_calls l f c v s) as (_ & Hh & Hb & _).
  split; [lia|]. intros p. rewrite Hh. by left.
Qed.

Lemma ChangeIncarnationNumber_bounds (r q : ReqPtr) (s : State W) :
  handler_bounds r s (ChangeIncarnationNumber q s).
Proof.
  split; [simpl; lia|]. intros p. simpl.
  rewrite lookup_insert_is_Some.
  intros [<-|[_ Hp]]; [right; right; lia|by left].
Qed.

Ltac bounds_step :=
  match goal with
  | |- handler_bounds _ ?s ?s => apply bounds_refl
  | |- handler_bounds ?r ?s (store ?r _ ?t) =>
      apply (bounds_trans r s t); [|apply store_bounds]
  | |- handler_bounds ?r ?s (set_world _ ?t) =>
      apply (bounds_trans r s t); [|apply set_world_bounds]
  | |- handler_bounds ?r ?s (call _ ?t) =>
      apply (bounds_trans r s t); [|apply call_bounds]
  | |- handler_bounds ?r ?s (ChangeIncarnationNumber _ ?t) =>
      apply (bounds_trans r s t); [|apply ChangeIncarnationNumber_bounds]
  | |- handler_bounds ?r ?s (notify_all ?l ?f ?c ?v ?t) =>
      apply (bounds_trans r s t); [|apply notify_all_bounds]
  | |- handler_bounds _ ?s (if ?b then _ else _) => destruct b
  end.

Ltac bounds := repeat bounds_step.

(** What [handle_allocate] does to the queue, the increment and the
    addresses. *)
Lemma handle_allocate_effect (r : ReqPtr) (s s' : State W) :
  handle_allocate r s = Some s' ->
  handler_queue r (brk s) s s' /\ handler_bounds r s s'.
Proof.
  unfold handle_allocate.
  destruct (heap s !! r) as [req|] eqn:Hr; [|discriminate]. simpl.
  destruct (body req) eqn:Hb; try discriminate.
  destruct (layoutDone a) eqn:Hdone; simpl.
  - destruct (status req =? 0) eqn:Hst; simpl.
    + case_match. intros [= <-]. split; [by left|bounds].
    + intros [= <-]. split; [|bounds]. right.
      assert (Hreq : exists req a, heap s !! r = Some req /\ body req = Allocate a
                                   /\ layoutDone a = true /\ status req <> 0)
        by (exists req, a; repeat split; [done..|lia]).
      case_match.
      * destruct (notify_all_calls (servers a) (fid a) (chunkId a)
                    (getChunkVersion (world s) (fid a) (chunkId a)
                                     (chunkVersion a)) s)
          as (_ & Hh & Hbrk & Hq & Hi & _).
        simpl. rewrite Hbrk, Hq, Hi, lookup_insert_eq. done.
      * simpl. rewrite lookup_insert_eq. done.
  - repeat (case_match; simplify_eq/=); intros [= <-];
      (split; [by left|bounds]).
Qed.

Lemma handle_truncate_effect (r : ReqPtr) (s s' : State W) :
  handle_truncate r s = Some s' ->
  handler_queue r (brk s) s s' /\ handler_bounds r s s'.
Proof.
  unfold handle_truncate.
  destruct (heap s !! r) as [req|] eqn:Hr; [|discriminate]. simpl.
  destruct (body req) eqn:Hb; try discriminate.
  destruct (truncate (world s) f off 0) as [[st allocOffset] w].
  destruct (0 <? st); [|intros [= <-]; split; [by left|bounds]].
  cbn [new fst snd].
  match goal with
  | |- handle_allocate ?p ?s1 = _ -> _ =>
      intros Hrun;
      destruct (handle_allocate_effect p s1 s' Hrun) as [Hq Hbd];
      assert (Hs1 : handler_bounds r s s1);
      [|assert (Hlive : heap s1 !! p
                        = if decide (r = p)
                          then Some (set_suspended true (set_status st req))
                          else Some (tie r (new_MetaAllocate
                                      (opSeqno (set_status st req))
                                      f allocOffset)))]
  end.
  { split; [simpl; lia|]. intros p. simpl.
    rewrite !lookup_insert_is_Some.
    intros [<-|[_ [<-|[_ [<-|[_ [<-|[_ Hp]]]]]]]]; auto;
      right; right; simpl; lia. }
  { simpl. case_decide as Hp.
    - subst r. by rewrite lookup_insert_eq.
    - rewrite lookup_insert_ne by done. by rewrite lookup_insert_eq. }
  split.
  - left. destruct Hq as [Hq|(_ & _ & _ & req0 & a0 & Hreq0 & Hb0 & Hd0 & _)];
      [exact Hq|].
    rewrite Hlive in Hreq0. case_decide; simplify_eq/=.
    rewrite Hb in Hb0. discriminate.
  - destruct Hs1 as [Hle1 Hdom1], Hbd as [Hle2 Hdom2].
    split; [lia|]. intros p Hp.
    destruct (Hdom2 p Hp) as [Hp'|[->|Hp']].
    + destruct (Hdom1 p Hp') as [?|[?|?]]; auto. right; right; lia.
    + right; right. simpl in Hle2 |- *. lia.
    + right; right. simpl in Hp'. lia.
Qed.

Lemma handler_effect (r : ReqPtr) (s s' : State W) (req : MetaRequest)
      (h : ReqPtr -> State W -> option (State W)) :
  heap s !! r = Some req -> handler (op req) = Some h -> h r s = Some s' ->
  handler_queue r (brk s) s s' /\ handler_bounds r s s'.
Proof.
  intros Hr. unfold op.
  destruct (body req) eqn:Hb; simpl; intros [= <-];
    try apply handle_allocate_effect;
    try apply handle_truncate_effect.
  all: unfold handle_lookup, handle_lookup_path, handle_create, handle_mkdir,
         handle_remove, handle_rmdir, handle_readdir, handle_getalloc,
         handle_getlayout, handle_rename, handle_checkpoint, handle_hello,
         handle_bye, handle_lease_acquire, handle_lease_renew,
         handle_lease_cleanup, handle_chunk_replication_check,
         handle_chunk_replication_done, handle_change_chunkVersionInc,
         handle_ping, handle_stats.
  all: rewrite Hr; simpl; rewrite ?Hb.
  all: repeat (case_match; simplify_eq/=); intros [= <-];
         (split; [by left|bounds]).
Qed.

Lemma run_handler_effect (r : ReqPtr) (s s' : State W) :
  run_handler r s = Some s' ->
  handler_queue r (brk s) s s' /\ handler_bounds r s s'.
Proof.
  unfold run_handler.
  destruct (heap s !! r) as [req|] eqn:Hr; [|discriminate]. simpl.
  destruct (handler (op req)) as [h|] eqn:Hh.
  - by apply (handler_effect r s s' req h).
  - intros [= <-]. split; [by left|bounds].
Qed.

(** X10. Serving a request takes it off the head of the queue and leaves
    the rest of the queue in place.  The increment of the chunk versions
    never goes down, and it changes in one case only: the request served is
    an allocation that came back failed from the chunkservers; then it goes
    up by one and the request that records the new value in the log is made
    and queued last. *)
Theorem increment_changes_only_with_its_log_request
        (s s' : State W) (r : ReqPtr) (rest : list ReqPtr) :
  requestList s = r :: rest ->
  process_request s = Some s' ->
  (chunkVersionInc s' = chunkVersionInc s /\ requestList s' = rest) \/
  (chunkVersionInc s' = chunkVersionInc s + 1 /\
   requestList s' = rest ++ [brk s] /\
   heap s' !! brk s
   = Some (new_request 0 (ChangeChunkVersionInc (chunkVersionInc s + 1) r)) /\
   exists req a, heap s !! r = Some req /\ body req = Allocate a /\
                 layoutDone a = true /\ status req <> 0).
Proof.
  intros Hq. unfold process_request. rewrite Hq.
  destruct (run_handler r (set_requestList rest s)) as [s1|] eqn:Hrun;
    [|discriminate].
  apply run_handler_effect in Hrun as [Hqueue _]. simpl.
  destruct (heap s1 !! r) as [req'|]; [|discriminate]. simpl.
  assert (Hsame : forall o,
             chunkVersionInc (add_pending r (UpdateCounter o s1))
             = chunkVersionInc s1 /\
             requestList (add_pending r (UpdateCounter o s1))
             = requestList s1 /\
             heap (add_pending r (UpdateCounter o s1)) = heap s1).
  { intros o. unfold UpdateCounter. by destruct (gCounters s1 !! o). }
  destruct (Hsame (op req')) as (Hi & Hl & Hh).
  destruct (suspended req'); simpl; intros [= <-];
    rewrite ?Hi, ?Hl, ?Hh; exact Hqueue.
Qed.

Lemma process_request_keeps_well_formed
      (s : State W) (r : ReqPtr) (rest : list ReqPtr) :
  well_formed s -> requestList s = r :: rest ->
  exists s', process_request s = Some s' /\ well_formed s' /\
             (exists l, requestList s' = rest ++ l) /\
             (pending s' = pending s \/ pending s' = pending s ++ [r]).
Proof.
  intros [Hdom Hlive] Hq. rewrite Hq in Hlive.
  apply Forall_cons in Hlive as [[req Hr] Hrest].
  assert (Hfresh : heap s !! brk s = None).
  { destruct (heap s !! brk s) eqn:Hb; [|done].
    assert (brk s < brk s)%nat by (apply Hdom; by eexists). lia. }
  destruct (run_handler_returns r (set_requestList rest s) req Hr Hfresh)
    as (s1 & Hrun & Hp & _ & Hkeep).
  destruct (run_handler_effect _ _ _ Hrun) as [Hqueue [Hle Hbd]].
  destruct (Hkeep r) as [req' Hr']; [simpl; by rewrite Hr|].
  simpl in Hp, Hle, Hkeep, Hbd.
  assert (Hwf1 : well_formed s1 /\ exists l, requestList s1 = rest ++ l).
  { split; [split|].
    - intros p Hp1. destruct (Hbd p Hp1) as [Hp0|[->|Hp0]]; [| |lia].
      + apply Hdom in Hp0. lia.
      + assert (r < brk s)%nat by (apply Hdom; by eexists). lia.
    - destruct Hqueue as [[_ ->]|(_ & -> & Hnew & _)]; simpl.
      + eapply Forall_impl; [exact Hrest|]. intros p Hp1. by apply Hkeep.
      + apply Forall_app. split.
        * eapply Forall_impl; [exact Hrest|]. intros p Hp1. by apply Hkeep.
        * apply Forall_singleton. eexists. exact Hnew.
    - destruct Hqueue as [[_ ->]|(_ & -> & _)]; simpl.
      + exists []. by rewrite app_nil_r.
      + by eexists. }
  destruct Hwf1 as [[Hdom1 Hlive1] Hl1].
  unfold process_request. rewrite Hq, Hrun. simpl. rewrite Hr'. simpl.
  destruct (suspended req'); simpl.
  - eexists. split; [reflexivity|]. repeat split; auto.
  - eexists. split; [reflexivity|].
    unfold UpdateCounter. destruct (gCounters s1 !! op req'); simpl;
      rewrite Hp; repeat split; auto.
Qed.

(** X11. While no pointer dangles, the request thread never gets stuck on
    a queue that is not empty, and it serves the queue in order: after [n]
    turns the first [n] requests of the queue have been served, the ones
    handed to the log are among them and in queue order, the requests behind
    them are still queued in their order, and still no pointer dangles. *)
Theorem requests_are_served_in_queue_order (n : nat) (s : State W) :
  well_formed s -> (n <= length (requestList s))%nat ->
  exists s' l,
    serve n s = Some s' /\ well_formed s' /\
    pending s' = pending s ++ l /\
    l `sublist_of` take n (requestList s) /\
    drop n (requestList s) `prefix_of` requestList s'.
Proof.
  revert s. induction n as [|n IH]; intros s Hwf Hn.
  - exists s, []. simpl. rewrite app_nil_r, drop_0.
    do 3 (split; [done|]). split; [apply sublist_nil_l|done].
  - destruct (requestList s) as [|r rest] eqn:Hq; [simpl in Hn; lia|].
    destruct (process_request_keeps_well_formed s r rest Hwf Hq)
      as (s1 & Hstep & Hwf1 & [extra Hq1] & Hpend).
    simpl in Hn.
    destruct (IH s1 Hwf1) as (s' & l & Hserve & Hwf' & Hp' & Hsub & Hpre).
    { rewrite Hq1, length_app. lia. }
    rewrite Hq1 in Hsub, Hpre.
    rewrite take_app_le in Hsub by lia.
    rewrite drop_app_le in Hpre by lia.
    assert (Hpre' : drop n rest `prefix_of` requestList s').
    { etrans; [|exact Hpre]. by apply prefix_app_r. }
    simpl. rewrite Hstep. simpl.
    destruct Hpend as [Hpend|Hpend]; rewrite Hpend in Hp'.
    + exists s', l. do 3 (split; [done|]).
      split; [by apply sublist_cons|done].
    + exists s', (r :: l). rewrite <- app_assoc in Hp'.
      do 3 (split; [done|]).
      split; [by apply sublist_skip|done].
Qed.

(** X12. An allocation request whose layout is not done, for a chunk that
    the tree does not report as existing: when [allocateChunkId] fails the
    request gets that status and the layout manager is not asked; when it
    succeeds the layout manager is asked to place the chunk, and the request
    is suspended with status 0 if it could, and gets -ENOSPC without being
    suspended if it could not.  The queue and the increment are left
    alone. *)
Theorem allocate_new_chunk
        (s : State W) (r : ReqPtr) (req : MetaRequest) (a : MetaAllocate)
        (st : Z) (cid : chunkId_t) (cvers : seq_t) (nrep : Z) (w : W) :
  heap s !! r = Some req -> body req = Allocate a ->
  layoutDone a = false ->
  allocateChunkId (world s) (fid a) (offset a)
                  (0 : chunkId_t, chunkVersion a, numReplicas a)
  = (st, (cid, cvers, nrep), w) ->
  st <> - EEXIST ->
  let a1 := set_ids cid cvers nrep
              (set_ids 0 (chunkVersion a) (numReplicas a) a) in
  exists s' req',
    handle_allocate r s = Some s' /\ heap s' !! r = Some req' /\
    opSeqno req' = opSeqno req /\
    chunkVersionInc s' = chunkVersionInc s /\
    requestList s' = requestList s /\ calls s' = calls s /\
    if st =? 0 then
      world s' = (AllocateChunk w r a1).2 /\
      body req' = Allocate (AllocateChunk w r a1).1.2 /\
      if (AllocateChunk w r a1).1.1 =? 0
      then status req' = 0 /\ suspended req' = true
      else status req' = - ENOSPC /\ suspended req' = suspended req
    else
      world s' = w /\ body req' = Allocate a1 /\
      status req' = st /\ suspended req' = suspended req.
Proof.
  intros Hr Hb Hdone Halloc Hst a1.
  unfold handle_allocate. rewrite Hr. simpl. rewrite Hb, Hdone. simpl.
  rewrite Halloc. fold a1.
  assert (Hex : (st =? - EEXIST) = false) by lia. rewrite Hex.
  destruct (st =? 0) eqn:H0; simpl.
  - destruct (AllocateChunk w r a1) as [[rc a2] w2]. simpl.
    assert (st = 0) as -> by lia.
    destruct (rc =? 0); simpl;
      (eexists; eexists; split; [reflexivity|]);
      simpl; rewrite lookup_insert_eq; repeat split; done.
  - eexists; eexists; split; [reflexivity|].
    simpl. rewrite lookup_insert_eq. repeat split; done.
Qed.

(** X13. An allocation that comes back from the chunkservers with its
    layout done and status 0 is completed when it is served again: the
    chunk is assigned to the file in the tree, the request gets the status
    of that call and is no longer suspended, and so it is handed to the
    log; the increment and the rest of the queue are left alone. *)
Theorem completed_allocation_is_logged
        (s : State W) (r : ReqPtr) (rest : list ReqPtr) (req : MetaRequest)
        (a : MetaAllocate) (st : Z) (w : W) :
  requestList s = r :: rest ->
  heap s !! r = Some req -> body req = Allocate a ->
  layoutDone a = true -> status req = 0 ->
  assignChunkId (world s) (fid a) (offset a) (chunkId a) (chunkVersion a)
  = (st, w) ->
  exists s',
    process_request s = Some s' /\
    heap s' !! r
    = Some {| opSeqno := opSeqno req; status := st; suspended := false;
              body := Allocate a |} /\
    pending s' = pending s ++ [r] /\
    world s' = w /\ requestList s' = rest /\
    chunkVersionInc s' = chunkVersionInc s /\ calls s' = calls s.
Proof.
  intros Hq Hr Hb Hdone Hst Hassign.
  assert (Hop : op req = META_ALLOCATE) by (unfold op; by rewrite Hb).
  assert (Hrun : run_handler r (set_requestList rest s)
                 = Some (store r (set_status st (set_suspended false req))
                               (set_world w (set_requestList rest s)))).
  { unfold run_handler. simpl. rewrite Hr. simpl. rewrite Hop. simpl.
    unfold handle_allocate. simpl. rewrite Hr. simpl.
    rewrite Hb, Hdone, Hst. simpl. by rewrite Hassign. }
  unfold process_request. rewrite Hq, Hrun. simpl.
  rewrite lookup_insert_eq. simpl.
  eexists. split; [reflexivity|].
  unfold UpdateCounter. simpl.
  destruct (gCounters s !! op (set_status st (set_suspended false req)));
    simpl; rewrite lookup_insert_eq;
    unfold set_status, set_suspended; simpl; rewrite Hb; done.
Qed.

Lemma getlayout_loop_entries (w : W) (cis : list MetaChunkInfo)
      (c : list ChunkServerPtr) (v : list ChunkLayoutInfo) :
  exists l,
    (getlayout_loop w cis c v).2 = v ++ l /\
    chunk_of <$> l = take (length l) cis /\
    (((getlayout_loop w cis c v).1 = 0 /\ length l = length cis) \/
     ((getlayout_loop w cis c v).1 = - EHOSTUNREACH /\
      (length l < length cis)%nat)).
Proof.
  revert c v. induction cis as [|ci cis IH]; intros c v; simpl.
  - exists []. rewrite app_nil_r. auto.
  - destruct (GetChunkToServerMapping w (ci_chunkId ci) c) as [rc c'].
    destruct (rc =? 0); simpl.
    + match goal with
      | |- context [getlayout_loop w cis c' (v ++ [?e])] =>
          destruct (IH c' (v ++ [e])) as (l & Hv & Hm & Hst);
          exists (e :: l)
      end.
      rewrite Hv, <- app_assoc. split; [done|].
      split; [cbn [fmap list_fmap length take]; fold (fmap chunk_of l);
              rewrite Hm; by destruct ci|].
      destruct Hst as [[? ?]|[? ?]]; [left|right]; split; simpl; auto; lia.
    + exists []. rewrite app_nil_r. do 2 (split; [done|]).
      right. split; [done|simpl; lia].
Qed.

Lemma getlayout_loop_mapped
      (w : W) (m : chunkId_t -> option (list ChunkServerPtr))
      (cis : list MetaChunkInfo) (c : list ChunkServerPtr)
      (v : list ChunkLayoutInfo) :
  (forall cid old,
      match m cid with
      | Some l => GetChunkToServerMapping w cid old = (0, l)
      | None => (GetChunkToServerMapping w cid old).1 <> 0
      end) ->
  getlayout_loop w cis c v
  = (if all_mapped m cis then 0 else - EHOSTUNREACH,
     v ++ mapped_layout w m cis).
Proof.
  intros Hm. revert c v. induction cis as [|ci cis IH]; intros c v; simpl.
  - by rewrite app_nil_r.
  - pose proof (Hm (ci_chunkId ci) c) as Hc.
    destruct (m (ci_chunkId ci)) as [l|].
    + rewrite Hc. simpl. rewrite IH, <- app_assoc. done.
    + destruct (GetChunkToServerMapping w (ci_chunkId ci) c) as [rc c'].
      simpl in Hc. apply Z.eqb_neq in Hc. rewrite Hc. simpl.
      by rewrite app_nil_r.
Qed.

(** X14. GETLAYOUT on a file that exists and whose chunks the tree gives,
    when the layout manager's [GetChunkToServerMapping] answers from the
    table [m] (status 0 and the servers of a chunk that is in the table, a
    status other than 0 for a chunk that is not): the handler adds to the
    layout of the request one entry per chunk, in the order of the chunks,
    with the offset, the id and the version of the chunk and the locations
    of its servers in the order of the table.  If every chunk is in the
    table the status is 0 and every chunk has its entry; otherwise the
    handler stops at the first chunk that is not, with -EHOSTUNREACH, the
    entries of the chunks before it staying in the request.  The tree and
    the layout manager are left as they were. *)
Theorem getlayout_lists_every_chunk
        (s : State W) (r : ReqPtr) (req : MetaRequest) (f : fid_t)
        (v : list ChunkLayoutInfo) (cis : list MetaChunkInfo)
        (m : chunkId_t -> option (list ChunkServerPtr)) :
  heap s !! r = Some req -> body req = Getlayout f v ->
  file_exists s f = true -> getalloc (world s) f = (0, cis) ->
  (forall cid old,
      match m cid with
      | Some l => GetChunkToServerMapping (world s) cid old = (0, l)
      | None => (GetChunkToServerMapping (world s) cid old).1 <> 0
      end) ->
  exists s' req' l,
    handle_getlayout r s = Some s' /\ heap s' !! r = Some req' /\
    body req' = Getlayout f (v ++ l) /\
    l = mapped_layout (world s) m cis /\
    status req' = (if all_mapped m cis then 0 else - EHOSTUNREACH) /\
    chunk_of <$> l = take (length l) cis /\
    ((status req' = 0 /\ length l = length cis) \/
     (status req' = - EHOSTUNREACH /\ (length l < length cis)%nat)) /\
    world s' = world s /\ requestList s' = requestList s.
Proof.
  intros Hr Hb Hex Hga Hm.
  unfold handle_getlayout. rewrite Hr. simpl. rewrite Hb, Hex, Hga. simpl.
  destruct (getlayout_loop_entries (world s) cis [] v) as (l & Hv & Hl & Hst).
  rewrite (getlayout_loop_mapped _ m _ _ _ Hm) in Hv, Hst |- *.
  simpl in Hv, Hst. apply app_inv_head in Hv. subst l.
  eexists; eexists; eexists. split; [reflexivity|].
  simpl. rewrite lookup_insert_eq. repeat split; done.
Qed.

(** X15. READDIR, GETALLOC and GETLAYOUT look the file up before anything
    else: on a file id the tree does not know the request ends with -ENOENT,
    and a READDIR on something that is not a directory ends with -ENOTDIR.
    In both cases only the status is written: what the request held as its
    result stays, and the tree is not asked for the listing or the chunks. *)
Theorem queries_refuse_a_missing_file
        (s : State W) (r : ReqPtr) (req : MetaRequest) (f : fid_t) :
  heap s !! r = Some req -> queried_file (body req) = Some f ->
  (file_exists s f = false ->
   run_handler r s = Some (store r (set_status (- ENOENT) req) s)) /\
  (forall v, body req = Readdir f v ->
             file_exists s f = true -> is_dir s f = false ->
             run_handler r s = Some (store r (set_status (- ENOTDIR) req) s)).
Proof.
  intros Hr Hq. unfold run_handler, op. rewrite Hr. simpl.
  destruct (body req) eqn:Hb; try discriminate; injection Hq as ->; simpl.
  - unfold handle_readdir. rewrite Hr. simpl. rewrite Hb. split.
    + by intros ->.
    + intros v' [= <-] -> ->. done.
  - unfold handle_getalloc. rewrite Hr. simpl. rewrite Hb. split.
    + by intros ->.
    + intros v' [=].
  - unfold handle_getlayout. rewrite Hr. simpl. rewrite Hb. split.
    + by intros ->.
    + intros v' [=].
Qed.

Lemma UpdateCounter_calledOnce (o : MetaOp) (s : State W) :
  calledOnce (UpdateCounter o s) = calledOnce s.
Proof. unfold UpdateCounter. by destruct (gCounters s !! o). Qed.

(** X16. The counters are registered once: whatever has been counted
    since, another call of [RegisterCounters] changes nothing, so it does
    not set a counter back to 0. *)
Theorem RegisterCounters_registers_once (s : State W) (ops : list MetaOp) :
  RegisterCounters (foldr UpdateCounter (RegisterCounters s) ops)
  = foldr UpdateCounter (RegisterCounters s) ops.
Proof.
  assert (Honce : calledOnce (foldr UpdateCounter (RegisterCounters s) ops)
                  = true).
  { induction ops as [|o ops IH]; simpl.
    - unfold RegisterCounters. by destruct (calledOnce s) eqn:Hc.
    - by rewrite UpdateCounter_calledOnce. }
  unfold RegisterCounters at 1. by rewrite Honce.
Qed.
End DispatchMore.

(** The sample dispatcher with one LOOKUP to serve has no dangling
    pointer. *)
Lemma serving_lookup_well_formed : Dispatch.well_formed serving_lookup.
Proof.
  assert (Hheap : Dispatch.heap serving_lookup
                  = <[0%nat := new_request 1 (Lookup 2 "a" None)]> ∅)
    by reflexivity.
  split.
  - intros p. rewrite Hheap, lookup_insert_is_Some.
    intros [<-|[_ Hp]]; [simpl; lia|].
    rewrite lookup_empty in Hp. by destruct Hp.
  - change (Dispatch.requestList serving_lookup) with [0%nat].
    apply Forall_singleton. rewrite Hheap, lookup_insert_eq. by eexists.
Qed.

Lemma increment_changes_only_with_its_log_request_witness :
  exists s',
    Dispatch.process_request
      (Scripted.boot script_unknown_chunk [failed_allocation 0]) = Some s' /\
    Dispatch.chunkVersionInc s' = 2 /\ Dispatch.requestList s' = [1%nat].
Proof.
  assert (Hs : Dispatch.chunkVersionInc <$>
               Dispatch.process_request
                 (Scripted.boot script_unknown_chunk [failed_allocation 0])
               = Some 2) by (vm_compute; reflexivity).
  destruct (Dispatch.process_request
              (Scripted.boot script_unknown_chunk [failed_allocation 0]))
    as [s'|] eqn:Hp; [|discriminate Hs].
  exists s'. split; [reflexivity|].
  injection Hs as Hs.
  destruct (increment_changes_only_with_its_log_request
              (Scripted.boot script_unknown_chunk [failed_allocation 0])
              s' 0%nat [] eq_refl Hp)
    as [[Hi _]|(Hi & Hq & _)].
  - rewrite Hs in Hi. discriminate Hi.
  - split; [exact Hs|exact Hq].
Defined.

Lemma requests_are_served_in_queue_order_witness :
  exists s' l,
    Dispatch.serve 1 serving_lookup = Some s' /\
    Dispatch.well_formed s' /\
    Dispatch.pending s' = Dispatch.pending serving_lookup ++ l /\
    l `sublist_of` take 1 (Dispatch.requestList serving_lookup) /\
    drop 1 (Dispatch.requestList serving_lookup)
      `prefix_of` Dispatch.requestList s'.
Proof.
  apply (requests_are_served_in_queue_order 1 serving_lookup
           serving_lookup_well_formed).
  vm_compute. done.
Defined.

Lemma allocate_new_chunk_witness :
  exists s' req',
    Dispatch.handle_allocate 0%nat
      (Scripted.boot script_unknown_chunk [new_MetaAllocate 3 4 0])
    = Some s' /\
    Dispatch.heap s' !! 0%nat = Some req' /\
    status req' = 0 /\ suspended req' = true.
Proof.
  assert (Hr : Dispatch.heap
                 (Scripted.boot script_unknown_chunk [new_MetaAllocate 3 4 0])
               !! 0%nat = Some (new_MetaAllocate 3 4 0))
    by (vm_compute; reflexivity).
  assert (Ha : Dispatch.allocateChunkId
                 (Dispatch.world
                    (Scripted.boot script_unknown_chunk
                                   [new_MetaAllocate 3 4 0]))
                 (fid fresh_fields) (offset fresh_fields)
                 (0 : chunkId_t, chunkVersion fresh_fields,
                  numReplicas fresh_fields)
               = (0, (7, 1, 3), script_unknown_chunk))
    by (vm_compute; reflexivity).
  assert (Hne : 0 <> - EEXIST) by discriminate.
  destruct (allocate_new_chunk
              (Scripted.boot script_unknown_chunk [new_MetaAllocate 3 4 0])
              0%nat (new_MetaAllocate 3 4 0) fresh_fields 0 7 1 3
              script_unknown_chunk Hr eq_refl eq_refl Ha Hne)
    as (s' & req' & Hrun & Hreq & _ & _ & _ & _ & Hcase).
  exists s', req'. do 2 (split; [assumption|]).
  simpl in Hcase. destruct Hcase as (_ & _ & Hst). exact Hst.
Defined.

Lemma completed_allocation_is_logged_witness :
  exists s',
    Dispatch.process_request
      (Scripted.boot Scripted.script [completed_allocation]) = Some s' /\
    (suspended <$> Dispatch.heap s' !! 0%nat) = Some false /\
    Dispatch.pending s' = [0%nat].
Proof.
  assert (Hr : Dispatch.heap
                 (Scripted.boot Scripted.script [completed_allocation])
               !! 0%nat = Some completed_allocation)
    by (vm_compute; reflexivity).
  assert (Has : Dispatch.assignChunkId
                  (Dispatch.world
                     (Scripted.boot Scripted.script [completed_allocation]))
                  (fid leased_fields) (offset leased_fields)
                  (chunkId leased_fields) (chunkVersion leased_fields)
                = (0, Scripted.script))
    by (vm_compute; reflexivity).
  assert (Hq : Dispatch.requestList
                 (Scripted.boot Scripted.script [completed_allocation])
               = [0%nat]) by (vm_compute; reflexivity).
  destruct (completed_allocation_is_logged
              (Scripted.boot Scripted.script [completed_allocation])
              0%nat [] completed_allocation
              {| fid := 4; offset := 0; chunkId := 7; chunkVersion := 1;
                 numReplicas := 3; layoutDone := true;
                 servers := [10; 11; 12]%nat; master := Some 10%nat;
                 req := None |}
              0 Scripted.script
              Hq Hr eq_refl eq_refl eq_refl Has)
    as (s' & Hrun & Hreq & Hpend & _).
  exists s'. split; [assumption|]. split.
  - change (Dispatch.heap s' !! 0%nat)
      with (Dispatch.heap s' !! (0%nat : ReqPtr)).
    by rewrite Hreq.
  - exact Hpend.
Defined.

Lemma getlayout_lists_every_chunk_witness :
  exists s' req',
    Dispatch.handle_getlayout 0%nat
      (Scripted.holding Scripted.shelf_sample (new_request 3 (Getlayout 5 [])))
    = Some s' /\
    Dispatch.heap s' !! 0%nat = Some req' /\
    status req' = - EHOSTUNREACH /\
    body req'
    = Getlayout 5 [ {| l_offset := 0; l_chunkId := 7; l_chunkVersion := 1;
                       l_locations :=
                         [ {| hostname := "cs10"; port := 20000 |};
                           {| hostname := "cs11"; port := 20000 |} ] |} ].
Proof.
  assert (Hr : Dispatch.heap
                 (Scripted.holding Scripted.shelf_sample
                                   (new_request 3 (Getlayout 5 [])))
               !! 0%nat = Some (new_request 3 (Getlayout 5 [])))
    by (vm_compute; reflexivity).
  assert (Hex : Dispatch.file_exists
                  (Scripted.holding Scripted.shelf_sample
                                    (new_request 3 (Getlayout 5 []))) 5
                = true) by (vm_compute; reflexivity).
  assert (Hga : Dispatch.getalloc
                  (Dispatch.world
                     (Scripted.holding Scripted.shelf_sample
                                       (new_request 3 (Getlayout 5 [])))) 5
                = (0, [ {| ci_offset := 0; ci_chunkId := 7;
                           ci_chunkVersion := 1 |};
                        {| ci_offset := 67108864; ci_chunkId := 8;
                           ci_chunkVersion := 1 |} ]))
    by (vm_compute; reflexivity).
  assert (Hm : forall (cid : chunkId_t) (old : list ChunkServerPtr),
             match Scripted.mapping Scripted.shelf_sample !! cid with
             | Some l =>
                 Dispatch.GetChunkToServerMapping
                   (Dispatch.world
                      (Scripted.holding Scripted.shelf_sample
                                        (new_request 3 (Getlayout 5 []))))
                   cid old = (0, l)
             | None =>
                 (Dispatch.GetChunkToServerMapping
                    (Dispatch.world
                       (Scripted.holding Scripted.shelf_sample
                                         (new_request 3 (Getlayout 5 []))))
                    cid old).1 <> 0
             end).
  { intros cid old.
    change (Dispatch.GetChunkToServerMapping
              (Dispatch.world
                 (Scripted.holding Scripted.shelf_sample
                                   (new_request 3 (Getlayout 5 []))))
              cid old)
      with (match Scripted.mapping Scripted.shelf_sample !! cid with
            | Some l => (0, l)
            | None => (-1, old)
            end).
    destruct (Scripted.mapping Scripted.shelf_sample !! cid); done. }
  destruct (getlayout_lists_every_chunk
              (Scripted.holding Scripted.shelf_sample
                                (new_request 3 (Getlayout 5 [])))
              0%nat (new_request 3 (Getlayout 5 [])) 5 []
              [ {| ci_offset := 0; ci_chunkId := 7; ci_chunkVersion := 1 |};
                {| ci_offset := 67108864; ci_chunkId := 8;
                   ci_chunkVersion := 1 |} ]
              (fun cid => Scripted.mapping Scripted.shelf_sample !! cid)
              Hr eq_refl Hex Hga Hm)
    as (s' & req' & l & Hrun & Hreq & Hbody & Hl & Hst & _).
  exists s', req'. split; [exact Hrun|]. split; [exact Hreq|].
  split.
  - rewrite Hst. vm_compute. reflexivity.
  - rewrite Hbody, Hl. vm_compute. reflexivity.
Defined.

Lemma queries_refuse_a_missing_file_witness :
  Dispatch.run_handler 0%nat
    (Scripted.holding Scripted.shelf_sample (new_request 3 (Readdir 5 [])))
  = Some (Dispatch.store 0%nat
            (set_status (- ENOTDIR) (new_request 3 (Readdir 5 [])))
            (Scripted.holding Scripted.shelf_sample
                              (new_request 3 (Readdir 5 [])))).
Proof.
  assert (Hr : Dispatch.heap
                 (Scripted.holding Scripted.shelf_sample
                                   (new_request 3 (Readdir 5 [])))
               !! 0%nat = Some (new_request 3 (Readdir 5 [])))
    by (vm_compute; reflexivity).
  assert (Hex : Dispatch.file_exists
                  (Scripted.holding Scripted.shelf_sample
                                    (new_request 3 (Readdir 5 []))) 5
                = true) by (vm_compute; reflexivity).
  assert (Hnd : Dispatch.is_dir
                  (Scripted.holding Scripted.shelf_sample
                                    (new_request 3 (Readdir 5 []))) 5
                = false) by (vm_compute; reflexivity).
  destruct (queries_refuse_a_missing_file
              (Scripted.holding Scripted.shelf_sample
                                (new_request 3 (Readdir 5 [])))
              0%nat (new_request 3 (Readdir 5 [])) 5 Hr eq_refl)
    as [_ Hdir].
  exact (Hdir [] eq_refl Hex Hnd).
Defined.

(** * Properties of the responses and of the chunkserver requests *)

Section RespondFacts.
Context `{Respond.Printers}.
Import Reply Respond.

Lemma status_lines_head (r : MetaRequest) (os : string) :
  ((os +:+ "OK" +:+ crlf) +:+ "Cseq: " +:+ pretty (opSeqno r) +:+ crlf)
  +:+ "Status: " +:+ pretty (status r) +:+ crlf
  = os +:+ status_lines r.
Proof. unfold status_lines. by rewrite !append_assoc. Qed.

Lemma status_lines_only (r : MetaRequest) (os : string) :
  ((os +:+ "OK" +:+ crlf) +:+ "Cseq: " +:+ pretty (opSeqno r) +:+ crlf)
  +:+ "Status: " +:+ pretty (status r) +:+ crlf +:+ crlf
  = os +:+ status_lines r +:+ crlf.
Proof. unfold status_lines. by rewrite !append_assoc. Qed.

Lemma foldl_append {A : Type} (f : A -> string) (l : list A) (os : string) :
  foldl (fun os x => os +:+ f x) os l
  = os +:+ foldl (fun os x => os +:+ f x) "" l.
Proof.
  revert os. induction l as [|x l IH]; intros os; simpl.
  - by rewrite append_nil_r.
  - rewrite IH. rewrite (IH ("" +:+ f x)).
    by rewrite append_nil_l, append_assoc.
Qed.

(** X17. Every response starts with the same three lines: OK, the
    sequence number of the request and its status.  A response to a
    request that failed (status below 0) holds nothing else but the empty
    line that ends it, PING and STATS apart: no result field is sent with
    an error, and no assertion stops the response. *)
Theorem responses_start_with_the_status
        (r : MetaRequest) (os : string) (o : Outcome) :
  response r os = Some o ->
  (forall t, o = Sent t -> exists rest, t = os +:+ status_lines r +:+ rest) /\
  (status r < 0 -> op r <> META_PING -> op r <> META_STATS ->
   o = Sent (os +:+ status_lines r +:+ crlf)).
Proof.
  unfold response, op.
  destruct (body r) eqn:Hb; simpl; try discriminate; intros [= <-].
  all: unfold MetaLookup_response, MetaLookupPath_response,
         MetaCreate_response, MetaRemove_response, MetaMkdir_response,
         MetaRmdir_response, MetaReaddir_response, MetaRename_response,
         MetaGetalloc_response, MetaGetlayout_response,
         MetaAllocate_response, MetaLeaseAcquire_response,
         MetaLeaseRenew_response, MetaTruncate_response, MetaPing_response,
         MetaStats_response, ListServerLocations, PrintChunkServerLocations.
  all: cbv zeta; rewrite ?status_lines_only, ?status_lines_head.
  all: split.
  all: try (intros Hneg _ _;
            assert (Hlt : (status r <? 0) = true) by lia;
            assert (Hle : (0 <=? status r) = false) by lia;
            rewrite ?Hlt, ?Hle; by rewrite ?append_assoc).
  all: try (intros _ Hop; by destruct Hop).
  all: try (intros _ _ Hop; by destruct Hop).
  all: intros t Ht;
    repeat match type of Ht with
      | context [if ?b then _ else _] => destruct b
      | context [let (_, _) := ?x in _] => destruct x
      | context [match ?m with Some _ => _ | None => _ end] => destruct m
      end;
    try discriminate; injection Ht as <-;
    try rewrite foldl_append; rewrite ?append_assoc; by eexists.
Qed.

Lemma rpc_lines_head (r : MetaRequest) (cmd os : string) :
  rpc_name (body r) +:+ " " = cmd ->
  ((os +:+ cmd +:+ crlf) +:+ "Cseq: " +:+ pretty (opSeqno r) +:+ crlf)
  +:+ "Version: KFS/1.0" +:+ crlf
  = os +:+ rpc_lines r.
Proof. intros <-. unfold rpc_lines. by rewrite !append_assoc. Qed.

Lemma rpc_lines_only (r : MetaRequest) (cmd os : string) :
  rpc_name (body r) +:+ " " = cmd ->
  ((os +:+ cmd +:+ crlf) +:+ "Cseq: " +:+ pretty (opSeqno r) +:+ crlf)
  +:+ "Version: KFS/1.0" +:+ crlf +:+ crlf
  = os +:+ rpc_lines r +:+ crlf.
Proof. intros <-. unfold rpc_lines. by rewrite !append_assoc. Qed.

Lemma ListServerLocations_text (l : list ServerLocation) (os : string) :
  ListServerLocations l os = os +:+ replicas_text l.
Proof.
  revert os. induction l as [|x l IH]; intros os; simpl.
  - by rewrite append_nil_r.
  - unfold ListServerLocations in *. simpl. rewrite IH.
    by rewrite !append_assoc.
Qed.

(** X19. Every request to a chunkserver is written and starts with its
    command word (ALLOCATE, DELETE, TRUNCATE, HEARTBEAT, STALE_CHUNKS,
    CHUNK_VERS_CHANGE or REPLICATE) followed by a blank, then the Cseq line
    with the sequence number of the request and the line Version: KFS/1.0,
    but for an ALLOCATE that an assertion stops: one whose [req] is null,
    and one whose allocation has no server.  An ALLOCATE for an allocation
    with servers is written like the others.  The other classes of
    requests have no text for a chunkserver. *)
Theorem rpcs_start_with_their_command
        (heap : gmap ReqPtr MetaRequest) (r : MetaRequest) (os : string) :
  (rpc_name (body r) = "" -> request heap r os = None) /\
  (rpc_name (body r) <> "" ->
   (forall dep leaseId, body r <> ChunkAllocate dep leaseId) ->
   exists rest, request heap r os = Some (Sent (os +:+ rpc_lines r +:+ rest)))
  /\
  (forall leaseId, body r = ChunkAllocate None leaseId ->
                   request heap r os = Some Aborted) /\
  (forall p leaseId q a,
      body r = ChunkAllocate (Some p) leaseId ->
      heap !! p = Some q -> body q = Allocate a ->
      (servers a = [] -> request heap r os = Some Aborted) /\
      (servers a <> [] ->
       exists rest,
         request heap r os = Some (Sent (os +:+ rpc_lines r +:+ rest)))) /\
  (forall o, request heap r os = Some o ->
     match o with
     | Sent t => exists rest, t = os +:+ rpc_lines r +:+ rest
     | Aborted =>
         exists dep leaseId,
           body r = ChunkAllocate dep leaseId /\
           (dep = None \/
            exists p q a, dep = Some p /\ heap !! p = Some q /\
                          body q = Allocate a /\ servers a = [])
     end).
Proof.
  assert (Halloc : forall p leaseId q a,
             body r = ChunkAllocate (Some p) leaseId ->
             heap !! p = Some q -> body q = Allocate a ->
             (servers a = [] -> request heap r os = Some Aborted) /\
             (servers a <> [] ->
              exists rest,
                request heap r os
                = Some (Sent (os +:+ rpc_lines r +:+ rest)))).
  { intros p leaseId q a Hb Hq Hbq. unfold request.
    rewrite Hb, Hq. simpl. rewrite Hbq.
    unfold MetaChunkAllocate_request. cbv zeta.
    erewrite rpc_lines_head by (rewrite Hb; reflexivity).
    destruct (servers a) as [|x l] eqn:Hs; simpl; split; try done.
    intros _. unfold PrintChunkServerLocations.
    rewrite foldl_append. destruct (0 <=? leaseId);
      rewrite ?append_assoc; eexists; reflexivity. }
  assert (Hothers : rpc_name (body r) <> "" ->
             (forall dep leaseId, body r <> ChunkAllocate dep leaseId) ->
             exists rest,
               request heap r os
               = Some (Sent (os +:+ rpc_lines r +:+ rest))).
  { unfold request.
    destruct (body r) eqn:Hb; simpl; intros Hn Hna; try done;
      try (by destruct (Hna dep leaseId));
      unfold MetaChunkDelete_request, MetaChunkTruncate_request,
        MetaChunkHeartbeat_request, MetaChunkStaleNotify_request,
        MetaChunkVersChange_request, MetaChunkReplicate_request;
      cbv zeta;
      first [erewrite rpc_lines_head by (rewrite Hb; reflexivity)
            |erewrite rpc_lines_only by (rewrite Hb; reflexivity)];
      rewrite ?append_assoc; eexists; reflexivity. }
  split.
  { unfold request. destruct (body r); simpl; done. }
  split; [exact Hothers|].
  split.
  { intros leaseId Hb. unfold request. by rewrite Hb. }
  split; [exact Halloc|].
  intros o Ho.
  destruct (body r) eqn:Hb;
    try (unfold request in Ho; rewrite Hb in Ho; simpl in Ho;
         discriminate Ho).
  all: try (destruct Hothers as [rest Hrest];
            [intros Hn; simpl in Hn; discriminate Hn
            |intros ? ? Hn; discriminate Hn
            |rewrite Hrest in Ho; injection Ho as <-; by exists rest]).
  destruct dep as [p|].
  - unfold request in Ho. rewrite Hb in Ho.
    destruct (heap !! p) as [q|] eqn:Hq; simpl in Ho; [|discriminate].
    destruct (body q) eqn:Hbq; try discriminate.
    destruct (Halloc p leaseId q a eq_refl Hq Hbq) as [Hnil Hsome].
    assert (Hreq : request heap r os = Some o).
    { unfold request. rewrite Hb, Hq. simpl. rewrite Hbq. exact Ho. }
    destruct (servers a) as [|x l] eqn:Hs.
    + rewrite Hnil in Hreq by done. injection Hreq as <-.
      exists (Some p), leaseId. split; [done|]. right.
      exists p, q, a. done.
    + destruct Hsome as [rest Hrest]; [done|].
      rewrite Hrest in Hreq. injection Hreq as <-. by exists rest.
  - unfold request in Ho. rewrite Hb in Ho. injection Ho as <-.
    exists None, leaseId. split; [done|]. by left.
Qed.
End RespondFacts.

Section ServeAndRespond.
Context {W : Type} `{Dispatch.Collaborators W} `{Respond.Printers}.
Import Reply Respond Dispatch.

(** X18. A GETALLOC that is served for a chunk the tree and the layout
    manager know ends with status 0, and its response gives the chunk, its
    version, the number of its servers and, after Replicas:, one location
    for each server of the chunk, each after a blank, in the order of the
    layout manager.  The response is only written when there is at least
    one server: with none, the assertion on the number of replicas stops
    it. *)
Theorem getalloc_reply_lists_the_servers
        (s : State W) (r : ReqPtr) (req : MetaRequest) (f : fid_t)
        (off : chunkOff_t) (cid : chunkId_t) (cvers : seq_t)
        (ci : MetaChunkInfo) (c : list ChunkServerPtr) (os : string) :
  heap s !! r = Some req -> body req = Getalloc f off cid cvers [] ->
  file_exists s f = true ->
  getalloc1 (world s) f off = (0, ci) ->
  GetChunkToServerMapping (world s) (ci_chunkId ci) [] = (0, c) ->
  exists s' req',
    handle_getalloc r s = Some s' /\ heap s' !! r = Some req' /\
    status req' = 0 /\ opSeqno req' = opSeqno req /\
    response req' os
    = Some (match c with
            | [] => Aborted
            | _ :: _ =>
                Sent (os +:+ status_lines req'
                      +:+ "Chunk-handle: " +:+ pretty (ci_chunkId ci) +:+ crlf
                      +:+ "Chunk-version: " +:+ pretty (ci_chunkVersion ci)
                      +:+ crlf
                      +:+ "Num-replicas: " +:+ pretty (length c) +:+ crlf
                      +:+ "Replicas:"
                      +:+ replicas_text (GetServerLocation (world s) <$> c)
                      +:+ crlf +:+ crlf)
            end).
Proof.
  intros Hr Hb Hex Hga Hmap.
  unfold handle_getalloc. rewrite Hr. simpl. rewrite Hb, Hex, Hga. simpl.
  rewrite Hmap. simpl.
  eexists; eexists. split; [reflexivity|].
  simpl. rewrite lookup_insert_eq. split; [reflexivity|].
  do 2 (split; [reflexivity|]).
  unfold response. simpl. f_equal.
  unfold MetaGetalloc_response. cbv zeta.
  rewrite status_lines_head. simpl.
  destruct c as [|p c]; [reflexivity|].
  rewrite length_map. cbn [length Nat.ltb Nat.leb negb].
  f_equal. rewrite ListServerLocations_text.
  by rewrite !append_assoc.
Qed.
End ServeAndRespond.

Lemma responses_start_with_the_status_witness :
  Respond.response
    (set_status (- ENOENT) (new_request 5 (Create 2 "a" 3 0))) ""
  = Some (Respond.Sent
            ("" +:+ Respond.status_lines
                      (set_status (- ENOENT) (new_request 5 (Create 2 "a" 3 0)))
             +:+ Reply.crlf)).
Proof.
  destruct (Respond.response
              (set_status (- ENOENT) (new_request 5 (Create 2 "a" 3 0))) "")
    as [o|] eqn:Hresp; [|discriminate Hresp].
  destruct (responses_start_with_the_status _ _ _ Hresp) as [_ Herr].
  f_equal. apply Herr.
  - reflexivity.
  - intros Hop; discriminate Hop.
  - intros Hop; discriminate Hop.
Defined.

Lemma getalloc_reply_lists_the_servers_witness :
  exists s' req',
    Dispatch.handle_getalloc 0%nat
      (Scripted.holding Scripted.shelf_sample
                        (new_request 3 (Getalloc 5 0 0 0 [])))
    = Some s' /\
    Dispatch.heap s' !! 0%nat = Some req' /\ status req' = 0 /\
    opSeqno req' = 3 /\
    Respond.response req' ""
    = Some (Respond.Sent
              ("OK" +:+ Reply.crlf
               +:+ "Cseq: 3" +:+ Reply.crlf
               +:+ "Status: 0" +:+ Reply.crlf
               +:+ "Chunk-handle: 7" +:+ Reply.crlf
               +:+ "Chunk-version: 1" +:+ Reply.crlf
               +:+ "Num-replicas: 2" +:+ Reply.crlf
               +:+ "Replicas: cs10 20000 cs11 20000"
               +:+ Reply.crlf +:+ Reply.crlf)).
Proof.
  assert (Hr : Dispatch.heap
                 (Scripted.holding Scripted.shelf_sample
                                   (new_request 3 (Getalloc 5 0 0 0 [])))
               !! 0%nat = Some (new_request 3 (Getalloc 5 0 0 0 [])))
    by (vm_compute; reflexivity).
  assert (Hex : Dispatch.file_exists
                  (Scripted.holding Scripted.shelf_sample
                                    (new_request 3 (Getalloc 5 0 0 0 []))) 5
                = true) by (vm_compute; reflexivity).
  assert (Hga : Dispatch.getalloc1
                  (Dispatch.world
                     (Scripted.holding Scripted.shelf_sample
                                       (new_request 3 (Getalloc 5 0 0 0 []))))
                  5 0
                = (0, {| ci_offset := 0; ci_chunkId := 7;
                         ci_chunkVersion := 1 |}))
    by (vm_compute; reflexivity).
  assert (Hmap : Dispatch.GetChunkToServerMapping
                   (Dispatch.world
                      (Scripted.holding Scripted.shelf_sample
                                        (new_request 3 (Getalloc 5 0 0 0 []))))
                   (ci_chunkId {| ci_offset := 0; ci_chunkId := 7;
                                  ci_chunkVersion := 1 |}) []
                 = (0, [10; 11]%nat))
    by (vm_compute; reflexivity).
  destruct (getalloc_reply_lists_the_servers
              (Scripted.holding Scripted.shelf_sample
                                (new_request 3 (Getalloc 5 0 0 0 [])))
              0%nat (new_request 3 (Getalloc 5 0 0 0 [])) 5 0 0 0
              {| ci_offset := 0; ci_chunkId := 7; ci_chunkVersion := 1 |}
              [10; 11]%nat "" Hr eq_refl Hex Hga Hmap)
    as (s' & req' & Hrun & Hreq & Hst & Hseq & Hresp).
  exists s', req'. do 4 (split; [assumption|]).
  rewrite Hresp. unfold Respond.status_lines. rewrite Hst, Hseq.
  vm_compute. reflexivity.
Defined.

Lemma rpcs_start_with_their_command_witness :
  Respond.request ∅ (new_request 8 (ChunkAllocate None 1)) ""
  = Some Respond.Aborted /\
  exists rest,
    Respond.request ∅ (new_request 8 (ChunkDelete 7)) ""
    = Some (Respond.Sent
              ("" +:+ Respond.rpc_lines (new_request 8 (ChunkDelete 7))
               +:+ rest)).
Proof.
  split.
  - destruct (rpcs_start_with_their_command
                ∅ (new_request 8 (ChunkAllocate None 1)) "")
      as (_ & _ & Hnull & _).
    exact (Hnull 1 eq_refl).
  - destruct (rpcs_start_with_their_command
                ∅ (new_request 8 (ChunkDelete 7)) "")
      as (_ & Hsent & _).
    apply Hsent.
    + intros Hn; discriminate Hn.
    + intros dep leaseId Hb; discriminate Hb.
Defined.
